(** * SEN6x ESPHome component: configuration validation and code generation

    A shallow embedding of the Python modules under [components/sen6x]
    ([__init__.py], [sensor.py], [binary_sensor.py], [number.py],
    [switch.py], [button.py], [text_sensor.py]).

    Python dictionaries are association lists in insertion order, so that
    the order in which a user declares entities is visible to the model.
    Every [to_code] coroutine is a computation in a state-and-exception
    monad whose state is the list of statements issued so far through
    [cg.add] and the [new_*] helpers of the host framework. *)

From Stdlib Require Import ZArith List String Ascii Bool Lia Permutation.
From Stdlib Require Import Floats.SpecFloat.
Import ListNotations.

Open Scope string_scope.
Open Scope Z_scope.
Open Scope list_scope.

Set Warnings "-register-all".

(* ================================================================== *)
(** ** Python values *)

Module Py.

(** An identifier object of the host framework.  [None] is an identifier
    the user left out and the host framework names on its own. *)
Definition ID := option string.

(** Modelled from the spec: [esphome.core.TimePeriod] of the host
    framework, the result of the duration validator; whole-number
    components only. *)
Record TimePeriod := mkTimePeriod {
  days : Z;
  hours : Z;
  minutes : Z;
  seconds : Z;
  milliseconds : Z;
  microseconds : Z
}.

Definition total_seconds (t : TimePeriod) : Z :=
  ((days t * 24 + hours t) * 60 + minutes t) * 60 + seconds t.

(** The values a configuration tree is made of.  Floats are IEEE-754
    binary64 numbers in the specification format of the standard
    library. *)
Inductive value : Type :=
| VNone
| VBool (b : bool)
| VInt (z : Z)
| VFloat (f : spec_float)
| VStr (s : string)
| VID (i : ID)
| VTimePeriod (t : TimePeriod)
| VDict (d : list (string * value)).

(** A Python [dict] with string keys, in insertion order. *)
Definition dict := list (string * value).

(** [d.get(k)] *)
Fixpoint get (k : string) (d : dict) : option value :=
  match d with
  | [] => None
  | (k', v) :: rest => if String.eqb k k' then Some v else get k rest
  end.

(** [k in d] *)
Definition contains (k : string) (d : dict) : bool :=
  match get k d with Some _ => true | None => false end.

(** [d.get(k, default)] *)
Definition get_default (k : string) (default : value) (d : dict) : value :=
  match get k d with Some v => v | None => default end.

Definition keys (d : dict) : list string := map fst d.

Fixpoint distinct (l : list string) : bool :=
  match l with
  | [] => true
  | k :: rest => negb (existsb (String.eqb k) rest) && distinct rest
  end.

(** binary64 parameters *)
Definition prec : Z := 53.
Definition emax : Z := 1024.

(** [float(z)] for a Python int *)
Definition float_of_int (z : Z) : spec_float :=
  binary_normalize prec emax z 0 false.

(** Python [x == y] on two numbers of the kinds the component compares:
    int with int, float with float, and int with float through
    [float(int)]. *)
Definition num_eqb (x y : value) : bool :=
  match x, y with
  | VInt a, VInt b => Z.eqb a b
  | VFloat a, VFloat b => SFeqb a b
  | VInt a, VFloat b => SFeqb (float_of_int a) b
  | VFloat a, VInt b => SFeqb a (float_of_int b)
  | _, _ => false
  end.

(** Python [x != y] *)
Definition num_neb (x y : value) : bool := negb (num_eqb x y).

(** The float literals of the sources. *)
Definition float_0_0 : spec_float := S754_zero false.
Definition float_0_1 : spec_float := S754_finite false 7205759403792794 (-56).
Definition float_0_05 : spec_float := S754_finite false 7205759403792794 (-57).
Definition float_1_0 : spec_float := S754_finite false 4503599627370496 (-52).
Definition float_m1_0 : spec_float := S754_finite true 4503599627370496 (-52).

End Py.

Import Py.

(* ================================================================== *)
(** ** Field validators of the host framework ([esphome.config_validation])

    The validators belong to the host framework and are not among the
    sources of the component; they follow the contracts of the
    specification (section 4.3): each either returns the normalised value
    or fails. *)

Module cv.

(** A validator returns the normalised value, or [None] when it rejects
    its input. *)
Definition validator := value -> option value.

(** Modelled from the spec: the integer-range validator [cv.int_range] of
    the host framework; it fails if the value is outside [[min, max]]
    inclusive. *)
Definition int_range (min max : Z) : validator := fun v =>
  match v with
  | VInt z => if (min <=? z) && (z <=? max) then Some (VInt z) else None
  | _ => None
  end.

(** Modelled from the spec: the float-range validator [cv.float_range] of
    the host framework; as the integer range, with float comparison; an
    int is first turned into a float. *)
Definition float_range (min max : spec_float) : validator := fun v =>
  let check f := if SFleb min f && SFleb f max then Some (VFloat f) else None in
  match v with
  | VFloat f => check f
  | VInt z => check (float_of_int z)
  | _ => None
  end.

(** Modelled from the spec: the validator [cv.boolean] of the host
    framework; canonical true/false tokens only. *)
Definition boolean : validator := fun v =>
  match v with
  | VBool b => Some (VBool b)
  | _ => None
  end.

Definition string_ : validator := fun v =>
  match v with
  | VStr s => Some (VStr s)
  | _ => None
  end.

(** Presentation metadata given as a string or a number. *)
Definition scalar : validator := fun v =>
  match v with
  | VStr s => Some (VStr s)
  | VInt z => Some (VInt z)
  | _ => None
  end.

Definition upper_ascii (c : ascii) : ascii :=
  let n := N_of_ascii c in
  if (97 <=? n)%N && (n <=? 122)%N then ascii_of_N (n - 32) else c.

Fixpoint upper (s : string) : string :=
  match s with
  | EmptyString => EmptyString
  | String c rest => String (upper_ascii c) (upper rest)
  end.

(** Modelled from the spec: the validator [cv.enum] of the host
    framework; it fails if the value is not in the permitted set; with
    [upper] the value is upper-cased before the comparison. *)
Definition enum (options : list string) (up : bool) : validator := fun v =>
  match v with
  | VStr s =>
      let s' := if up then upper s else s in
      if existsb (String.eqb s') options then Some (VStr s') else None
  | _ => None
  end.

(** Modelled from the spec: the validators [cv.use_id] and
    [cv.declare_id] of the host framework; only the shape of the
    identifier is checked here; an omitted identifier is left to the host
    framework. *)
Definition use_id : validator := fun v =>
  match v with
  | VNone => Some (VID None)
  | VStr s => Some (VID (Some s))
  | VID i => Some (VID i)
  | _ => None
  end.

Definition declare_id : validator := use_id.

(** *** Durations *)

Definition digit_of (c : ascii) : option Z :=
  let n := Z.of_N (N_of_ascii c) in
  if (48 <=? n) && (n <=? 57) then Some (n - 48) else None.

(** Reads the leading decimal digits of [s]; returns the number read, if
    any digit was there, and the rest of the string. *)
Fixpoint read_digits (s : string) (acc : option Z) : option Z * string :=
  match s with
  | EmptyString => (acc, s)
  | String c rest =>
      match digit_of c with
      | Some d =>
          read_digits rest
            (Some (10 * (match acc with Some a => a | None => 0 end) + d))
      | None => (acc, s)
      end
  end.

Definition unit_to_period (unit : string) (n : Z) : option TimePeriod :=
  if existsb (String.eqb unit) ["us"; "microseconds"] then
    Some (mkTimePeriod 0 0 0 0 0 n)
  else if existsb (String.eqb unit) ["ms"; "milliseconds"] then
    Some (mkTimePeriod 0 0 0 0 n 0)
  else if existsb (String.eqb unit) ["s"; "sec"; "seconds"] then
    Some (mkTimePeriod 0 0 0 n 0 0)
  else if existsb (String.eqb unit) ["min"; "minutes"] then
    Some (mkTimePeriod 0 0 n 0 0 0)
  else if existsb (String.eqb unit) ["h"; "hours"] then
    Some (mkTimePeriod 0 n 0 0 0 0)
  else if existsb (String.eqb unit) ["d"; "days"] then
    Some (mkTimePeriod n 0 0 0 0 0)
  else None.

(** Modelled from the spec: the duration validator of the host
    framework; it accepts a human-readable interval (a whole number
    followed by a unit) and fails on unparseable input. *)
Definition time_period_str_unit (v : value) : option TimePeriod :=
  match v with
  | VStr s =>
      match read_digits s None with
      | (Some n, unit) => unit_to_period unit n
      | (None, _) => None
      end
  | VTimePeriod t => Some t
  | _ => None
  end.

(** Modelled from the spec: the validator
    [cv.positive_time_period_seconds] of the host framework, which
    converts a duration to a count of seconds; a negative period and a
    period with a millisecond or microsecond part are rejected. *)
Definition positive_time_period_seconds : validator := fun v =>
  match time_period_str_unit v with
  | Some t =>
      if (0 <=? total_seconds t) && (milliseconds t =? 0)
         && (microseconds t =? 0)
      then Some (VTimePeriod t) else None
  | None => None
  end.

(** *** Mapping schemas *)

(** [cv.Required(key)], [cv.Optional(key)] without and with a default.
    [cv.GenerateID(key)] is an optional key whose default is the omitted
    identifier. *)
Inductive marker :=
| MRequired
| MOptional (default : option value).

Record field := mkField {
  key : string;
  mark : marker;
  check : validator
}.

Definition schema := list field.

Definition Required (k : string) (v : validator) : field :=
  mkField k MRequired v.
Definition Optional (k : string) (v : validator) : field :=
  mkField k (MOptional None) v.
Definition OptionalDefault (k : string) (default : value) (v : validator)
  : field :=
  mkField k (MOptional (Some default)) v.
Definition GenerateID (k : string) (v : validator) : field :=
  mkField k (MOptional (Some VNone)) v.

Fixpoint find_field (k : string) (s : schema) : option field :=
  match s with
  | [] => None
  | f :: rest => if String.eqb k (key f) then Some f else find_field k rest
  end.

(** [base.extend(ext)]: the keys of [ext] replace like-named keys of
    [base]. *)
Definition extend (base ext : schema) : schema :=
  filter (fun f => match find_field (key f) ext with
                   | Some _ => false | None => true end) base ++ ext.

(** Every declared key is validated by its field; an undeclared key is
    rejected. *)
Fixpoint validate_items (s : schema) (items : dict) : option dict :=
  match items with
  | [] => Some []
  | (k, v) :: rest =>
      match find_field k s with
      | None => None
      | Some f =>
          match check f v, validate_items s rest with
          | Some v', Some out => Some ((k, v') :: out)
          | _, _ => None
          end
      end
  end.

(** The entries to add for the keys the input leaves out: the default of
    an optional key, nothing for an optional key without default; a
    missing required key fails. *)
Fixpoint missing (s : schema) (raw : dict) : option dict :=
  match s with
  | [] => Some []
  | f :: rest =>
      if contains (key f) raw then missing rest raw
      else
        match mark f with
        | MRequired => None
        | MOptional None => missing rest raw
        | MOptional (Some d) =>
            match missing rest raw with
            | Some out => Some ((key f, d) :: out)
            | None => None
            end
        end
  end.

(** Modelled from the spec: [cv.Schema(s)(v)] of the host framework,
    which applies the declared required and optional fields, defaults and
    nested sub-schemas.  [v] must be a mapping without repeated keys;
    defaults are inserted for the keys left out, then every entry is
    validated. *)
Definition Schema (s : schema) : validator := fun v =>
  match v with
  | VDict raw =>
      if distinct (keys raw) then
        match missing s raw with
        | Some defaults =>
            match validate_items s (raw ++ defaults) with
            | Some out => Some (VDict out)
            | None => None
            end
        | None => None
        end
      else None
  | _ => None
  end.

(** *** Entity schemas of the host platforms *)

Definition CONF_ID := "id".
Definition CONF_NAME := "name".

(** Modelled from the spec: [sensor.sensor_schema],
    [binary_sensor.binary_sensor_schema], [text_sensor.text_sensor_schema],
    [number.number_schema], [switch.switch_schema] and
    [button.button_schema] of the host platforms.  All declare the
    entity's identifier and its presentation metadata; the keyword
    arguments given by the component are the defaults of the like-named
    keys. *)

Definition entity_schema (kwargs : list (string * value)) : schema :=
  GenerateID CONF_ID declare_id
  :: Optional CONF_NAME string_
  :: map (fun kv => OptionalDefault (fst kv) (snd kv) scalar) kwargs.

End cv.

(* ================================================================== *)
(** ** Code generation ([esphome.codegen])

    The external hub object and the host platforms are opaque: a call to
    one of them is recorded as a statement, in the order of issue. *)

Module cg.

(** What a statement may mention: a variable bound to an identifier, a
    literal of the configuration, or a C++ struct initialiser. *)
Inductive expression :=
| Var (i : ID)
| Literal (v : value)
| StructInitializer (name : string) (fields : list (string * value)).

Inductive platform :=
| PSensor | PBinarySensor | PTextSensor | PNumber | PSwitch | PButton.

(** The wiring instructions. [SCall obj method args] is
    [cg.add(obj.method(args))]; [SRegisterComponent] and
    [SRegisterI2CDevice] register the hub with the host scheduler and the
    bus under its polling interval and address; [SNewEntity] stands for what
    [sensor.new_sensor], [number.new_number] and their like issue for an
    entity configuration and its keyword arguments. *)
Inductive statement :=
| SNewPvariable (i : ID)
| SRegisterComponent (var : expression) (update_interval : value)
| SRegisterI2CDevice (var : expression) (bus : expression) (address : value)
| SNewEntity (p : platform) (config : dict) (kwargs : list (string * value))
| SCall (obj : expression) (method : string) (args : list expression).

Inductive error :=
| KeyError (k : string)
| TypeError
| AttributeError.

Inductive result (A : Type) :=
| Ok (a : A)
| Raise (e : error).
Arguments Ok {A} a.
Arguments Raise {A} e.

(** A code-generating computation: it reads the statements issued so far
    and either raises or returns a value with the extended statements. *)
Definition CodeGen (A : Type) : Type :=
  list statement -> result (A * list statement).

Definition ret {A} (a : A) : CodeGen A := fun s => Ok (a, s).

Definition bind {A B} (m : CodeGen A) (k : A -> CodeGen B) : CodeGen B :=
  fun s =>
    match m s with
    | Ok (a, s') => k a s'
    | Raise e => Raise e
    end.

Definition raise {A} (e : error) : CodeGen A := fun _ => Raise e.

(** [cg.add(statement)] *)
Definition add (st : statement) : CodeGen unit := fun s => Ok (tt, s ++ [st]).

(** [if b: body] *)
Definition when (b : bool) (body : CodeGen unit) : CodeGen unit :=
  if b then body else ret tt.

(** [config[k]]: [KeyError] on a missing key, [TypeError] on a value that
    is not a mapping. *)
Definition getitem (config : value) (k : string) : CodeGen value :=
  match config with
  | VDict d =>
      match get k d with
      | Some v => ret v
      | None => raise (KeyError k)
      end
  | _ => raise TypeError
  end.

(** [k in config]; the sources evaluate it on mappings only. *)
Definition has (k : string) (config : value) : bool :=
  match config with
  | VDict d => contains k d
  | _ => false
  end.

(** [config.get(k, default)] *)
Definition get_or (config : value) (k : string) (default : value)
  : CodeGen value :=
  match config with
  | VDict d => ret (get_default k default d)
  | _ => raise TypeError
  end.

(** [cg.new_Pvariable(id)] *)
Definition new_Pvariable (id : value) : CodeGen expression :=
  match id with
  | VID i => bind (add (SNewPvariable i)) (fun _ => ret (Var i))
  | _ => raise TypeError
  end.

(** [cg.get_variable(id)]: the variable declared under the identifier. *)
Definition get_variable (id : value) : CodeGen expression :=
  match id with
  | VID i => ret (Var i)
  | _ => raise TypeError
  end.

(** [cg.register_component(var, config)]: registers the component with
    the host scheduler under the polling interval of its configuration. *)
Definition register_component (var : expression) (config : value)
  : CodeGen unit :=
  bind (getitem config "update_interval") (fun update_interval =>
  add (SRegisterComponent var update_interval)).

(** [i2c.register_i2c_device(var, config)]: attaches the component to
    the bus of its configuration under its address. *)
Definition register_i2c_device (var : expression) (config : value)
  : CodeGen unit :=
  bind (getitem config "i2c_id") (fun i2c_id =>
  bind (get_variable i2c_id) (fun bus =>
  bind (getitem config "address") (fun address =>
  add (SRegisterI2CDevice var bus address)))).

(** [sensor.new_sensor(config)], [number.new_number(config, **kwargs)],
    ...: constructs the entity declared under [config[CONF_ID]] and
    returns its variable. *)
Definition new_entity (p : platform) (config : value)
    (kwargs : list (string * value)) : CodeGen expression :=
  bind (getitem config cv.CONF_ID) (fun id =>
  match id, config with
  | VID i, VDict d =>
      bind (add (SNewEntity p d kwargs)) (fun _ => ret (Var i))
  | _, _ => raise TypeError
  end).

(** The statements a computation issues from an empty start, when it
    returns. *)
Definition emitted {A} (m : CodeGen A) : option (list statement) :=
  match m [] with
  | Ok (_, out) => Some out
  | Raise _ => None
  end.

End cg.

Import cg.

Declare Scope codegen_scope.
Delimit Scope codegen_scope with codegen.
Notation "x <- m ;; k" := (bind m (fun x => k))
  (at level 61, m at next level, right associativity) : codegen_scope.
Notation "m ;; k" := (bind m (fun _ => k))
  (at level 61, right associativity) : codegen_scope.
Open Scope codegen_scope.

(* ================================================================== *)
(** ** [__init__.py]: the hub *)

Module sen6x.

Definition CONF_SEN6X_ID := "sen6x_id".
Definition CONF_PRESSURE_SOURCE := "pressure_source".
Definition CONF_RHT_ACCELERATION := "rht_acceleration".
Definition CONF_RHT_K := "k".
Definition CONF_RHT_P := "p".
Definition CONF_RHT_T1 := "t1".
Definition CONF_RHT_T2 := "t2".

(** Model capabilities: PM, PM4.0, RH/T, VOC, NOx, CO2, HCHO *)
Record capabilities := mkCapabilities {
  pm : bool;
  pm4 : bool;
  rht : bool;
  voc : bool;
  nox : bool;
  co2 : bool;
  hcho : bool
}.

Definition MODEL_CAPABILITIES : list (string * capabilities) := [
  ("SEN62", mkCapabilities true true true false false false false);
  ("SEN63C", mkCapabilities true false true false false true false);
  ("SEN65", mkCapabilities true false true true true false false);
  ("SEN66", mkCapabilities true true true true true true false);
  ("SEN68", mkCapabilities true false true true true false true);
  ("SEN69C", mkCapabilities true true true true true true true)
].

(** Map model names to C++ enum values (Sen6xModel::VALUE); each value is
    the text of a [cg.RawExpression]. *)
Definition MODEL_ENUM_MAP : list (string * string) := [
  ("SEN62", "esphome::sen6x::Sen6xModel::SEN62");
  ("SEN63C", "esphome::sen6x::Sen6xModel::SEN63C");
  ("SEN65", "esphome::sen6x::Sen6xModel::SEN65");
  ("SEN66", "esphome::sen6x::Sen6xModel::SEN66");
  ("SEN68", "esphome::sen6x::Sen6xModel::SEN68");
  ("SEN69C", "esphome::sen6x::Sen6xModel::SEN69C")
].

(** [MODELS = list(MODEL_CAPABILITIES.keys())] *)
Definition MODELS : list string := map fst MODEL_CAPABILITIES.

Fixpoint lookup (model : string) (table : list (string * capabilities))
  : option capabilities :=
  match table with
  | [] => None
  | (k, c) :: rest => if String.eqb model k then Some c else lookup model rest
  end.

(** [MODEL_CAPABILITIES.get(model, MODEL_CAPABILITIES["SEN66"])]: the
    default argument is evaluated first and would raise [KeyError] (here
    [None]) if the table had no such key. *)
Definition get_model_capabilities (model : string) : option capabilities :=
  match lookup "SEN66" MODEL_CAPABILITIES with
  | Some fallback =>
      Some (match lookup model MODEL_CAPABILITIES with
            | Some c => c
            | None => fallback
            end)
  | None => None
  end.

(** [a] is at least as permissive as [b] on every flag. *)
Definition dominates (a b : capabilities) : bool :=
  implb (pm b) (pm a) && implb (pm4 b) (pm4 a) && implb (rht b) (rht a)
  && implb (voc b) (voc a) && implb (nox b) (nox a) && implb (co2 b) (co2 a)
  && implb (hcho b) (hcho a).

(** RHT Acceleration schema (YAML-only, volatile - applied on each boot) *)
Definition RHT_ACCELERATION_SCHEMA : cv.schema := [
  cv.Required CONF_RHT_K (cv.int_range (-32768) 32767);
  cv.Required CONF_RHT_P (cv.int_range (-32768) 32767);
  cv.Required CONF_RHT_T1 (cv.int_range 0 65535);
  cv.Required CONF_RHT_T2 (cv.int_range 0 65535)
].

(** Modelled from the spec: [cv.polling_component_schema(default)] and
    [i2c.i2c_device_schema(address)] of the host framework, which declare
    the polling interval and the bus address with their defaults. *)
Definition polling_component_schema (default : string) : cv.schema := [
  cv.OptionalDefault "update_interval" (VStr default)
    cv.positive_time_period_seconds
].

Definition i2c_device_schema (address : Z) : cv.schema := [
  cv.GenerateID "i2c_id" cv.use_id;
  cv.OptionalDefault "address" (VInt address) (cv.int_range 0 127)
].

Definition CONFIG_SCHEMA : cv.schema :=
  cv.extend
    (cv.extend
       [ cv.GenerateID cv.CONF_ID cv.declare_id;
         cv.Optional CONF_PRESSURE_SOURCE cv.use_id;
         cv.Optional CONF_RHT_ACCELERATION (cv.Schema RHT_ACCELERATION_SCHEMA) ]
       (polling_component_schema "10s"))
    (i2c_device_schema 107).

Definition to_code (config : value) : CodeGen unit :=
  id <- getitem config cv.CONF_ID ;;
  var <- new_Pvariable id ;;
  register_component var config ;;
  register_i2c_device var config ;;
  (* Optional external pressure source for CO2 compensation *)
  when (has CONF_PRESSURE_SOURCE config) (
    source <- getitem config CONF_PRESSURE_SOURCE ;;
    pressure_sensor <- get_variable source ;;
    add (SCall var "set_pressure_source" [pressure_sensor])) ;;
  (* RHT Acceleration (YAML-only, volatile - applied on each boot) *)
  when (has CONF_RHT_ACCELERATION config) (
    rht <- getitem config CONF_RHT_ACCELERATION ;;
    k <- getitem rht CONF_RHT_K ;;
    p <- getitem rht CONF_RHT_P ;;
    t1 <- getitem rht CONF_RHT_T1 ;;
    t2 <- getitem rht CONF_RHT_T2 ;;
    let rht_struct :=
      StructInitializer "RhtAcceleration"
        [("k", k); ("p", p); ("t1", t1); ("t2", t2)] in
    add (SCall var "set_rht_acceleration" [rht_struct])).

End sen6x.

(* ================================================================== *)
(** ** [sensor.py]: measurement sensors *)

Module sensor.

(** Constants of [esphome.const]. *)
Definition CONF_CO2 := "co2".
Definition CONF_HUMIDITY := "humidity".
Definition CONF_PM_1_0 := "pm_1_0".
Definition CONF_PM_2_5 := "pm_2_5".
Definition CONF_PM_10_0 := "pm_10_0".
Definition CONF_TEMPERATURE := "temperature".
Definition DEVICE_CLASS_CARBON_DIOXIDE := "carbon_dioxide".
Definition DEVICE_CLASS_HUMIDITY := "humidity".
Definition DEVICE_CLASS_PM1 := "pm1".
Definition DEVICE_CLASS_PM25 := "pm25".
Definition DEVICE_CLASS_PM10 := "pm10".
Definition DEVICE_CLASS_TEMPERATURE := "temperature".
Definition STATE_CLASS_MEASUREMENT := "measurement".
(** Units that are not ASCII in the sources are transcribed in ASCII. *)
Definition UNIT_CELSIUS := "degC".
Definition UNIT_MICROGRAMS_PER_CUBIC_METER := "ug/m3".
Definition UNIT_PARTS_PER_MILLION := "ppm".
Definition UNIT_PERCENT := "%".
Definition UGM3 := "ug/m3".
Definition NCM3 := "#/cm3".

Definition CONF_PM_4_0 := "pm_4_0".
Definition CONF_VOC_INDEX := "voc_index".
Definition CONF_NOX_INDEX := "nox_index".
Definition CONF_FORMALDEHYDE := "formaldehyde".
Definition CONF_TVOC_WELL := "tvoc_well".
Definition CONF_TVOC_RESET := "tvoc_reset".
Definition CONF_TVOC_ETHANOL := "tvoc_ethanol".
Definition CONF_NC_0_5 := "nc_0_5".
Definition CONF_NC_1_0 := "nc_1_0".
Definition CONF_NC_2_5 := "nc_2_5".
Definition CONF_NC_4_0 := "nc_4_0".
Definition CONF_NC_10_0 := "nc_10_0".
Definition CONF_AMBIENT_PRESSURE := "ambient_pressure".
Definition CONF_SENSOR_ALTITUDE := "sensor_altitude".

(** VOC/NOx Algorithm Tuning parameters (6 parameters per Sensirion
    datasheet) *)
Definition CONF_ALGORITHM_TUNING := "algorithm_tuning".
Definition CONF_INDEX_OFFSET := "index_offset".
Definition CONF_LEARNING_TIME_OFFSET_HOURS := "learning_time_offset_hours".
Definition CONF_LEARNING_TIME_GAIN_HOURS := "learning_time_gain_hours".
Definition CONF_GATING_MAX_DURATION_MINUTES := "gating_max_duration_minutes".
Definition CONF_STD_INITIAL := "std_initial".
Definition CONF_GAIN_FACTOR := "gain_factor".

(** A table of tuning defaults: the six keys of the source's dictionaries
    are the six fields. *)
Record tuning_defaults := mkTuningDefaults {
  index_offset : Z;
  learning_time_offset_hours : Z;
  learning_time_gain_hours : Z;
  gating_max_duration_minutes : Z;
  std_initial : Z;
  gain_factor : Z
}.

(** VOC tuning defaults (per Sensirion datasheet) *)
Definition VOC_DEFAULTS : tuning_defaults := {|
  index_offset := 100;
  learning_time_offset_hours := 12;
  learning_time_gain_hours := 12;
  gating_max_duration_minutes := 180;
  std_initial := 50;
  gain_factor := 230
|}.

(** NOx tuning defaults (gating is longer) *)
Definition NOX_DEFAULTS : tuning_defaults := {|
  index_offset := 1;
  learning_time_offset_hours := 12;
  learning_time_gain_hours := 12;
  gating_max_duration_minutes := 720;
  std_initial := 50;
  gain_factor := 230
|}.

(** The fields of a defaults table under their names, in source order. *)
Definition items (d : tuning_defaults) : list (string * Z) := [
  (CONF_INDEX_OFFSET, index_offset d);
  (CONF_LEARNING_TIME_OFFSET_HOURS, learning_time_offset_hours d);
  (CONF_LEARNING_TIME_GAIN_HOURS, learning_time_gain_hours d);
  (CONF_GATING_MAX_DURATION_MINUTES, gating_max_duration_minutes d);
  (CONF_STD_INITIAL, std_initial d);
  (CONF_GAIN_FACTOR, gain_factor d)
].

(** Algorithm tuning sub-schema (6 parameters per Sensirion datasheet) *)
Definition ALGORITHM_TUNING_SCHEMA (defaults : tuning_defaults) : cv.schema := [
  cv.OptionalDefault CONF_INDEX_OFFSET (VInt (index_offset defaults))
    (cv.int_range 1 250);
  cv.OptionalDefault CONF_LEARNING_TIME_OFFSET_HOURS
    (VInt (learning_time_offset_hours defaults)) (cv.int_range 1 1000);
  cv.OptionalDefault CONF_LEARNING_TIME_GAIN_HOURS
    (VInt (learning_time_gain_hours defaults)) (cv.int_range 1 1000);
  cv.OptionalDefault CONF_GATING_MAX_DURATION_MINUTES
    (VInt (gating_max_duration_minutes defaults)) (cv.int_range 0 3000);
  cv.OptionalDefault CONF_STD_INITIAL (VInt (std_initial defaults))
    (cv.int_range 10 5000);
  cv.OptionalDefault CONF_GAIN_FACTOR (VInt (gain_factor defaults))
    (cv.int_range 1 1000)
].

Definition sensor_schema := cv.entity_schema.

Definition CONFIG_SCHEMA : cv.schema := [
  cv.GenerateID sen6x.CONF_SEN6X_ID cv.use_id;
  cv.Optional CONF_PM_1_0 (cv.Schema
    (sensor_schema
       [ ("unit_of_measurement", VStr UNIT_MICROGRAMS_PER_CUBIC_METER);
         ("icon", VStr "mdi:blur");
         ("accuracy_decimals", VInt 1);
         ("device_class", VStr DEVICE_CLASS_PM1);
         ("state_class", VStr STATE_CLASS_MEASUREMENT) ]));
  cv.Optional CONF_PM_2_5 (cv.Schema
    (sensor_schema
       [ ("unit_of_measurement", VStr UNIT_MICROGRAMS_PER_CUBIC_METER);
         ("icon", VStr "mdi:blur");
         ("accuracy_decimals", VInt 1);
         ("device_class", VStr DEVICE_CLASS_PM25);
         ("state_class", VStr STATE_CLASS_MEASUREMENT) ]));
  cv.Optional CONF_PM_4_0 (cv.Schema
    (sensor_schema
       [ ("unit_of_measurement", VStr UNIT_MICROGRAMS_PER_CUBIC_METER);
         ("icon", VStr "mdi:blur");
         ("accuracy_decimals", VInt 1);
         ("state_class", VStr STATE_CLASS_MEASUREMENT) ]));
  cv.Optional CONF_PM_10_0 (cv.Schema
    (sensor_schema
       [ ("unit_of_measurement", VStr UNIT_MICROGRAMS_PER_CUBIC_METER);
         ("icon", VStr "mdi:blur");
         ("accuracy_decimals", VInt 1);
         ("device_class", VStr DEVICE_CLASS_PM10);
         ("state_class", VStr STATE_CLASS_MEASUREMENT) ]));
  cv.Optional CONF_HUMIDITY (cv.Schema
    (sensor_schema
       [ ("unit_of_measurement", VStr UNIT_PERCENT);
         ("icon", VStr "mdi:water-percent");
         ("accuracy_decimals", VInt 1);
         ("device_class", VStr DEVICE_CLASS_HUMIDITY);
         ("state_class", VStr STATE_CLASS_MEASUREMENT) ]));
  cv.Optional CONF_TEMPERATURE (cv.Schema
    (sensor_schema
       [ ("unit_of_measurement", VStr UNIT_CELSIUS);
         ("icon", VStr "mdi:thermometer");
         ("accuracy_decimals", VInt 1);
         ("device_class", VStr DEVICE_CLASS_TEMPERATURE);
         ("state_class", VStr STATE_CLASS_MEASUREMENT) ]));
  cv.Optional CONF_VOC_INDEX (cv.Schema
    (cv.extend
       (sensor_schema
       [ ("icon", VStr "mdi:air-filter");
         ("accuracy_decimals", VInt 0);
         ("state_class", VStr STATE_CLASS_MEASUREMENT) ])
       [ cv.Optional CONF_ALGORITHM_TUNING
           (cv.Schema (ALGORITHM_TUNING_SCHEMA VOC_DEFAULTS)) ]));
  cv.Optional CONF_NOX_INDEX (cv.Schema
    (cv.extend
       (sensor_schema
       [ ("icon", VStr "mdi:air-filter");
         ("accuracy_decimals", VInt 0);
         ("state_class", VStr STATE_CLASS_MEASUREMENT) ])
       [ cv.Optional CONF_ALGORITHM_TUNING
           (cv.Schema (ALGORITHM_TUNING_SCHEMA NOX_DEFAULTS)) ]));
  cv.Optional CONF_CO2 (cv.Schema
    (sensor_schema
       [ ("unit_of_measurement", VStr UNIT_PARTS_PER_MILLION);
         ("icon", VStr "mdi:molecule-co2");
         ("accuracy_decimals", VInt 0);
         ("device_class", VStr DEVICE_CLASS_CARBON_DIOXIDE);
         ("state_class", VStr STATE_CLASS_MEASUREMENT) ]));
  cv.Optional CONF_FORMALDEHYDE (cv.Schema
    (sensor_schema
       [ ("unit_of_measurement", VStr "ppb");
         ("icon", VStr "mdi:molecule");
         ("accuracy_decimals", VInt 1);
         ("state_class", VStr STATE_CLASS_MEASUREMENT) ]));
  cv.Optional CONF_TVOC_WELL (cv.Schema
    (sensor_schema
       [ ("unit_of_measurement", VStr UGM3);
         ("icon", VStr "mdi:air-filter");
         ("accuracy_decimals", VInt 0);
         ("device_class", VStr "volatile_organic_compounds");
         ("state_class", VStr STATE_CLASS_MEASUREMENT) ]));
  cv.Optional CONF_TVOC_RESET (cv.Schema
    (sensor_schema
       [ ("unit_of_measurement", VStr UGM3);
         ("icon", VStr "mdi:air-filter");
         ("accuracy_decimals", VInt 0);
         ("device_class", VStr "volatile_organic_compounds");
         ("state_class", VStr STATE_CLASS_MEASUREMENT) ]));
  cv.Optional CONF_TVOC_ETHANOL (cv.Schema
    (sensor_schema
       [ ("unit_of_measurement", VStr "ppb");
         ("icon", VStr "mdi:chemical-weapon");
         ("accuracy_decimals", VInt 0);
         ("device_class", VStr "volatile_organic_compounds");
         ("state_class", VStr STATE_CLASS_MEASUREMENT) ]));
  cv.Optional CONF_NC_0_5 (cv.Schema
    (sensor_schema
       [ ("unit_of_measurement", VStr NCM3);
         ("icon", VStr "mdi:blur");
         ("accuracy_decimals", VInt 1);
         ("state_class", VStr STATE_CLASS_MEASUREMENT);
         ("entity_category", VStr "diagnostic") ]));
  cv.Optional CONF_NC_1_0 (cv.Schema
    (sensor_schema
       [ ("unit_of_measurement", VStr NCM3);
         ("icon", VStr "mdi:blur");
         ("accuracy_decimals", VInt 1);
         ("state_class", VStr STATE_CLASS_MEASUREMENT);
         ("entity_category", VStr "diagnostic") ]));
  cv.Optional CONF_NC_2_5 (cv.Schema
    (sensor_schema
       [ ("unit_of_measurement", VStr NCM3);
         ("icon", VStr "mdi:blur");
         ("accuracy_decimals", VInt 1);
         ("state_class", VStr STATE_CLASS_MEASUREMENT);
         ("entity_category", VStr "diagnostic") ]));
  cv.Optional CONF_NC_4_0 (cv.Schema
    (sensor_schema
       [ ("unit_of_measurement", VStr NCM3);
         ("icon", VStr "mdi:blur");
         ("accuracy_decimals", VInt 1);
         ("state_class", VStr STATE_CLASS_MEASUREMENT);
         ("entity_category", VStr "diagnostic") ]));
  cv.Optional CONF_NC_10_0 (cv.Schema
    (sensor_schema
       [ ("unit_of_measurement", VStr NCM3);
         ("icon", VStr "mdi:blur");
         ("accuracy_decimals", VInt 1);
         ("state_class", VStr STATE_CLASS_MEASUREMENT);
         ("entity_category", VStr "diagnostic") ]));
  cv.Optional CONF_AMBIENT_PRESSURE (cv.Schema
    (sensor_schema
       [ ("unit_of_measurement", VStr "hPa");
         ("icon", VStr "mdi:gauge");
         ("accuracy_decimals", VInt 0);
         ("state_class", VStr STATE_CLASS_MEASUREMENT);
         ("entity_category", VStr "diagnostic") ]));
  cv.Optional CONF_SENSOR_ALTITUDE (cv.Schema
    (sensor_schema
       [ ("unit_of_measurement", VStr "m");
         ("icon", VStr "mdi:elevation-rise");
         ("accuracy_decimals", VInt 0);
         ("state_class", VStr STATE_CLASS_MEASUREMENT);
         ("entity_category", VStr "diagnostic") ]))
].

Definition new_sensor (config : value) : CodeGen expression :=
  new_entity PSensor config [].

Definition to_code (config : value) : CodeGen unit :=
  id <- getitem config sen6x.CONF_SEN6X_ID ;;
  hub <- get_variable id ;;
  when (has CONF_PM_1_0 config) (
    c <- getitem config CONF_PM_1_0 ;;
    sens <- new_sensor c ;;
    add (SCall hub "set_pm_1_0_sensor" [sens])) ;;
  when (has CONF_PM_2_5 config) (
    c <- getitem config CONF_PM_2_5 ;;
    sens <- new_sensor c ;;
    add (SCall hub "set_pm_2_5_sensor" [sens])) ;;
  when (has CONF_PM_4_0 config) (
    c <- getitem config CONF_PM_4_0 ;;
    sens <- new_sensor c ;;
    add (SCall hub "set_pm_4_0_sensor" [sens])) ;;
  when (has CONF_PM_10_0 config) (
    c <- getitem config CONF_PM_10_0 ;;
    sens <- new_sensor c ;;
    add (SCall hub "set_pm_10_0_sensor" [sens])) ;;
  when (has CONF_HUMIDITY config) (
    c <- getitem config CONF_HUMIDITY ;;
    sens <- new_sensor c ;;
    add (SCall hub "set_humidity_sensor" [sens])) ;;
  when (has CONF_TEMPERATURE config) (
    c <- getitem config CONF_TEMPERATURE ;;
    sens <- new_sensor c ;;
    add (SCall hub "set_temperature_sensor" [sens])) ;;
  when (has CONF_VOC_INDEX config) (
    voc_config <- getitem config CONF_VOC_INDEX ;;
    sens <- new_sensor voc_config ;;
    add (SCall hub "set_voc_index_sensor" [sens]) ;;
    (* VOC algorithm tuning (advanced, 6 parameters per datasheet) *)
    when (has CONF_ALGORITHM_TUNING voc_config) (
      tuning <- getitem voc_config CONF_ALGORITHM_TUNING ;;
      a1 <- getitem tuning CONF_INDEX_OFFSET ;;
      a2 <- getitem tuning CONF_LEARNING_TIME_OFFSET_HOURS ;;
      a3 <- getitem tuning CONF_LEARNING_TIME_GAIN_HOURS ;;
      a4 <- getitem tuning CONF_GATING_MAX_DURATION_MINUTES ;;
      a5 <- getitem tuning CONF_STD_INITIAL ;;
      a6 <- getitem tuning CONF_GAIN_FACTOR ;;
      add (SCall hub "set_voc_algorithm_tuning"
             [Literal a1; Literal a2; Literal a3;
              Literal a4; Literal a5; Literal a6]))) ;;
  when (has CONF_NOX_INDEX config) (
    nox_config <- getitem config CONF_NOX_INDEX ;;
    sens <- new_sensor nox_config ;;
    add (SCall hub "set_nox_index_sensor" [sens]) ;;
    (* NOx algorithm tuning (advanced, 6 parameters per datasheet) *)
    when (has CONF_ALGORITHM_TUNING nox_config) (
      tuning <- getitem nox_config CONF_ALGORITHM_TUNING ;;
      a1 <- getitem tuning CONF_INDEX_OFFSET ;;
      a2 <- getitem tuning CONF_LEARNING_TIME_OFFSET_HOURS ;;
      a3 <- getitem tuning CONF_LEARNING_TIME_GAIN_HOURS ;;
      a4 <- getitem tuning CONF_GATING_MAX_DURATION_MINUTES ;;
      a5 <- getitem tuning CONF_STD_INITIAL ;;
      a6 <- getitem tuning CONF_GAIN_FACTOR ;;
      add (SCall hub "set_nox_algorithm_tuning"
             [Literal a1; Literal a2; Literal a3;
              Literal a4; Literal a5; Literal a6]))) ;;
  when (has CONF_CO2 config) (
    c <- getitem config CONF_CO2 ;;
    sens <- new_sensor c ;;
    add (SCall hub "set_co2_sensor" [sens])) ;;
  when (has CONF_FORMALDEHYDE config) (
    c <- getitem config CONF_FORMALDEHYDE ;;
    sens <- new_sensor c ;;
    add (SCall hub "set_formaldehyde_sensor" [sens])) ;;
  when (has CONF_TVOC_WELL config) (
    c <- getitem config CONF_TVOC_WELL ;;
    sens <- new_sensor c ;;
    add (SCall hub "set_tvoc_well_sensor" [sens])) ;;
  when (has CONF_TVOC_RESET config) (
    c <- getitem config CONF_TVOC_RESET ;;
    sens <- new_sensor c ;;
    add (SCall hub "set_tvoc_reset_sensor" [sens])) ;;
  when (has CONF_TVOC_ETHANOL config) (
    c <- getitem config CONF_TVOC_ETHANOL ;;
    sens <- new_sensor c ;;
    add (SCall hub "set_tvoc_ethanol_sensor" [sens])) ;;
  when (has CONF_NC_0_5 config) (
    c <- getitem config CONF_NC_0_5 ;;
    sens <- new_sensor c ;;
    add (SCall hub "set_nc_0_5_sensor" [sens])) ;;
  when (has CONF_NC_1_0 config) (
    c <- getitem config CONF_NC_1_0 ;;
    sens <- new_sensor c ;;
    add (SCall hub "set_nc_1_0_sensor" [sens])) ;;
  when (has CONF_NC_2_5 config) (
    c <- getitem config CONF_NC_2_5 ;;
    sens <- new_sensor c ;;
    add (SCall hub "set_nc_2_5_sensor" [sens])) ;;
  when (has CONF_NC_4_0 config) (
    c <- getitem config CONF_NC_4_0 ;;
    sens <- new_sensor c ;;
    add (SCall hub "set_nc_4_0_sensor" [sens])) ;;
  when (has CONF_NC_10_0 config) (
    c <- getitem config CONF_NC_10_0 ;;
    sens <- new_sensor c ;;
    add (SCall hub "set_nc_10_0_sensor" [sens])) ;;
  when (has CONF_AMBIENT_PRESSURE config) (
    c <- getitem config CONF_AMBIENT_PRESSURE ;;
    sens <- new_sensor c ;;
    add (SCall hub "set_ambient_pressure_sensor" [sens])) ;;
  when (has CONF_SENSOR_ALTITUDE config) (
    c <- getitem config CONF_SENSOR_ALTITUDE ;;
    sens <- new_sensor c ;;
    add (SCall hub "set_sensor_altitude_sensor" [sens])).

End sensor.

(* ================================================================== *)
(** ** [binary_sensor.py]: binary state sensors *)

Module binary_sensor.

Definition CONF_FAN_ERROR := "fan_error".
Definition CONF_FAN_WARNING := "fan_warning".
Definition CONF_GAS_ERROR := "gas_error".
Definition CONF_RHT_ERROR := "rht_error".
Definition CONF_PM_ERROR := "pm_error".
Definition CONF_LASER_ERROR := "laser_error".
Definition CONF_FAN_CLEANING_ACTIVE := "fan_cleaning_active".


Definition binary_sensor_schema := cv.entity_schema.

Definition CONFIG_SCHEMA : cv.schema := [
  cv.GenerateID sen6x.CONF_SEN6X_ID cv.use_id;
  cv.Optional CONF_FAN_ERROR (cv.Schema
    (binary_sensor_schema
       [ ("device_class", VStr "problem");
         ("entity_category", VStr "diagnostic");
         ("icon", VStr "mdi:fan-alert") ]));
  cv.Optional CONF_FAN_WARNING (cv.Schema
    (binary_sensor_schema
       [ ("device_class", VStr "problem");
         ("entity_category", VStr "diagnostic");
         ("icon", VStr "mdi:fan-alert") ]));
  cv.Optional CONF_GAS_ERROR (cv.Schema
    (binary_sensor_schema
       [ ("device_class", VStr "problem");
         ("entity_category", VStr "diagnostic");
         ("icon", VStr "mdi:gas-cylinder-alert") ]));
  cv.Optional CONF_RHT_ERROR (cv.Schema
    (binary_sensor_schema
       [ ("device_class", VStr "problem");
         ("entity_category", VStr "diagnostic");
         ("icon", VStr "mdi:thermometer-alert") ]));
  cv.Optional CONF_PM_ERROR (cv.Schema
    (binary_sensor_schema
       [ ("device_class", VStr "problem");
         ("entity_category", VStr "diagnostic");
         ("icon", VStr "mdi:air-filter") ]));
  cv.Optional CONF_LASER_ERROR (cv.Schema
    (binary_sensor_schema
       [ ("device_class", VStr "problem");
         ("entity_category", VStr "diagnostic");
         ("icon", VStr "mdi:laser-pointer") ]));
  cv.Optional CONF_FAN_CLEANING_ACTIVE (cv.Schema
    (binary_sensor_schema
       [ ("entity_category", VStr "diagnostic");
         ("icon", VStr "mdi:broom") ]))
].

Definition new_binary_sensor (config : value) : CodeGen expression :=
  new_entity PBinarySensor config [].

Definition to_code (config : value) : CodeGen unit :=
  id <- getitem config sen6x.CONF_SEN6X_ID ;;
  hub <- get_variable id ;;
  when (has CONF_FAN_ERROR config) (
    c <- getitem config CONF_FAN_ERROR ;;
    sens <- new_binary_sensor c ;;
    add (SCall hub "set_fan_error_binary_sensor" [sens])) ;;
  when (has CONF_FAN_WARNING config) (
    c <- getitem config CONF_FAN_WARNING ;;
    sens <- new_binary_sensor c ;;
    add (SCall hub "set_fan_warning_binary_sensor" [sens])) ;;
  when (has CONF_GAS_ERROR config) (
    c <- getitem config CONF_GAS_ERROR ;;
    sens <- new_binary_sensor c ;;
    add (SCall hub "set_gas_error_binary_sensor" [sens])) ;;
  when (has CONF_RHT_ERROR config) (
    c <- getitem config CONF_RHT_ERROR ;;
    sens <- new_binary_sensor c ;;
    add (SCall hub "set_rht_error_binary_sensor" [sens])) ;;
  when (has CONF_PM_ERROR config) (
    c <- getitem config CONF_PM_ERROR ;;
    sens <- new_binary_sensor c ;;
    add (SCall hub "set_pm_error_binary_sensor" [sens])) ;;
  when (has CONF_LASER_ERROR config) (
    c <- getitem config CONF_LASER_ERROR ;;
    sens <- new_binary_sensor c ;;
    add (SCall hub "set_laser_error_binary_sensor" [sens])) ;;
  when (has CONF_FAN_CLEANING_ACTIVE config) (
    c <- getitem config CONF_FAN_CLEANING_ACTIVE ;;
    sens <- new_binary_sensor c ;;
    add (SCall hub "set_fan_cleaning_active_binary_sensor" [sens])).

End binary_sensor.

(* ================================================================== *)
(** ** [text_sensor.py]: text sensors *)

Module text_sensor.

Definition CONF_PRODUCT_NAME := "product_name".
Definition CONF_SERIAL_NUMBER := "serial_number".
Definition CONF_STATUS_HEX := "status_hex".
Definition CONF_FIRMWARE_VERSION := "firmware_version".


Definition text_sensor_schema := cv.entity_schema.

Definition CONFIG_SCHEMA : cv.schema := [
  cv.GenerateID sen6x.CONF_SEN6X_ID cv.use_id;
  cv.Optional CONF_PRODUCT_NAME (cv.Schema
    (text_sensor_schema
       [ ("icon", VStr "mdi:chip");
         ("entity_category", VStr "diagnostic") ]));
  cv.Optional CONF_SERIAL_NUMBER (cv.Schema
    (text_sensor_schema
       [ ("icon", VStr "mdi:barcode");
         ("entity_category", VStr "diagnostic") ]));
  cv.Optional CONF_STATUS_HEX (cv.Schema
    (text_sensor_schema
       [ ("icon", VStr "mdi:list-status");
         ("entity_category", VStr "diagnostic") ]));
  cv.Optional CONF_FIRMWARE_VERSION (cv.Schema
    (text_sensor_schema
       [ ("icon", VStr "mdi:memory");
         ("entity_category", VStr "diagnostic") ]))
].

Definition new_text_sensor (config : value) : CodeGen expression :=
  new_entity PTextSensor config [].

Definition to_code (config : value) : CodeGen unit :=
  id <- getitem config sen6x.CONF_SEN6X_ID ;;
  hub <- get_variable id ;;
  when (has CONF_PRODUCT_NAME config) (
    c <- getitem config CONF_PRODUCT_NAME ;;
    sens <- new_text_sensor c ;;
    add (SCall hub "set_product_name_text_sensor" [sens])) ;;
  when (has CONF_SERIAL_NUMBER config) (
    c <- getitem config CONF_SERIAL_NUMBER ;;
    sens <- new_text_sensor c ;;
    add (SCall hub "set_serial_number_text_sensor" [sens])) ;;
  when (has CONF_STATUS_HEX config) (
    c <- getitem config CONF_STATUS_HEX ;;
    sens <- new_text_sensor c ;;
    add (SCall hub "set_status_text_sensor" [sens])) ;;
  when (has CONF_FIRMWARE_VERSION config) (
    c <- getitem config CONF_FIRMWARE_VERSION ;;
    sens <- new_text_sensor c ;;
    add (SCall hub "set_firmware_version_sensor" [sens])).

End text_sensor.

(* ================================================================== *)
(** ** [button.py]: momentary buttons *)

Module button.

Definition CONF_FAN_CLEANING := "fan_cleaning".
Definition CONF_DEVICE_RESET := "device_reset".
Definition CONF_RESET_PREFERENCES := "reset_preferences".
Definition CONF_FORCE_CO2_CALIBRATION := "force_co2_calibration".
Definition CONF_CO2_FACTORY_RESET := "co2_factory_reset".
Definition CONF_SHT_HEATER := "sht_heater".
Definition CONF_CLEAR_DEVICE_STATUS := "clear_device_status".

Definition ENTITY_CATEGORY_CONFIG := "config".

Definition button_schema := cv.entity_schema.

Definition CONFIG_SCHEMA : cv.schema := [
  cv.GenerateID sen6x.CONF_SEN6X_ID cv.use_id;
  cv.Optional CONF_FAN_CLEANING (cv.Schema
    (button_schema
       [ ("icon", VStr "mdi:fan-remove");
         ("entity_category", VStr ENTITY_CATEGORY_CONFIG) ]));
  cv.Optional CONF_DEVICE_RESET (cv.Schema
    (button_schema
       [ ("icon", VStr "mdi:restart");
         ("entity_category", VStr ENTITY_CATEGORY_CONFIG) ]));
  cv.Optional CONF_RESET_PREFERENCES (cv.Schema
    (button_schema
       [ ("icon", VStr "mdi:restore-alert");
         ("entity_category", VStr ENTITY_CATEGORY_CONFIG) ]));
  cv.Optional CONF_FORCE_CO2_CALIBRATION (cv.Schema
    (button_schema
       [ ("icon", VStr "mdi:molecule-co2");
         ("entity_category", VStr ENTITY_CATEGORY_CONFIG) ]));
  cv.Optional CONF_CO2_FACTORY_RESET (cv.Schema
    (button_schema
       [ ("icon", VStr "mdi:refresh-circle");
         ("entity_category", VStr ENTITY_CATEGORY_CONFIG) ]));
  cv.Optional CONF_SHT_HEATER (cv.Schema
    (button_schema
       [ ("icon", VStr "mdi:radiator");
         ("entity_category", VStr ENTITY_CATEGORY_CONFIG) ]));
  cv.Optional CONF_CLEAR_DEVICE_STATUS (cv.Schema
    (button_schema
       [ ("icon", VStr "mdi:eraser");
         ("entity_category", VStr ENTITY_CATEGORY_CONFIG) ]))
].

Definition new_button (config : value) : CodeGen expression :=
  new_entity PButton config [].

Definition to_code (config : value) : CodeGen unit :=
  id <- getitem config sen6x.CONF_SEN6X_ID ;;
  hub <- get_variable id ;;
  when (has CONF_FAN_CLEANING config) (
    c <- getitem config CONF_FAN_CLEANING ;;
    b <- new_button c ;;
    add (SCall hub "set_fan_cleaning_button" [b])) ;;
  when (has CONF_DEVICE_RESET config) (
    c <- getitem config CONF_DEVICE_RESET ;;
    b <- new_button c ;;
    add (SCall hub "set_device_reset_button" [b])) ;;
  when (has CONF_RESET_PREFERENCES config) (
    c <- getitem config CONF_RESET_PREFERENCES ;;
    b <- new_button c ;;
    add (SCall hub "set_reset_preferences_button" [b])) ;;
  when (has CONF_FORCE_CO2_CALIBRATION config) (
    c <- getitem config CONF_FORCE_CO2_CALIBRATION ;;
    b <- new_button c ;;
    add (SCall hub "set_force_co2_calibration_button" [b])) ;;
  when (has CONF_CO2_FACTORY_RESET config) (
    c <- getitem config CONF_CO2_FACTORY_RESET ;;
    b <- new_button c ;;
    add (SCall hub "set_co2_factory_reset_button" [b])) ;;
  when (has CONF_SHT_HEATER config) (
    c <- getitem config CONF_SHT_HEATER ;;
    b <- new_button c ;;
    add (SCall hub "set_sht_heater_button" [b])) ;;
  when (has CONF_CLEAR_DEVICE_STATUS config) (
    c <- getitem config CONF_CLEAR_DEVICE_STATUS ;;
    b <- new_button c ;;
    add (SCall hub "set_clear_device_status_button" [b])).

End button.

(* ================================================================== *)
(** ** [number.py]: numeric settings *)

Module number.

Definition ENTITY_CATEGORY_CONFIG := "config".
Definition UNIT_METER := "m".
Definition UNIT_CELSIUS := "degC".
(** [number.NUMBER_MODES] of the host platform *)
Definition NUMBER_MODES : list string := ["AUTO"; "BOX"; "SLIDER"].

Definition CONF_ALTITUDE_COMPENSATION := "altitude_compensation".
Definition CONF_AMBIENT_PRESSURE_COMPENSATION := "ambient_pressure_compensation".
Definition CONF_TEMPERATURE_OFFSET := "temperature_offset".
Definition CONF_OUTDOOR_CO2_REFERENCE := "outdoor_co2_reference".
Definition CONF_NORMALIZED_OFFSET_SLOPE := "normalized_offset_slope".
Definition CONF_TIME_CONSTANT := "time_constant".

Definition number_schema := cv.entity_schema.

Definition CONFIG_SCHEMA : cv.schema := [
  cv.GenerateID sen6x.CONF_SEN6X_ID cv.use_id;
  cv.Optional CONF_ALTITUDE_COMPENSATION (cv.Schema
    (cv.extend
       (number_schema
          [ ("icon", VStr "mdi:altimeter");
            ("entity_category", VStr ENTITY_CATEGORY_CONFIG);
            ("unit_of_measurement", VStr UNIT_METER) ])
       [ cv.OptionalDefault "mode" (VStr "BOX") (cv.enum NUMBER_MODES true);
         cv.OptionalDefault "restore_value" (VBool true) cv.boolean ]));
  cv.Optional CONF_AMBIENT_PRESSURE_COMPENSATION (cv.Schema
    (cv.extend
       (number_schema
          [ ("icon", VStr "mdi:gauge");
            ("entity_category", VStr ENTITY_CATEGORY_CONFIG);
            ("unit_of_measurement", VStr "hPa") ])
       [ cv.OptionalDefault "mode" (VStr "BOX") (cv.enum NUMBER_MODES true) ]));
  cv.Optional CONF_TEMPERATURE_OFFSET (cv.Schema
    (cv.extend
       (number_schema
          [ ("icon", VStr "mdi:thermometer-lines");
            ("entity_category", VStr ENTITY_CATEGORY_CONFIG);
            ("unit_of_measurement", VStr UNIT_CELSIUS) ])
       [ cv.OptionalDefault "mode" (VStr "BOX") (cv.enum NUMBER_MODES true);
         (* Advanced: temperature compensation parameters *)
         cv.OptionalDefault CONF_NORMALIZED_OFFSET_SLOPE (VFloat float_0_0)
           (cv.float_range float_m1_0 float_1_0);
         cv.OptionalDefault CONF_TIME_CONSTANT (VInt 0)
           (cv.int_range 0 65535) ]));
  cv.Optional CONF_OUTDOOR_CO2_REFERENCE (cv.Schema
    (cv.extend
       (number_schema
          [ ("icon", VStr "mdi:molecule-co2");
            ("entity_category", VStr ENTITY_CATEGORY_CONFIG);
            ("unit_of_measurement", VStr "ppm") ])
       [ cv.OptionalDefault "mode" (VStr "BOX") (cv.enum NUMBER_MODES true) ]))
].

(** [number.new_number(config, min_value=, max_value=, step=)] *)
Definition new_number (config : value) (min_value max_value step : value)
  : CodeGen expression :=
  new_entity PNumber config
    [("min_value", min_value); ("max_value", max_value); ("step", step)].

Definition to_code (config : value) : CodeGen unit :=
  id <- getitem config sen6x.CONF_SEN6X_ID ;;
  hub <- get_variable id ;;
  when (has CONF_ALTITUDE_COMPENSATION config) (
    c <- getitem config CONF_ALTITUDE_COMPENSATION ;;
    n <- new_number c (VInt 0) (VInt 3000) (VInt 1) ;;
    add (SCall hub "set_altitude_compensation_number" [n])) ;;
  when (has CONF_AMBIENT_PRESSURE_COMPENSATION config) (
    c <- getitem config CONF_AMBIENT_PRESSURE_COMPENSATION ;;
    n <- new_number c (VInt 0) (VInt 1100) (VInt 1) ;;
    add (SCall hub "set_ambient_pressure_compensation_number" [n])) ;;
  when (has CONF_TEMPERATURE_OFFSET config) (
    temp_offset_config <- getitem config CONF_TEMPERATURE_OFFSET ;;
    n <- new_number temp_offset_config
           (VInt (-10)) (VInt 10) (VFloat float_0_1) ;;
    add (SCall hub "set_temperature_offset_number" [n]) ;;
    (* Pass advanced compensation parameters if configured *)
    slope <- get_or temp_offset_config CONF_NORMALIZED_OFFSET_SLOPE
               (VFloat float_0_0) ;;
    time_const <- get_or temp_offset_config CONF_TIME_CONSTANT (VInt 0) ;;
    when (num_neb slope (VFloat float_0_0) || num_neb time_const (VInt 0)) (
      add (SCall hub "set_temperature_compensation"
             [Literal (VFloat float_0_0); Literal slope;
              Literal time_const]))) ;;
  when (has CONF_OUTDOOR_CO2_REFERENCE config) (
    c <- getitem config CONF_OUTDOOR_CO2_REFERENCE ;;
    n <- new_number c (VInt 350) (VInt 500) (VInt 1) ;;
    add (SCall hub "set_outdoor_co2_reference_number" [n])).

End number.

(* ================================================================== *)
(** ** [switch.py]: toggle switches *)

Module switch.

Definition ENTITY_CATEGORY_CONFIG := "config".
Definition CONF_CO2_AUTOMATIC_SELF_CALIBRATION := "co2_automatic_self_calibration".
Definition CONF_AUTO_FAN_CLEANING := "auto_fan_cleaning".
Definition CONF_INTERVAL := "interval".

(** Default interval: 7 days = 604800 seconds *)
Definition DEFAULT_CLEANING_INTERVAL : Z := 604800.

Definition switch_schema := cv.entity_schema.

Definition CONFIG_SCHEMA : cv.schema := [
  cv.GenerateID sen6x.CONF_SEN6X_ID cv.use_id;
  cv.Optional CONF_CO2_AUTOMATIC_SELF_CALIBRATION (cv.Schema
    (switch_schema
       [ ("icon", VStr "mdi:autorenew");
         ("entity_category", VStr ENTITY_CATEGORY_CONFIG) ]));
  cv.Optional CONF_AUTO_FAN_CLEANING (cv.Schema
    (cv.extend
       (switch_schema
          [ ("icon", VStr "mdi:fan-auto");
            ("entity_category", VStr ENTITY_CATEGORY_CONFIG) ])
       (* Interval for auto-cleaning (default 7 days) *)
       [ cv.OptionalDefault CONF_INTERVAL (VStr "7d")
           cv.positive_time_period_seconds ]))
].

Definition new_switch (config : value) : CodeGen expression :=
  new_entity PSwitch config [].

(** [period.total_seconds] *)
Definition total_seconds_of (period : value) : CodeGen Z :=
  match period with
  | VTimePeriod t => ret (total_seconds t)
  | _ => raise AttributeError
  end.

Definition to_code (config : value) : CodeGen unit :=
  id <- getitem config sen6x.CONF_SEN6X_ID ;;
  hub <- get_variable id ;;
  when (has CONF_CO2_AUTOMATIC_SELF_CALIBRATION config) (
    c <- getitem config CONF_CO2_AUTOMATIC_SELF_CALIBRATION ;;
    s <- new_switch c ;;
    add (SCall hub "set_co2_asc_switch" [s])) ;;
  when (has CONF_AUTO_FAN_CLEANING config) (
    auto_clean_config <- getitem config CONF_AUTO_FAN_CLEANING ;;
    s <- new_switch auto_clean_config ;;
    add (SCall hub "set_auto_cleaning_switch" [s]) ;;
    (* Pass interval in milliseconds *)
    interval <- getitem auto_clean_config CONF_INTERVAL ;;
    interval_seconds <- total_seconds_of interval ;;
    add (SCall hub "set_auto_cleaning_interval"
           [Literal (VInt (interval_seconds * 1000))])).

End switch.

(* ================================================================== *)
(** ** The emission sequencer

    The host framework runs the [to_code] coroutines of the component;
    the order in which it does is the one of the specification (section
    4.6). *)

Module sequencer.

Inductive registrar :=
| Sensor | BinaryState | Number | Switch | Button | Text.

(** Modelled from the spec: the fixed registrar order of section 4.6. *)
Definition registrar_order : list registrar :=
  [Sensor; BinaryState; Number; Switch; Button; Text].

Definition schema_of (r : registrar) : cv.schema :=
  match r with
  | Sensor => sensor.CONFIG_SCHEMA
  | BinaryState => binary_sensor.CONFIG_SCHEMA
  | Number => number.CONFIG_SCHEMA
  | Switch => switch.CONFIG_SCHEMA
  | Button => button.CONFIG_SCHEMA
  | Text => text_sensor.CONFIG_SCHEMA
  end.

Definition to_code_of (r : registrar) : value -> CodeGen unit :=
  match r with
  | Sensor => sensor.to_code
  | BinaryState => binary_sensor.to_code
  | Number => number.to_code
  | Switch => switch.to_code
  | Button => button.to_code
  | Text => text_sensor.to_code
  end.

(** One build: the hub configuration and, for every registrar, the
    configuration block the user declared for it, if any. *)
Record build := mkBuild {
  hub : value;
  block : registrar -> option value
}.

Definition run_block (r : registrar) (b : build) : CodeGen unit :=
  match block b r with
  | Some config => to_code_of r config
  | None => ret tt
  end.

Fixpoint run_registrars (rs : list registrar) (b : build) : CodeGen unit :=
  match rs with
  | [] => ret tt
  | r :: rest => run_block r b ;; run_registrars rest b
  end.

(** Modelled from the spec: the emission sequencer of section 4.6, which
    belongs to the host framework: the hub first, then every registrar in
    the fixed order. *)
Definition emit (b : build) : CodeGen unit :=
  sen6x.to_code (hub b) ;;
  run_registrars registrar_order b.

(** A build is validated when the hub and every declared block are the
    results of their schemas. *)
Definition validated (b : build) : Prop :=
  (exists raw, cv.Schema sen6x.CONFIG_SCHEMA raw = Some (hub b)) /\
  forall r config, block b r = Some config ->
    exists raw, cv.Schema (schema_of r) raw = Some config.

End sequencer.

Import sequencer.

(* ================================================================== *)
(** ** The wiring tables

    Each [to_code] tests the keys of its registrar one after the other.
    The tables list, per registrar, the keys in the order of the tests
    with the hub setter each is bound to, the keyword arguments of the
    entity's construction and the follow-up instruction, so that the
    statements a registrar issues can be written in closed form
    ([registrar_output]) and compared with what [to_code] does. *)

Module wiring.

(** A follow-up instruction: from the hub variable and the entity's
    configuration to the statements issued, or [None] where the source
    would raise. *)
Definition follow_up := expression -> dict -> option (list statement).

Definition no_follow_up : follow_up := fun _ _ => Some [].

Record binding := mkBinding {
  bkey : string;
  bsetter : string;
  bkwargs : list (string * value);
  bextra : follow_up
}.

Definition tuning_keys : list string := [
  sensor.CONF_INDEX_OFFSET;
  sensor.CONF_LEARNING_TIME_OFFSET_HOURS;
  sensor.CONF_LEARNING_TIME_GAIN_HOURS;
  sensor.CONF_GATING_MAX_DURATION_MINUTES;
  sensor.CONF_STD_INITIAL;
  sensor.CONF_GAIN_FACTOR
].

(** [sensor.py], lines 260-269 and 276-285 *)
Definition tuning_follow_up (method : string) : follow_up := fun hub d =>
  match get sensor.CONF_ALGORITHM_TUNING d with
  | None => Some []
  | Some (VDict t) =>
      match get sensor.CONF_INDEX_OFFSET t,
            get sensor.CONF_LEARNING_TIME_OFFSET_HOURS t,
            get sensor.CONF_LEARNING_TIME_GAIN_HOURS t,
            get sensor.CONF_GATING_MAX_DURATION_MINUTES t,
            get sensor.CONF_STD_INITIAL t,
            get sensor.CONF_GAIN_FACTOR t with
      | Some a1, Some a2, Some a3, Some a4, Some a5, Some a6 =>
          Some [SCall hub method
                  [Literal a1; Literal a2; Literal a3;
                   Literal a4; Literal a5; Literal a6]]
      | _, _, _, _, _, _ => None
      end
  | Some _ => None
  end.

(** [number.py], lines 75-78 *)
Definition compensation_follow_up : follow_up := fun hub d =>
  let slope :=
    get_default number.CONF_NORMALIZED_OFFSET_SLOPE (VFloat float_0_0) d in
  let time_const := get_default number.CONF_TIME_CONSTANT (VInt 0) d in
  Some (if num_neb slope (VFloat float_0_0) || num_neb time_const (VInt 0)
        then [SCall hub "set_temperature_compensation"
                [Literal (VFloat float_0_0); Literal slope;
                 Literal time_const]]
        else []).

(** [switch.py], lines 48-50 *)
Definition interval_follow_up : follow_up := fun hub d =>
  match get switch.CONF_INTERVAL d with
  | Some (VTimePeriod t) =>
      Some [SCall hub "set_auto_cleaning_interval"
              [Literal (VInt (total_seconds t * 1000))]]
  | _ => None
  end.

Definition range (min_value max_value step : value) : list (string * value) :=
  [("min_value", min_value); ("max_value", max_value); ("step", step)].

Definition sensor_bindings : list binding := [
  mkBinding sensor.CONF_PM_1_0 "set_pm_1_0_sensor" [] no_follow_up;
  mkBinding sensor.CONF_PM_2_5 "set_pm_2_5_sensor" [] no_follow_up;
  mkBinding sensor.CONF_PM_4_0 "set_pm_4_0_sensor" [] no_follow_up;
  mkBinding sensor.CONF_PM_10_0 "set_pm_10_0_sensor" [] no_follow_up;
  mkBinding sensor.CONF_HUMIDITY "set_humidity_sensor" [] no_follow_up;
  mkBinding sensor.CONF_TEMPERATURE "set_temperature_sensor" [] no_follow_up;
  mkBinding sensor.CONF_VOC_INDEX "set_voc_index_sensor" [] (tuning_follow_up "set_voc_algorithm_tuning");
  mkBinding sensor.CONF_NOX_INDEX "set_nox_index_sensor" [] (tuning_follow_up "set_nox_algorithm_tuning");
  mkBinding sensor.CONF_CO2 "set_co2_sensor" [] no_follow_up;
  mkBinding sensor.CONF_FORMALDEHYDE "set_formaldehyde_sensor" [] no_follow_up;
  mkBinding sensor.CONF_TVOC_WELL "set_tvoc_well_sensor" [] no_follow_up;
  mkBinding sensor.CONF_TVOC_RESET "set_tvoc_reset_sensor" [] no_follow_up;
  mkBinding sensor.CONF_TVOC_ETHANOL "set_tvoc_ethanol_sensor" [] no_follow_up;
  mkBinding sensor.CONF_NC_0_5 "set_nc_0_5_sensor" [] no_follow_up;
  mkBinding sensor.CONF_NC_1_0 "set_nc_1_0_sensor" [] no_follow_up;
  mkBinding sensor.CONF_NC_2_5 "set_nc_2_5_sensor" [] no_follow_up;
  mkBinding sensor.CONF_NC_4_0 "set_nc_4_0_sensor" [] no_follow_up;
  mkBinding sensor.CONF_NC_10_0 "set_nc_10_0_sensor" [] no_follow_up;
  mkBinding sensor.CONF_AMBIENT_PRESSURE "set_ambient_pressure_sensor" [] no_follow_up;
  mkBinding sensor.CONF_SENSOR_ALTITUDE "set_sensor_altitude_sensor" [] no_follow_up
].

Definition binary_sensor_bindings : list binding := [
  mkBinding binary_sensor.CONF_FAN_ERROR "set_fan_error_binary_sensor" [] no_follow_up;
  mkBinding binary_sensor.CONF_FAN_WARNING "set_fan_warning_binary_sensor" [] no_follow_up;
  mkBinding binary_sensor.CONF_GAS_ERROR "set_gas_error_binary_sensor" [] no_follow_up;
  mkBinding binary_sensor.CONF_RHT_ERROR "set_rht_error_binary_sensor" [] no_follow_up;
  mkBinding binary_sensor.CONF_PM_ERROR "set_pm_error_binary_sensor" [] no_follow_up;
  mkBinding binary_sensor.CONF_LASER_ERROR "set_laser_error_binary_sensor" [] no_follow_up;
  mkBinding binary_sensor.CONF_FAN_CLEANING_ACTIVE "set_fan_cleaning_active_binary_sensor" [] no_follow_up
].

Definition number_bindings : list binding := [
  mkBinding number.CONF_ALTITUDE_COMPENSATION "set_altitude_compensation_number" (range (VInt 0) (VInt 3000) (VInt 1)) no_follow_up;
  mkBinding number.CONF_AMBIENT_PRESSURE_COMPENSATION "set_ambient_pressure_compensation_number" (range (VInt 0) (VInt 1100) (VInt 1)) no_follow_up;
  mkBinding number.CONF_TEMPERATURE_OFFSET "set_temperature_offset_number" (range (VInt (-10)) (VInt 10) (VFloat float_0_1)) compensation_follow_up;
  mkBinding number.CONF_OUTDOOR_CO2_REFERENCE "set_outdoor_co2_reference_number" (range (VInt 350) (VInt 500) (VInt 1)) no_follow_up
].

Definition switch_bindings : list binding := [
  mkBinding switch.CONF_CO2_AUTOMATIC_SELF_CALIBRATION "set_co2_asc_switch" [] no_follow_up;
  mkBinding switch.CONF_AUTO_FAN_CLEANING "set_auto_cleaning_switch" [] interval_follow_up
].

Definition button_bindings : list binding := [
  mkBinding button.CONF_FAN_CLEANING "set_fan_cleaning_button" [] no_follow_up;
  mkBinding button.CONF_DEVICE_RESET "set_device_reset_button" [] no_follow_up;
  mkBinding button.CONF_RESET_PREFERENCES "set_reset_preferences_button" [] no_follow_up;
  mkBinding button.CONF_FORCE_CO2_CALIBRATION "set_force_co2_calibration_button" [] no_follow_up;
  mkBinding button.CONF_CO2_FACTORY_RESET "set_co2_factory_reset_button" [] no_follow_up;
  mkBinding button.CONF_SHT_HEATER "set_sht_heater_button" [] no_follow_up;
  mkBinding button.CONF_CLEAR_DEVICE_STATUS "set_clear_device_status_button" [] no_follow_up
].

Definition text_sensor_bindings : list binding := [
  mkBinding text_sensor.CONF_PRODUCT_NAME "set_product_name_text_sensor" [] no_follow_up;
  mkBinding text_sensor.CONF_SERIAL_NUMBER "set_serial_number_text_sensor" [] no_follow_up;
  mkBinding text_sensor.CONF_STATUS_HEX "set_status_text_sensor" [] no_follow_up;
  mkBinding text_sensor.CONF_FIRMWARE_VERSION "set_firmware_version_sensor" [] no_follow_up
].

Definition bindings (r : registrar) : list binding :=
  match r with
  | Sensor => sensor_bindings
  | BinaryState => binary_sensor_bindings
  | Number => number_bindings
  | Switch => switch_bindings
  | Button => button_bindings
  | Text => text_sensor_bindings
  end.

Definition platform_of (r : registrar) : platform :=
  match r with
  | Sensor => PSensor
  | BinaryState => PBinarySensor
  | Number => PNumber
  | Switch => PSwitch
  | Button => PButton
  | Text => PTextSensor
  end.

(** The statements of one [if KEY in config:] block, given [config.get(KEY)]. *)
Definition entity_output (p : platform) (hub : expression) (b : binding)
    (c : option value) : option (list statement) :=
  match c with
  | None => Some []
  | Some (VDict d) =>
      match get cv.CONF_ID d with
      | Some (VID i) =>
          match bextra b hub d with
          | Some extra =>
              Some (SNewEntity p d (bkwargs b)
                    :: SCall hub (bsetter b) [Var i] :: extra)
          | None => None
          end
      | _ => None
      end
  | Some _ => None
  end.

Fixpoint concat_opt (l : list (option (list statement)))
  : option (list statement) :=
  match l with
  | [] => Some []
  | Some o :: rest =>
      match concat_opt rest with
      | Some os => Some (o ++ os)
      | None => None
      end
  | None :: _ => None
  end.

Definition blocks_output (p : platform) (hub : expression)
    (bs : list binding) (config : dict) : option (list statement) :=
  concat_opt (map (fun b => entity_output p hub b (get (bkey b) config)) bs).

(** The statements of a registrar's [to_code] on a mapping. *)
Definition registrar_output (r : registrar) (config : dict)
  : option (list statement) :=
  match get sen6x.CONF_SEN6X_ID config with
  | Some (VID i) => blocks_output (platform_of r) (Var i) (bindings r) config
  | _ => None
  end.

(** [__init__.py], lines 92-94 *)
Definition pressure_output (var : expression) (config : dict)
  : option (list statement) :=
  match get sen6x.CONF_PRESSURE_SOURCE config with
  | None => Some []
  | Some (VID i) => Some [SCall var "set_pressure_source" [Var i]]
  | Some _ => None
  end.

(** [__init__.py], lines 97-106 *)
Definition rht_output (var : expression) (config : dict)
  : option (list statement) :=
  match get sen6x.CONF_RHT_ACCELERATION config with
  | None => Some []
  | Some (VDict rht) =>
      match get sen6x.CONF_RHT_K rht, get sen6x.CONF_RHT_P rht,
            get sen6x.CONF_RHT_T1 rht, get sen6x.CONF_RHT_T2 rht with
      | Some k, Some p, Some t1, Some t2 =>
          Some [SCall var "set_rht_acceleration"
                  [StructInitializer "RhtAcceleration"
                     [("k", k); ("p", p); ("t1", t1); ("t2", t2)]]]
      | _, _, _, _ => None
      end
  | Some _ => None
  end.

(** The statements of the hub's [to_code] on a mapping. *)
Definition hub_output (config : dict) : option (list statement) :=
  match get cv.CONF_ID config, get "update_interval" config,
        get "i2c_id" config, get "address" config with
  | Some (VID i), Some update_interval, Some (VID bus), Some address =>
      match pressure_output (Var i) config, rht_output (Var i) config with
      | Some o1, Some o2 =>
          Some ([SNewPvariable i;
                 SRegisterComponent (Var i) update_interval;
                 SRegisterI2CDevice (Var i) (Var bus) address] ++ o1 ++ o2)
      | _, _ => None
      end
  | _, _, _, _ => None
  end.

(** *** Reading a statement list *)

(** The argument lists of the calls of [method], in order of issue. *)
Fixpoint calls_to (method : string) (out : list statement)
  : list (list expression) :=
  match out with
  | [] => []
  | SCall _ m args :: rest =>
      if String.eqb m method then args :: calls_to method rest
      else calls_to method rest
  | _ :: rest => calls_to method rest
  end.

(** The hub setters that are handed an entity variable, in order of
    issue: the binding points wired. *)
Fixpoint bound_setters (out : list statement) : list string :=
  match out with
  | [] => []
  | SCall _ m [Var _] :: rest => m :: bound_setters rest
  | _ :: rest => bound_setters rest
  end.

(** The entities constructed, each with the keyword arguments of its
    construction, in order of issue. *)
Fixpoint constructed (out : list statement)
  : list (platform * dict * list (string * value)) :=
  match out with
  | [] => []
  | SNewEntity p d kwargs :: rest => (p, d, kwargs) :: constructed rest
  | _ :: rest => constructed rest
  end.

(** The position of the first call of [method], if there is one. *)
Fixpoint index_of_call (method : string) (out : list statement)
  : option nat :=
  match out with
  | [] => None
  | st :: rest =>
      match st with
      | SCall _ m _ =>
          if String.eqb m method then Some O
          else option_map S (index_of_call method rest)
      | _ => option_map S (index_of_call method rest)
      end
  end.

(** The setters of the keys of a registrar in the order in which the
    mapping declares them: what emission in declaration order would
    wire. *)
Definition setters_in_declaration_order (r : registrar) (config : dict)
  : list string :=
  flat_map (fun kv =>
    map bsetter
      (filter (fun b => String.eqb (bkey b) (fst kv)) (bindings r)))
    config.

(** The setters of the keys a mapping holds, in the order of the
    registrar's table. *)
Definition setters_in_table_order (r : registrar) (config : dict)
  : list string :=
  map bsetter (filter (fun b => contains (bkey b) config) (bindings r)).

(** The two index sensors that take an algorithm-tuning block, with the
    key, the tuning setter and the table of defaults of each. *)
Inductive index_kind := VOC | NOX.

Definition index_key (kind : index_kind) : string :=
  match kind with
  | VOC => sensor.CONF_VOC_INDEX
  | NOX => sensor.CONF_NOX_INDEX
  end.


Definition defaults_for (kind : index_kind) : sensor.tuning_defaults :=
  match kind with
  | VOC => sensor.VOC_DEFAULTS
  | NOX => sensor.NOX_DEFAULTS
  end.

(** [m] returns [a] and issues exactly the statements [out], after
    whatever was issued before. *)
Definition emits {A} (m : CodeGen A) (a : A) (out : list statement) : Prop :=
  forall s, m s = Ok (a, s ++ out).

(** Two mappings with the same entries declared in a different order. *)
Definition rearranged (v v' : value) : Prop :=
  exists d d', v = VDict d /\ v' = VDict d' /\ Permutation d d'.

End wiring.

Import wiring.


(* ================================================================== *)
(** ** Configurations as a user writes them *)

(** A hub configuration with a pressure source and an RHT-acceleration
    block, as the user writes it. *)
Definition hub_with_both : value :=
  VDict [ ("id", VStr "sen6x_hub");
          (sen6x.CONF_PRESSURE_SOURCE, VStr "bme280_pressure");
          (sen6x.CONF_RHT_ACCELERATION,
           VDict [ (sen6x.CONF_RHT_K, VInt 20); (sen6x.CONF_RHT_P, VInt 20);
                   (sen6x.CONF_RHT_T1, VInt 100);
                   (sen6x.CONF_RHT_T2, VInt 300) ]) ].


(** A sensor block that declares the humidity sensor before the PM1.0
    sensor. *)
Definition humidity_then_pm : value :=
  VDict [ (sensor.CONF_HUMIDITY, VDict [("name", VStr "Humidity")]);
          (sensor.CONF_PM_1_0, VDict [("name", VStr "PM 1.0")]) ].

(** A number block with a temperature offset whose slope is 0.05. *)
Definition temperature_offset_with_slope : value :=
  VDict [ (number.CONF_TEMPERATURE_OFFSET,
           VDict [ ("name", VStr "Temperature offset");
                   (number.CONF_NORMALIZED_OFFSET_SLOPE, VFloat float_0_05);
                   (number.CONF_TIME_CONSTANT, VInt 0) ]) ].

(** The validated form of a configuration the schema accepts. *)
Definition validated_or_empty (s : cv.schema) (raw : value) : value :=
  match cv.Schema s raw with
  | Some config => config
  | None => VDict []
  end.

Definition reversed (v : value) : value :=
  match v with
  | VDict d => VDict (rev d)
  | _ => v
  end.

(** A build with a hub, a sensor block and a number block, and the same
    build with the entries of every mapping in reverse order. *)
Definition example_build : build :=
  mkBuild (validated_or_empty sen6x.CONFIG_SCHEMA hub_with_both)
    (fun r =>
       match r with
       | Sensor =>
           Some (validated_or_empty sensor.CONFIG_SCHEMA humidity_then_pm)
       | Number =>
           Some (validated_or_empty number.CONFIG_SCHEMA
                   temperature_offset_with_slope)
       | _ => None
       end).

Definition example_build_rearranged : build :=
  mkBuild (reversed (hub example_build))
    (fun r => option_map reversed (block example_build r)).

(** A switch block whose auto-cleaning interval is one hour. *)
Definition auto_cleaning_hourly : dict :=
  [ (switch.CONF_AUTO_FAN_CLEANING,
     VDict [ ("name", VStr "Auto cleaning");
             (switch.CONF_INTERVAL, VStr "1h") ]) ].


(** The hub methods that carry follow-up parameters rather than an entity
    variable. *)
Definition follow_up_methods : list string :=
  [ "set_voc_algorithm_tuning"; "set_nox_algorithm_tuning";
    "set_temperature_compensation"; "set_auto_cleaning_interval" ].

(** The entity key whose block issues a follow-up method, per registrar:
    [sensor.py] lines 255-285, [number.py] lines 70-78, [switch.py] lines
    44-50. *)
Definition follow_up_owner : list (registrar * string * string) :=
  [ (Sensor, sensor.CONF_VOC_INDEX, "set_voc_algorithm_tuning");
    (Sensor, sensor.CONF_NOX_INDEX, "set_nox_algorithm_tuning");
    (Number, number.CONF_TEMPERATURE_OFFSET, "set_temperature_compensation");
    (Switch, switch.CONF_AUTO_FAN_CLEANING, "set_auto_cleaning_interval") ].

(** The bounds of the four RHT-acceleration fields and of the six
    algorithm-tuning fields, as their schemas declare them. *)
Definition rht_bounds : list (string * Z * Z) :=
  [ (sen6x.CONF_RHT_K, -32768, 32767); (sen6x.CONF_RHT_P, -32768, 32767);
    (sen6x.CONF_RHT_T1, 0, 65535); (sen6x.CONF_RHT_T2, 0, 65535) ].

Definition tuning_bounds : list (string * Z * Z) :=
  [ (sensor.CONF_INDEX_OFFSET, 1, 250);
    (sensor.CONF_LEARNING_TIME_OFFSET_HOURS, 1, 1000);
    (sensor.CONF_LEARNING_TIME_GAIN_HOURS, 1, 1000);
    (sensor.CONF_GATING_MAX_DURATION_MINUTES, 0, 3000);
    (sensor.CONF_STD_INITIAL, 10, 5000);
    (sensor.CONF_GAIN_FACTOR, 1, 1000) ].

(** A hub configuration without optional blocks, and one whose
    RHT-acceleration block leaves [t2] out. *)
Definition hub_plain : dict := [ ("id", VStr "sen6x_hub") ].

Definition hub_partial_rht : dict :=
  [ ("id", VStr "sen6x_hub");
    (sen6x.CONF_RHT_ACCELERATION,
     VDict [ (sen6x.CONF_RHT_K, VInt 20); (sen6x.CONF_RHT_P, VInt 20);
             (sen6x.CONF_RHT_T1, VInt 100) ]) ].

(** A sensor block whose VOC gating duration is out of range. *)
Definition voc_gating_too_long : dict :=
  [ (sensor.CONF_VOC_INDEX,
     VDict [ (sensor.CONF_ALGORITHM_TUNING,
              VDict [ (sensor.CONF_GATING_MAX_DURATION_MINUTES,
                       VInt 3001) ]) ]) ].

(** A number block with a temperature offset and no compensation
    parameters, a binary-sensor block with two entities and a switch block
    without the auto-cleaning switch. *)
Definition temperature_offset_plain : dict :=
  [ (number.CONF_TEMPERATURE_OFFSET,
     VDict [ ("name", VStr "Temperature offset") ]) ].

Definition two_binary_sensors : dict :=
  [ (binary_sensor.CONF_FAN_ERROR, VDict [ ("id", VStr "fan_error") ]);
    (binary_sensor.CONF_PM_ERROR, VDict [ ("id", VStr "pm_error") ]) ].

Definition switch_without_cleaning : dict :=
  [ (switch.CONF_CO2_AUTOMATIC_SELF_CALIBRATION,
     VDict [ ("name", VStr "CO2 ASC") ]) ].

(** A number block whose temperature offset has a slope that is not a
    number. *)
Definition temperature_offset_nan_slope : dict :=
  [ (number.CONF_TEMPERATURE_OFFSET,
     VDict [ (number.CONF_NORMALIZED_OFFSET_SLOPE, VFloat S754_nan) ]) ].

(** The wiring instructions of one entity, given [config.get(KEY)]: the
    construction, the binding to the hub and the follow-up, in the order
    of issue; nothing for a key left out. *)
Definition entity_statements (p : platform) (hub : expression) (b : binding)
    (c : option value) : list statement :=
  match c with
  | Some (VDict d) =>
      match get cv.CONF_ID d, bextra b hub d with
      | Some (VID i), Some follow =>
          SNewEntity p d (bkwargs b) :: SCall hub (bsetter b) [Var i] :: follow
      | _, _ => []
      end
  | _ => []
  end.

(** A sensor block with explicit identifiers that declares the humidity
    sensor before the PM1.0 sensor. *)
Definition humidity_then_pm_named : value :=
  VDict [ (sen6x.CONF_SEN6X_ID, VStr "sen6x_hub");
          (sensor.CONF_HUMIDITY, VDict [("id", VStr "humidity_sensor")]);
          (sensor.CONF_PM_1_0, VDict [("id", VStr "pm_1_0_sensor")]) ].

(** An RHT-acceleration block that holds the four keys in another order
    than the schema lists them. *)
Definition rht_block_reordered : dict :=
  [ (sen6x.CONF_RHT_T2, VInt 65535); (sen6x.CONF_RHT_K, VInt (-32768));
    (sen6x.CONF_RHT_T1, VInt 0); (sen6x.CONF_RHT_P, VInt 32767) ].

(** Every integer an RHT-acceleration block holds under one of the four
    keys lies within the bounds of its key. *)
Definition rht_in_range (rt : dict) : Prop :=
  forall k lo hi z,
    In (k, lo, hi) rht_bounds -> get k rt = Some (VInt z) -> lo <= z <= hi.
(* ================================================================== *)
(** ** Mappings *)

Section Mappings.

Lemma get_app (k : string) (d1 d2 : dict) :
  get k (d1 ++ d2) = match get k d1 with Some v => Some v | None => get k d2 end.
Proof.
  induction d1 as [|[k' v] d1 IH]; simpl; [reflexivity|].
  destruct (String.eqb k k'); [reflexivity|apply IH].
Qed.

Lemma get_In (k : string) (d : dict) (v : value) :
  get k d = Some v -> In (k, v) d.
Proof.
  induction d as [|[k' v'] d IH]; simpl; [discriminate|].
  destruct (String.eqb k k') eqn:E.
  - apply String.eqb_eq in E. intros [= ->]. left. now subst.
  - intros H. right. now apply IH.
Qed.

Lemma get_None_keys (k : string) (d : dict) :
  get k d = None <-> ~ In k (keys d).
Proof.
  induction d as [|[k' v'] d IH]; simpl.
  - tauto.
  - destruct (String.eqb k k') eqn:E.
    + apply String.eqb_eq in E. subst. split; [discriminate|]. tauto.
    + apply String.eqb_neq in E. rewrite IH. split.
      * intros H [H1|H1]; [now subst|tauto].
      * tauto.
Qed.

Lemma In_get (k : string) (d : dict) (v : value) :
  NoDup (keys d) -> In (k, v) d -> get k d = Some v.
Proof.
  induction d as [|[k' v'] d IH]; simpl; [tauto|].
  intros Hnd. inversion Hnd as [|? ? Hk Hnd']; subst.
  intros [[= -> ->]|Hin].
  - now rewrite String.eqb_refl.
  - destruct (String.eqb k k') eqn:E.
    + apply String.eqb_eq in E. subst. exfalso. apply Hk.
      change k' with (fst (k', v)). now apply in_map.
    + now apply IH.
Qed.

Lemma distinct_NoDup (l : list string) : distinct l = true <-> NoDup l.
Proof.
  induction l as [|k l IH]; simpl.
  - split; [constructor|reflexivity].
  - rewrite andb_true_iff, negb_true_iff, IH. split.
    + intros [H1 H2]. constructor; [|assumption].
      intros Hin. assert (existsb (String.eqb k) l = true) as E.
      { apply existsb_exists. exists k. split; [assumption|apply String.eqb_refl]. }
      congruence.
    + intros H. inversion H as [|? ? Hk Hnd]; subst. split; [|assumption].
      destruct (existsb (String.eqb k) l) eqn:E; [|reflexivity].
      apply existsb_exists in E. destruct E as [k' [Hin E]].
      apply String.eqb_eq in E. subst. contradiction.
Qed.

(** Declaring the same entries in another order does not change what a
    lookup finds. *)
Lemma get_Permutation (d d' : dict) :
  NoDup (keys d) -> Permutation d d' -> forall k, get k d = get k d'.
Proof.
  intros Hnd Hp k.
  assert (NoDup (keys d')) as Hnd'.
  { eapply Permutation_NoDup; [|exact Hnd]. now apply Permutation_map. }
  destruct (get k d) as [v|] eqn:E.
  - symmetry. apply In_get; [assumption|].
    eapply Permutation_in; [exact Hp|]. now apply get_In.
  - symmetry. apply get_None_keys. apply get_None_keys in E.
    intros Hin. apply E. eapply Permutation_in; [|exact Hin].
    apply Permutation_map. now apply Permutation_sym.
Qed.

Lemma contains_get (k : string) (d : dict) :
  contains k d = match get k d with Some _ => true | None => false end.
Proof. reflexivity. Qed.

End Mappings.

(* ================================================================== *)
(** ** Schemas *)

Section Schemas.

Import cv.

Lemma find_field_unique (k : string) (s : schema) (f : field) :
  NoDup (map key s) -> In f s -> key f = k -> find_field k s = Some f.
Proof.
  induction s as [|g s IH]; simpl; [tauto|].
  intros Hnd. inversion Hnd as [|? ? Hk Hnd']; subst.
  intros [->|Hin] Hkey.
  - subst. now rewrite String.eqb_refl.
  - destruct (String.eqb k (key g)) eqn:E.
    + apply String.eqb_eq in E. exfalso. apply Hk. rewrite <- E, <- Hkey.
      now apply in_map.
    + now apply IH.
Qed.

Lemma validate_items_keys (s : schema) (items out : dict) :
  validate_items s items = Some out -> keys out = keys items.
Proof.
  revert out. induction items as [|[k v] items IH]; simpl; intros out.
  - now intros [= <-].
  - destruct (find_field k s) as [f|]; [|discriminate].
    destruct (check f v) as [v'|]; [|discriminate].
    destruct (validate_items s items) as [out'|]; [|discriminate].
    intros [= <-]. simpl. f_equal. now apply IH.
Qed.

(** A validated entry is the image, by the field declared for its key, of
    the entry of the same key in the input. *)
Lemma validate_items_get (s : schema) (items out : dict) (k : string) :
  validate_items s items = Some out ->
  match get k items with
  | Some v => exists f v', find_field k s = Some f /\ check f v = Some v'
                           /\ get k out = Some v'
  | None => get k out = None
  end.
Proof.
  revert out. induction items as [|[k' v] items IH]; simpl; intros out.
  - now intros [= <-].
  - destruct (find_field k' s) as [f|] eqn:Ef; [|discriminate].
    destruct (check f v) as [v'|] eqn:Ec; [|discriminate].
    destruct (validate_items s items) as [out'|]; [|discriminate].
    intros [= <-]. simpl. destruct (String.eqb k k') eqn:E.
    + apply String.eqb_eq in E. subst k'. now exists f, v'.
    + now apply IH.
Qed.

(** A default is added only for a key the input leaves out, and it is the
    default of a field of that key. *)
Lemma missing_get (s : schema) (raw d : dict) (k : string) (v : value) :
  missing s raw = Some d -> get k d = Some v ->
  get k raw = None /\
  exists f, In f s /\ key f = k /\ mark f = MOptional (Some v).
Proof.
  revert d. induction s as [|f s IH]; simpl; intros d.
  - intros [= <-]. discriminate.
  - unfold contains. destruct (get (key f) raw) eqn:Er.
    + intros H1 H2. destruct (IH _ H1 H2) as [? [g [? ?]]].
      split; [assumption|]. exists g. tauto.
    + destruct (mark f) as [|[dv|]] eqn:Em; [discriminate| |].
      * destruct (missing s raw) as [d'|]; [|discriminate].
        intros [= <-]. simpl. destruct (String.eqb k (key f)) eqn:E.
        -- apply String.eqb_eq in E. subst k. intros [= ->].
           split; [assumption|]. exists f. tauto.
        -- intros H2. destruct (IH _ eq_refl H2) as [? [g [? ?]]].
           split; [assumption|]. exists g. tauto.
      * intros H1 H2. destruct (IH _ H1 H2) as [? [g [? ?]]].
        split; [assumption|]. exists g. tauto.
Qed.

(** A key with a required field or a default is never left out. *)
Lemma missing_present (s : schema) (raw d : dict) (k : string) (f : field) :
  missing s raw = Some d -> find_field k s = Some f ->
  mark f <> MOptional None ->
  get k raw <> None \/ get k d <> None.
Proof.
  revert d. induction s as [|g s IH]; simpl; intros d; [discriminate|].
  destruct (String.eqb k (key g)) eqn:E.
  - apply String.eqb_eq in E. subst k. intros Hm [= ->] Hmark.
    unfold contains in Hm. destruct (get (key f) raw) eqn:Er.
    + left. discriminate.
    + right. destruct (mark f) as [|[dv|]]; [discriminate| |congruence].
      destruct (missing s raw); [|discriminate].
      injection Hm as <-. simpl. now rewrite String.eqb_refl.
  - intros Hm Hf Hmark. destruct (contains (key g) raw).
    + now apply IH.
    + destruct (mark g) as [|[dv|]]; [discriminate| |now apply IH].
      destruct (missing s raw) as [d'|] eqn:Ed; [|discriminate].
      injection Hm as <-. simpl. rewrite E. now apply (IH d').
Qed.

Lemma missing_keys (s : schema) (raw d : dict) :
  missing s raw = Some d -> NoDup (map key s) ->
  NoDup (keys d) /\ forall k, In k (keys d) -> In k (map key s).
Proof.
  revert d. induction s as [|f s IH]; simpl; intros d.
  - intros [= <-] _. split; [constructor|]. simpl. tauto.
  - intros Hm Hnd. inversion Hnd as [|? ? Hk Hnd']; subst.
    destruct (contains (key f) raw).
    { destruct (IH _ Hm Hnd'). split; [assumption|]. intros. right. auto. }
    destruct (mark f) as [|[dv|]]; [discriminate| |].
    + destruct (missing s raw) as [d'|]; [|discriminate].
      injection Hm as <-. destruct (IH _ eq_refl Hnd') as [H1 H2].
      split.
      * simpl. constructor; [|assumption]. intros Hin. apply Hk. now apply H2.
      * simpl. intros k [<-|Hin]; [now left|right; now apply H2].
    + destruct (IH _ Hm Hnd'). split; [assumption|]. intros. right. auto.
Qed.

Variable s : schema.
Variables raw out : dict.
Hypothesis Hvalid : Schema s (VDict raw) = Some (VDict out).

Lemma Schema_inv :
  NoDup (keys raw) /\
  exists defaults, missing s raw = Some defaults /\
                   validate_items s (raw ++ defaults) = Some out.
Proof.
  unfold Schema in Hvalid.
  destruct (distinct (keys raw)) eqn:Ed; [|discriminate].
  apply distinct_NoDup in Ed. split; [assumption|].
  destruct (missing s raw) as [defaults|]; [|discriminate].
  exists defaults. split; [reflexivity|].
  destruct (validate_items s (raw ++ defaults)); [|discriminate].
  now injection Hvalid as <-.
Qed.

(** Every entry of a validated mapping comes from the input entry of its
    key or, where the input has none, from the default of the key. *)
Lemma Schema_get (k : string) (v : value) :
  get k out = Some v ->
  exists f, find_field k s = Some f /\
    ((exists v0, get k raw = Some v0 /\ check f v0 = Some v) \/
     (get k raw = None /\ exists d, check f d = Some v /\
        exists g, In g s /\ key g = k /\ mark g = MOptional (Some d))).
Proof.
  destruct Schema_inv as [_ [defaults [Hm Hv]]].
  intros Hget. pose proof (validate_items_get _ _ _ k Hv) as H.
  rewrite get_app in H. destruct (get k raw) as [v0|] eqn:Er.
  - destruct H as [f [v' [Hf [Hc Ho]]]]. exists f. split; [assumption|].
    left. exists v0. split; [reflexivity|]. congruence.
  - destruct (get k defaults) as [d|] eqn:Edf; [|congruence].
    destruct H as [f [v' [Hf [Hc Ho]]]]. exists f. split; [assumption|].
    right. split; [reflexivity|]. exists d. split; [congruence|].
    destruct (missing_get _ _ _ _ _ Hm Edf) as [_ Hg]. exact Hg.
Qed.

Lemma Schema_present (k : string) (f : field) :
  find_field k s = Some f -> mark f <> MOptional None ->
  exists v, get k out = Some v.
Proof.
  destruct Schema_inv as [_ [defaults [Hm Hv]]].
  intros Hf Hmark. pose proof (validate_items_get _ _ _ k Hv) as H.
  rewrite get_app in H.
  destruct (missing_present _ _ _ _ _ Hm Hf Hmark) as [Hp|Hp].
  - destruct (get k raw); [|congruence].
    destruct H as [? [v' [_ [_ Ho]]]]. now exists v'.
  - destruct (get k raw).
    + destruct H as [? [v' [_ [_ Ho]]]]. now exists v'.
    + destruct (get k defaults); [|congruence].
      destruct H as [? [v' [_ [_ Ho]]]]. now exists v'.
Qed.

(** An input entry is validated by the field declared for its key. *)
Lemma Schema_forward (k : string) (v0 : value) :
  get k raw = Some v0 ->
  exists f v, find_field k s = Some f /\ check f v0 = Some v
              /\ get k out = Some v.
Proof.
  destruct Schema_inv as [_ [defaults [Hm Hv]]].
  intros Hr. pose proof (validate_items_get _ _ _ k Hv) as H.
  rewrite get_app, Hr in H. exact H.
Qed.

Lemma Schema_get_check (k : string) (v : value) :
  get k out = Some v ->
  exists f x, find_field k s = Some f /\ check f x = Some v.
Proof.
  intros H. destruct (Schema_get k v H) as [f [Hf [[v0 [_ Hc]]|[_ [d [Hc _]]]]]];
    eauto.
Qed.

(** With one field per key, an entry that is not in the input is the
    validated default of its field. *)
Lemma Schema_get_nodup (k : string) (v : value) :
  NoDup (map key s) ->
  get k out = Some v ->
  exists f, find_field k s = Some f /\
    match get k raw with
    | Some v0 => check f v0 = Some v
    | None => exists d, mark f = MOptional (Some d) /\ check f d = Some v
    end.
Proof.
  intros Hnd H. destruct (Schema_get k v H) as [f [Hf Hsrc]].
  exists f. split; [assumption|].
  destruct Hsrc as [[v0 [-> Hc]]|[-> [d [Hc [g [Hin [Hk Hm]]]]]]];
    [assumption|].
  exists d. split; [|assumption].
  rewrite (find_field_unique k s g Hnd Hin Hk) in Hf. now injection Hf as <-.
Qed.

(** A validated mapping has no repeated key. *)
Lemma Schema_NoDup : NoDup (map key s) -> NoDup (keys out).
Proof.
  destruct Schema_inv as [Hnd [defaults [Hm Hv]]]. intros Hs.
  rewrite (validate_items_keys _ _ _ Hv). unfold keys. rewrite map_app.
  destruct (missing_keys _ _ _ Hm Hs) as [Hd _].
  apply NoDup_app; [assumption|assumption|].
  intros k Hin Hin'.
  destruct (get k defaults) as [v|] eqn:E.
  - destruct (missing_get _ _ _ _ _ Hm E) as [Hr _].
    apply get_None_keys in Hr. contradiction.
  - apply get_None_keys in E. contradiction.
Qed.

End Schemas.

Lemma Schema_dict (s : cv.schema) (raw c : value) :
  cv.Schema s raw = Some c -> exists r o, raw = VDict r /\ c = VDict o.
Proof.
  unfold cv.Schema. destruct raw as [| | | | | | |r]; try discriminate.
  destruct (distinct (keys r)); [|discriminate].
  destruct (cv.missing s r); [|discriminate].
  destruct (cv.validate_items s (r ++ d)) as [o|]; [|discriminate].
  intros [= <-]. now exists r, o.
Qed.

Lemma use_id_inv (x v : value) :
  cv.use_id x = Some v -> exists i, v = VID i.
Proof.
  destruct x; simpl; try discriminate; intros [= <-]; eauto.
Qed.

Lemma int_range_inv (lo hi : Z) (x v : value) :
  cv.int_range lo hi x = Some v ->
  v = x /\ exists z, v = VInt z /\ lo <= z <= hi.
Proof.
  destruct x as [| |z| | | | |]; simpl; try discriminate.
  destruct (lo <=? z) eqn:E1; [|discriminate].
  destruct (z <=? hi) eqn:E2; [|discriminate].
  simpl. intros [= <-]. split; [reflexivity|]. exists z. split; [reflexivity|].
  apply Z.leb_le in E1. apply Z.leb_le in E2. lia.
Qed.

(* ================================================================== *)
(** ** Code generation: what a computation issues *)

Section Emission.

Lemma emits_ret {A} (a : A) : emits (ret a) a [].
Proof. intros s. unfold ret. now rewrite app_nil_r. Qed.

Lemma emits_bind {A B} (m : CodeGen A) (k : A -> CodeGen B) a b o1 o2 :
  emits m a o1 -> emits (k a) b o2 -> emits (bind m k) b (o1 ++ o2).
Proof.
  intros H1 H2 s. unfold bind. rewrite H1, H2. now rewrite app_assoc.
Qed.

Lemma emits_bind_silent {A B} (m : CodeGen A) (k : A -> CodeGen B) a b o :
  emits m a [] -> emits (k a) b o -> emits (bind m k) b o.
Proof. intros H1 H2. apply (emits_bind m k a b [] o H1 H2). Qed.

Lemma emits_seq {B} (m : CodeGen unit) (k : CodeGen B) b o1 o2 :
  emits m tt o1 -> emits k b o2 -> emits (m ;; k) b (o1 ++ o2).
Proof. intros H1 H2. exact (emits_bind m (fun _ => k) tt b o1 o2 H1 H2). Qed.

Lemma emits_add (st : statement) : emits (add st) tt [st].
Proof. intros s. reflexivity. Qed.

Lemma emits_add_then {B} (st : statement) (k : unit -> CodeGen B) b o :
  emits (k tt) b o -> emits (bind (add st) k) b (st :: o).
Proof. intros H. apply (emits_bind (add st) k tt b [st] o (emits_add st) H). Qed.

Lemma emits_getitem (d : dict) (k : string) (v : value) :
  get k d = Some v -> emits (getitem (VDict d) k) v [].
Proof. intros H. unfold getitem. rewrite H. apply emits_ret. Qed.

Lemma emits_get_variable (i : ID) : emits (get_variable (VID i)) (Var i) [].
Proof. apply emits_ret. Qed.

Lemma emits_new_entity p d kwargs i :
  get cv.CONF_ID d = Some (VID i) ->
  emits (new_entity p (VDict d) kwargs) (Var i) [SNewEntity p d kwargs].
Proof.
  intros H. unfold new_entity.
  eapply emits_bind_silent; [apply emits_getitem; eassumption|].
  simpl. apply emits_add_then. apply emits_ret.
Qed.

Lemma emits_emitted {A} (m : CodeGen A) a o :
  emits m a o -> emitted m = Some o.
Proof. intros H. unfold emitted. now rewrite (H []). Qed.

Lemma concat_opt_cons x l out :
  concat_opt (x :: l) = Some out ->
  exists o os, x = Some o /\ concat_opt l = Some os /\ out = o ++ os.
Proof.
  simpl. destruct x as [o|]; [|discriminate].
  destruct (concat_opt l) as [os|]; [|discriminate].
  intros [= <-]. now exists o, os.
Qed.

(** One [if KEY in config:] block without follow-up. *)
Lemma emits_simple_block p hub key setter kwargs config out :
  entity_output p hub (mkBinding key setter kwargs no_follow_up)
    (get key config) = Some out ->
  emits (when (has key (VDict config)) (
           c <- getitem (VDict config) key ;;
           v <- new_entity p c kwargs ;;
           add (SCall hub setter [v]))) tt out.
Proof.
  unfold has, contains, entity_output. simpl bextra. simpl bkwargs.
  simpl bsetter. unfold no_follow_up.
  destruct (get key config) as [c|] eqn:E.
  - destruct c as [| | | | | | |d]; try discriminate.
    destruct (get cv.CONF_ID d) as [[| | | | |i| |]|] eqn:Ei; try discriminate.
    intros [= <-]. simpl when.
    eapply emits_bind_silent; [apply emits_getitem; eassumption|].
    eapply (emits_bind _ _ _ _ [_] [_]); [apply emits_new_entity; eassumption|].
    apply emits_add.
  - intros [= <-]. apply emits_ret.
Qed.

(** One [if KEY in config:] block with a follow-up. *)
Lemma emits_block p hub key setter kwargs extra follow config out :
  (forall d o, extra hub d = Some o -> emits (follow (VDict d)) tt o) ->
  entity_output p hub (mkBinding key setter kwargs extra)
    (get key config) = Some out ->
  emits (when (has key (VDict config)) (
           c <- getitem (VDict config) key ;;
           v <- new_entity p c kwargs ;;
           add (SCall hub setter [v]) ;;
           follow c)) tt out.
Proof.
  intros Hfollow. unfold has, contains, entity_output. simpl bextra.
  simpl bkwargs. simpl bsetter.
  destruct (get key config) as [c|] eqn:E.
  - destruct c as [| | | | | | |d]; try discriminate.
    destruct (get cv.CONF_ID d) as [[| | | | |i| |]|] eqn:Ei; try discriminate.
    destruct (extra hub d) as [o|] eqn:Ex; [|discriminate].
    intros [= <-]. simpl when.
    eapply emits_bind_silent; [apply emits_getitem; eassumption|].
    eapply (emits_bind _ _ _ _ [_] (_ :: _)); [apply emits_new_entity; eassumption|].
    apply emits_add_then. now apply Hfollow.
  - intros [= <-]. apply emits_ret.
Qed.

Lemma emits_tuning method hub d o :
  tuning_follow_up method hub d = Some o ->
  emits (when (has sensor.CONF_ALGORITHM_TUNING (VDict d)) (
      tuning <- getitem (VDict d) sensor.CONF_ALGORITHM_TUNING ;;
      a1 <- getitem tuning sensor.CONF_INDEX_OFFSET ;;
      a2 <- getitem tuning sensor.CONF_LEARNING_TIME_OFFSET_HOURS ;;
      a3 <- getitem tuning sensor.CONF_LEARNING_TIME_GAIN_HOURS ;;
      a4 <- getitem tuning sensor.CONF_GATING_MAX_DURATION_MINUTES ;;
      a5 <- getitem tuning sensor.CONF_STD_INITIAL ;;
      a6 <- getitem tuning sensor.CONF_GAIN_FACTOR ;;
      add (SCall hub method
             [Literal a1; Literal a2; Literal a3;
              Literal a4; Literal a5; Literal a6]))) tt o.
Proof.
  unfold tuning_follow_up, has, contains.
  destruct (get sensor.CONF_ALGORITHM_TUNING d) as [t|] eqn:E.
  - destruct t as [| | | | | | |t]; try discriminate.
    destruct (get sensor.CONF_INDEX_OFFSET t) as [a1|] eqn:E1; [|discriminate].
    destruct (get sensor.CONF_LEARNING_TIME_OFFSET_HOURS t) as [a2|] eqn:E2;
      [|discriminate].
    destruct (get sensor.CONF_LEARNING_TIME_GAIN_HOURS t) as [a3|] eqn:E3;
      [|discriminate].
    destruct (get sensor.CONF_GATING_MAX_DURATION_MINUTES t) as [a4|] eqn:E4;
      [|discriminate].
    destruct (get sensor.CONF_STD_INITIAL t) as [a5|] eqn:E5; [|discriminate].
    destruct (get sensor.CONF_GAIN_FACTOR t) as [a6|] eqn:E6; [|discriminate].
    intros [= <-]. simpl when.
    do 7 (eapply emits_bind_silent; [apply emits_getitem; eassumption|]).
    apply emits_add.
  - intros [= <-]. apply emits_ret.
Qed.

Lemma emits_compensation hub d o :
  compensation_follow_up hub d = Some o ->
  emits (
    slope <- get_or (VDict d) number.CONF_NORMALIZED_OFFSET_SLOPE
               (VFloat float_0_0) ;;
    time_const <- get_or (VDict d) number.CONF_TIME_CONSTANT (VInt 0) ;;
    when (num_neb slope (VFloat float_0_0) || num_neb time_const (VInt 0)) (
      add (SCall hub "set_temperature_compensation"
             [Literal (VFloat float_0_0); Literal slope;
              Literal time_const]))) tt o.
Proof.
  unfold compensation_follow_up. intros [= <-].
  eapply emits_bind_silent; [apply emits_ret|].
  eapply emits_bind_silent; [apply emits_ret|].
  destruct (_ || _); simpl when; [apply emits_add|apply emits_ret].
Qed.

Lemma emits_interval hub d o :
  interval_follow_up hub d = Some o ->
  emits (
    interval <- getitem (VDict d) switch.CONF_INTERVAL ;;
    interval_seconds <- switch.total_seconds_of interval ;;
    add (SCall hub "set_auto_cleaning_interval"
           [Literal (VInt (interval_seconds * 1000))])) tt o.
Proof.
  unfold interval_follow_up.
  destruct (get switch.CONF_INTERVAL d) as [[| | | | | |t|]|] eqn:E;
    try discriminate.
  intros [= <-].
  eapply emits_bind_silent; [apply emits_getitem; eassumption|].
  eapply emits_bind_silent; [apply emits_ret|].
  apply emits_add.
Qed.

Lemma emits_tuning_block p hub key setter kwargs method config out :
  entity_output p hub
    (mkBinding key setter kwargs (tuning_follow_up method))
    (get key config) = Some out ->
  emits (when (has key (VDict config)) (
    c <- getitem (VDict config) key ;;
    sens <- new_entity p c kwargs ;;
    add (SCall hub setter [sens]) ;;
    when (has sensor.CONF_ALGORITHM_TUNING c) (
      tuning <- getitem c sensor.CONF_ALGORITHM_TUNING ;;
      a1 <- getitem tuning sensor.CONF_INDEX_OFFSET ;;
      a2 <- getitem tuning sensor.CONF_LEARNING_TIME_OFFSET_HOURS ;;
      a3 <- getitem tuning sensor.CONF_LEARNING_TIME_GAIN_HOURS ;;
      a4 <- getitem tuning sensor.CONF_GATING_MAX_DURATION_MINUTES ;;
      a5 <- getitem tuning sensor.CONF_STD_INITIAL ;;
      a6 <- getitem tuning sensor.CONF_GAIN_FACTOR ;;
      add (SCall hub method
             [Literal a1; Literal a2; Literal a3;
              Literal a4; Literal a5; Literal a6])))) tt out.
Proof.
  apply (emits_block p hub key setter kwargs (tuning_follow_up method)
    (fun c => when (has sensor.CONF_ALGORITHM_TUNING c) (
      tuning <- getitem c sensor.CONF_ALGORITHM_TUNING ;;
      a1 <- getitem tuning sensor.CONF_INDEX_OFFSET ;;
      a2 <- getitem tuning sensor.CONF_LEARNING_TIME_OFFSET_HOURS ;;
      a3 <- getitem tuning sensor.CONF_LEARNING_TIME_GAIN_HOURS ;;
      a4 <- getitem tuning sensor.CONF_GATING_MAX_DURATION_MINUTES ;;
      a5 <- getitem tuning sensor.CONF_STD_INITIAL ;;
      a6 <- getitem tuning sensor.CONF_GAIN_FACTOR ;;
      add (SCall hub method
             [Literal a1; Literal a2; Literal a3;
              Literal a4; Literal a5; Literal a6])))).
  intros d o. apply emits_tuning.
Qed.

Lemma emits_compensation_block p hub key setter kwargs config out :
  entity_output p hub
    (mkBinding key setter kwargs compensation_follow_up)
    (get key config) = Some out ->
  emits (when (has key (VDict config)) (
    c <- getitem (VDict config) key ;;
    n <- new_entity p c kwargs ;;
    add (SCall hub setter [n]) ;;
    slope <- get_or c number.CONF_NORMALIZED_OFFSET_SLOPE
               (VFloat float_0_0) ;;
    time_const <- get_or c number.CONF_TIME_CONSTANT (VInt 0) ;;
    when (num_neb slope (VFloat float_0_0) || num_neb time_const (VInt 0)) (
      add (SCall hub "set_temperature_compensation"
             [Literal (VFloat float_0_0); Literal slope;
              Literal time_const])))) tt out.
Proof.
  apply (emits_block p hub key setter kwargs compensation_follow_up
    (fun c =>
      slope <- get_or c number.CONF_NORMALIZED_OFFSET_SLOPE
                 (VFloat float_0_0) ;;
      time_const <- get_or c number.CONF_TIME_CONSTANT (VInt 0) ;;
      when (num_neb slope (VFloat float_0_0) || num_neb time_const (VInt 0)) (
        add (SCall hub "set_temperature_compensation"
               [Literal (VFloat float_0_0); Literal slope;
                Literal time_const])))).
  intros d o. apply emits_compensation.
Qed.

Lemma emits_interval_block p hub key setter kwargs config out :
  entity_output p hub
    (mkBinding key setter kwargs interval_follow_up)
    (get key config) = Some out ->
  emits (when (has key (VDict config)) (
    c <- getitem (VDict config) key ;;
    s <- new_entity p c kwargs ;;
    add (SCall hub setter [s]) ;;
    interval <- getitem c switch.CONF_INTERVAL ;;
    interval_seconds <- switch.total_seconds_of interval ;;
    add (SCall hub "set_auto_cleaning_interval"
           [Literal (VInt (interval_seconds * 1000))]))) tt out.
Proof.
  apply (emits_block p hub key setter kwargs interval_follow_up
    (fun c =>
      interval <- getitem c switch.CONF_INTERVAL ;;
      interval_seconds <- switch.total_seconds_of interval ;;
      add (SCall hub "set_auto_cleaning_interval"
             [Literal (VInt (interval_seconds * 1000))]))).
  intros d o. apply emits_interval.
Qed.

End Emission.

Ltac split_blocks H :=
  repeat match type of H with
  | concat_opt (_ :: _) = Some _ =>
      let o := fresh "o" in
      let os := fresh "os" in
      let Ho := fresh "Ho" in
      let Eq := fresh "Eq" in
      apply concat_opt_cons in H;
      destruct H as [o [os [Ho [H Eq]]]];
      rewrite Eq; clear Eq
  | concat_opt [] = Some _ =>
      simpl in H; injection H as <-
  end.

Ltac solve_block :=
  first
    [ apply emits_simple_block; assumption
    | apply emits_tuning_block; assumption
    | apply emits_compensation_block; assumption
    | apply emits_interval_block; assumption ].

Section Refinement.

(** Each registrar's [to_code] issues the statements of its table. *)
Lemma to_code_emits (r : registrar) (config : dict) (out : list statement) :
  registrar_output r config = Some out ->
  emits (to_code_of r (VDict config)) tt out.
Proof.
  unfold registrar_output.
  destruct (get sen6x.CONF_SEN6X_ID config) as [[| | | | |i| |]|] eqn:Ei;
    try discriminate.
  unfold blocks_output. intros H.
  destruct r;
    cbn [bindings platform_of map sensor_bindings binary_sensor_bindings
         number_bindings switch_bindings button_bindings
         text_sensor_bindings bkey] in H;
    split_blocks H; simpl to_code_of;
    [ unfold sensor.to_code, sensor.new_sensor
    | unfold binary_sensor.to_code, binary_sensor.new_binary_sensor
    | unfold number.to_code, number.new_number
    | unfold switch.to_code, switch.new_switch
    | unfold button.to_code, button.new_button
    | unfold text_sensor.to_code, text_sensor.new_text_sensor ];
    (eapply emits_bind_silent; [apply emits_getitem; eassumption|]);
    (eapply emits_bind_silent; [apply emits_get_variable|]);
    repeat (apply emits_seq; [solve_block|]);
    rewrite app_nil_r; solve_block.
Qed.

End Refinement.
(* ================================================================== *)
(** ** Validated configurations are wired without failure *)

Section Validity.

Import cv.

(** A validated entity carries its identifier. *)
Lemma entity_id (s : schema) (raw c : value) :
  Schema s raw = Some c ->
  find_field CONF_ID s = Some (GenerateID CONF_ID declare_id) ->
  exists d i, c = VDict d /\ get CONF_ID d = Some (VID i).
Proof.
  intros Hs Hf. destruct (Schema_dict _ _ _ Hs) as [r [d [-> ->]]].
  destruct (Schema_present _ _ _ Hs CONF_ID _ Hf) as [v Hv];
    [discriminate|].
  destruct (Schema_get_check _ _ _ Hs _ _ Hv) as [f [x [Hf' Hc]]].
  rewrite Hf in Hf'. injection Hf' as <-. simpl in Hc.
  destruct (use_id_inv _ _ Hc) as [i ->]. now exists d, i.
Qed.

Lemma simple_entity_valid (s : schema) (raw c : value) p hub key setter kw :
  Schema s raw = Some c ->
  find_field CONF_ID s = Some (GenerateID CONF_ID declare_id) ->
  exists o, entity_output p hub (mkBinding key setter kw no_follow_up)
              (Some c) = Some o.
Proof.
  intros Hs Hf. destruct (entity_id _ _ _ Hs Hf) as [d [i [-> Hi]]].
  unfold entity_output. rewrite Hi. simpl. eauto.
Qed.

Lemma compensation_entity_valid (s : schema) (raw c : value)
    p hub key setter kw :
  Schema s raw = Some c ->
  find_field CONF_ID s = Some (GenerateID CONF_ID declare_id) ->
  exists o, entity_output p hub (mkBinding key setter kw compensation_follow_up)
              (Some c) = Some o.
Proof.
  intros Hs Hf. destruct (entity_id _ _ _ Hs Hf) as [d [i [-> Hi]]].
  unfold entity_output. rewrite Hi. simpl. eauto.
Qed.

(** A validated tuning block holds all six values: each is the input
    value of its key or, where the input has none, the default, and lies
    in the range of its field. *)
Lemma tuning_schema_inv (defaults : sensor.tuning_defaults) (x t : value) :
  Schema (sensor.ALGORITHM_TUNING_SCHEMA defaults) x = Some t ->
  exists rt td, x = VDict rt /\ t = VDict td /\
    forall k dflt lo hi,
      In (k, dflt, lo, hi)
        [ (sensor.CONF_INDEX_OFFSET, sensor.index_offset defaults, 1, 250);
          (sensor.CONF_LEARNING_TIME_OFFSET_HOURS,
           sensor.learning_time_offset_hours defaults, 1, 1000);
          (sensor.CONF_LEARNING_TIME_GAIN_HOURS,
           sensor.learning_time_gain_hours defaults, 1, 1000);
          (sensor.CONF_GATING_MAX_DURATION_MINUTES,
           sensor.gating_max_duration_minutes defaults, 0, 3000);
          (sensor.CONF_STD_INITIAL, sensor.std_initial defaults, 10, 5000);
          (sensor.CONF_GAIN_FACTOR, sensor.gain_factor defaults, 1, 1000) ] ->
      exists z, get k td = Some (VInt z) /\ lo <= z <= hi /\
                get_default k (VInt dflt) rt = VInt z.
Proof.
  intros Hs. destruct (Schema_dict _ _ _ Hs) as [rt [td [-> ->]]].
  exists rt, td. split; [reflexivity|]. split; [reflexivity|].
  assert (NoDup (map key (sensor.ALGORITHM_TUNING_SCHEMA defaults))) as Hnd.
  { apply distinct_NoDup. reflexivity. }
  intros k dflt lo hi Hin.
  assert (find_field k (sensor.ALGORITHM_TUNING_SCHEMA defaults)
          = Some (OptionalDefault k (VInt dflt) (int_range lo hi))) as Hf.
  { simpl in Hin.
    repeat (destruct Hin as [[= <- <- <- <-]|Hin]; [reflexivity|]).
    contradiction. }
  destruct (Schema_present _ _ _ Hs k _ Hf) as [v Hv]; [discriminate|].
  destruct (Schema_get_nodup _ _ _ Hs k v Hnd Hv) as [f [Hf' Hsrc]].
  rewrite Hf in Hf'. injection Hf' as <-. unfold get_default.
  destruct (get k rt) as [v0|].
  - cbn [check OptionalDefault] in Hsrc.
    destruct (int_range_inv _ _ _ _ Hsrc) as [-> [z [-> Hz]]].
    exists z. now rewrite Hv.
  - destruct Hsrc as [d [Hd Hc]]. simpl in Hd. injection Hd as <-.
    cbn [check OptionalDefault] in Hc.
    destruct (int_range_inv _ _ _ _ Hc) as [E [z [-> Hz]]].
    exists z. rewrite Hv. now rewrite <- E.
Qed.

Lemma tuning_entity_valid (s : schema) (raw c : value) defaults
    p hub key setter kw method :
  Schema s raw = Some c ->
  find_field CONF_ID s = Some (GenerateID CONF_ID declare_id) ->
  find_field sensor.CONF_ALGORITHM_TUNING s
  = Some (Optional sensor.CONF_ALGORITHM_TUNING
            (Schema (sensor.ALGORITHM_TUNING_SCHEMA defaults))) ->
  exists o, entity_output p hub
              (mkBinding key setter kw (tuning_follow_up method))
              (Some c) = Some o.
Proof.
  intros Hs Hf Ht. destruct (entity_id _ _ _ Hs Hf) as [d [i [-> Hi]]].
  unfold entity_output. rewrite Hi. simpl bextra. unfold tuning_follow_up.
  destruct (get sensor.CONF_ALGORITHM_TUNING d) as [t|] eqn:E; [|eauto].
  destruct (Schema_dict _ _ _ Hs) as [r [d' [-> [= <-]]]].
  destruct (Schema_get_check _ _ _ Hs _ _ E) as [f [x [Hf' Hc]]].
  rewrite Ht in Hf'. injection Hf' as <-. simpl in Hc.
  destruct (tuning_schema_inv _ _ _ Hc) as [rt [td [_ [-> H]]]].
  destruct (H sensor.CONF_INDEX_OFFSET _ _ _ (or_introl eq_refl))
    as [z1 [-> _]].
  destruct (H sensor.CONF_LEARNING_TIME_OFFSET_HOURS _ _ _
              (or_intror (or_introl eq_refl))) as [z2 [-> _]].
  destruct (H sensor.CONF_LEARNING_TIME_GAIN_HOURS _ _ _
              (or_intror (or_intror (or_introl eq_refl)))) as [z3 [-> _]].
  destruct (H sensor.CONF_GATING_MAX_DURATION_MINUTES _ _ _
              (or_intror (or_intror (or_intror (or_introl eq_refl)))))
    as [z4 [-> _]].
  destruct (H sensor.CONF_STD_INITIAL _ _ _
              (or_intror (or_intror (or_intror (or_intror
                 (or_introl eq_refl)))))) as [z5 [-> _]].
  destruct (H sensor.CONF_GAIN_FACTOR _ _ _
              (or_intror (or_intror (or_intror (or_intror (or_intror
                 (or_introl eq_refl))))))) as [z6 [-> _]].
  eauto.
Qed.

Lemma positive_time_period_seconds_inv (x v : value) :
  positive_time_period_seconds x = Some v -> exists t, v = VTimePeriod t.
Proof.
  unfold positive_time_period_seconds.
  destruct (time_period_str_unit x) as [t|]; [|discriminate].
  destruct (_ && _); [|discriminate]. intros [= <-]. eauto.
Qed.

Lemma interval_entity_valid (s : schema) (raw c : value)
    p hub key setter kw :
  Schema s raw = Some c ->
  find_field CONF_ID s = Some (GenerateID CONF_ID declare_id) ->
  find_field switch.CONF_INTERVAL s
  = Some (OptionalDefault switch.CONF_INTERVAL (VStr "7d")
            positive_time_period_seconds) ->
  exists o, entity_output p hub (mkBinding key setter kw interval_follow_up)
              (Some c) = Some o.
Proof.
  intros Hs Hf Ht. destruct (entity_id _ _ _ Hs Hf) as [d [i [-> Hi]]].
  unfold entity_output. rewrite Hi. simpl bextra. unfold interval_follow_up.
  destruct (Schema_dict _ _ _ Hs) as [r [d' [-> [= <-]]]].
  destruct (Schema_present _ _ _ Hs _ _ Ht) as [v Hv]; [discriminate|].
  destruct (Schema_get_check _ _ _ Hs _ _ Hv) as [f [x [Hf' Hc]]].
  rewrite Ht in Hf'. injection Hf' as <-. simpl in Hc.
  destruct (positive_time_period_seconds_inv _ _ Hc) as [t ->].
  rewrite Hv. eauto.
Qed.

Lemma concat_opt_Some (l : list (option (list statement))) :
  (forall x, In x l -> exists o, x = Some o) ->
  exists out, concat_opt l = Some out.
Proof.
  induction l as [|x l IH]; simpl; intros H; [eauto|].
  destruct (H x (or_introl eq_refl)) as [o ->].
  destruct IH as [os ->]; [intros; apply H; now right|]. eauto.
Qed.

End Validity.

Ltac solve_entity Hc :=
  first
    [ eapply simple_entity_valid; [exact Hc|reflexivity]
    | eapply compensation_entity_valid; [exact Hc|reflexivity]
    | eapply tuning_entity_valid; [exact Hc|reflexivity|reflexivity]
    | eapply interval_entity_valid; [exact Hc|reflexivity|reflexivity] ].

Section RegistrarValidity.

Import cv.

(** The identifier of the hub is present in every validated block. *)
Lemma hub_reference (r : registrar) (raw : value) (config : dict) :
  Schema (schema_of r) raw = Some (VDict config) ->
  exists i, get sen6x.CONF_SEN6X_ID config = Some (VID i).
Proof.
  intros Hs. destruct (Schema_dict _ _ _ Hs) as [rw [o [-> [= <-]]]].
  assert (find_field sen6x.CONF_SEN6X_ID (schema_of r)
          = Some (GenerateID sen6x.CONF_SEN6X_ID use_id)) as Hf
    by (destruct r; reflexivity).
  destruct (Schema_present _ _ _ Hs _ _ Hf) as [v Hv]; [discriminate|].
  destruct (Schema_get_check _ _ _ Hs _ _ Hv) as [f [x [Hf' Hc]]].
  rewrite Hf in Hf'. injection Hf' as <-. simpl in Hc.
  destruct (use_id_inv _ _ Hc) as [i ->]. eauto.
Qed.

(** Every block of a validated configuration is wired: no key lookup of
    [to_code] fails. *)
Lemma registrar_valid (r : registrar) (raw : value) (config : dict) :
  Schema (schema_of r) raw = Some (VDict config) ->
  exists out, registrar_output r config = Some out.
Proof.
  intros Hs. destruct (hub_reference r raw config Hs) as [i Hi].
  unfold registrar_output. rewrite Hi. unfold blocks_output.
  apply concat_opt_Some. intros x Hx. apply in_map_iff in Hx.
  destruct Hx as [b [<- Hb]].
  destruct (Schema_dict _ _ _ Hs) as [rw [o [-> [= <-]]]].
  destruct (get (bkey b) config) as [c|] eqn:E; [|simpl; eauto].
  destruct (Schema_get_check _ _ _ Hs _ _ E) as [f [x [Hf Hc]]].
  destruct r; simpl in Hb;
    repeat (destruct Hb as [<-|Hb];
            [ simpl in Hf; injection Hf as <-; simpl in Hc;
              solve_entity Hc | ]);
    contradiction.
Qed.

End RegistrarValidity.
(* ================================================================== *)
(** ** The hub *)

Section Hub.

Import cv.

Lemma emits_pressure (var : expression) (config : dict) o :
  pressure_output var config = Some o ->
  emits (when (has sen6x.CONF_PRESSURE_SOURCE (VDict config)) (
           source <- getitem (VDict config) sen6x.CONF_PRESSURE_SOURCE ;;
           pressure_sensor <- get_variable source ;;
           add (SCall var "set_pressure_source" [pressure_sensor]))) tt o.
Proof.
  unfold pressure_output, has, contains.
  destruct (get sen6x.CONF_PRESSURE_SOURCE config) as [[| | | | |i| |]|] eqn:E;
    try discriminate; intros [= <-]; simpl when.
  - eapply emits_bind_silent; [apply emits_getitem; eassumption|].
    eapply emits_bind_silent; [apply emits_get_variable|].
    apply emits_add.
  - apply emits_ret.
Qed.

Lemma emits_rht (var : expression) (config : dict) o :
  rht_output var config = Some o ->
  emits (when (has sen6x.CONF_RHT_ACCELERATION (VDict config)) (
    rht <- getitem (VDict config) sen6x.CONF_RHT_ACCELERATION ;;
    k <- getitem rht sen6x.CONF_RHT_K ;;
    p <- getitem rht sen6x.CONF_RHT_P ;;
    t1 <- getitem rht sen6x.CONF_RHT_T1 ;;
    t2 <- getitem rht sen6x.CONF_RHT_T2 ;;
    let rht_struct :=
      StructInitializer "RhtAcceleration"
        [("k", k); ("p", p); ("t1", t1); ("t2", t2)] in
    add (SCall var "set_rht_acceleration" [rht_struct]))) tt o.
Proof.
  unfold rht_output, has, contains.
  destruct (get sen6x.CONF_RHT_ACCELERATION config) as [rht|] eqn:E.
  - destruct rht as [| | | | | | |rht]; try discriminate.
    destruct (get sen6x.CONF_RHT_K rht) as [k|] eqn:E1; [|discriminate].
    destruct (get sen6x.CONF_RHT_P rht) as [p|] eqn:E2; [|discriminate].
    destruct (get sen6x.CONF_RHT_T1 rht) as [t1|] eqn:E3; [|discriminate].
    destruct (get sen6x.CONF_RHT_T2 rht) as [t2|] eqn:E4; [|discriminate].
    intros [= <-]. simpl when.
    do 5 (eapply emits_bind_silent; [apply emits_getitem; eassumption|]).
    apply emits_add.
  - intros [= <-]. apply emits_ret.
Qed.

(** The hub's [to_code] issues the statements of [hub_output]. *)
Lemma hub_emits (config : dict) (out : list statement) :
  hub_output config = Some out ->
  emits (sen6x.to_code (VDict config)) tt out.
Proof.
  unfold hub_output.
  destruct (get CONF_ID config) as [[| | | | |i| |]|] eqn:Ei; try discriminate.
  destruct (get "update_interval" config) as [ui|] eqn:Eu; [|discriminate].
  destruct (get "i2c_id" config) as [[| | | | |bus| |]|] eqn:Eb;
    try discriminate.
  destruct (get "address" config) as [address|] eqn:Ea; [|discriminate].
  destruct (pressure_output (Var i) config) as [o1|] eqn:E1; [|discriminate].
  destruct (rht_output (Var i) config) as [o2|] eqn:E2; [|discriminate].
  intros [= <-]. unfold sen6x.to_code.
  eapply emits_bind_silent; [apply emits_getitem; eassumption|].
  unfold new_Pvariable.
  eapply (emits_bind _ _ (Var i) _ [_] (_ :: _ :: _));
    [apply emits_add_then; apply emits_ret|].
  eapply (emits_bind _ _ tt _ [_] (_ :: _)).
  { unfold register_component.
    eapply emits_bind_silent; [apply emits_getitem; eassumption|].
    apply emits_add. }
  eapply (emits_bind _ _ tt _ [_] _).
  { unfold register_i2c_device.
    eapply emits_bind_silent; [apply emits_getitem; eassumption|].
    eapply emits_bind_silent; [apply emits_get_variable|].
    eapply emits_bind_silent; [apply emits_getitem; eassumption|].
    apply emits_add. }
  apply emits_seq; [now apply emits_pressure|now apply emits_rht].
Qed.

Lemma hub_schema_NoDup : NoDup (map key sen6x.CONFIG_SCHEMA).
Proof. apply distinct_NoDup. reflexivity. Qed.

(** The four values of a validated RHT-acceleration block. *)
Lemma rht_schema_inv (x v : value) :
  Schema sen6x.RHT_ACCELERATION_SCHEMA x = Some v ->
  exists rht k p t1 t2, v = VDict rht /\
    get sen6x.CONF_RHT_K rht = Some (VInt k) /\
    get sen6x.CONF_RHT_P rht = Some (VInt p) /\
    get sen6x.CONF_RHT_T1 rht = Some (VInt t1) /\
    get sen6x.CONF_RHT_T2 rht = Some (VInt t2) /\
    -32768 <= k <= 32767 /\ -32768 <= p <= 32767 /\
    0 <= t1 <= 65535 /\ 0 <= t2 <= 65535.
Proof.
  intros Hs. destruct (Schema_dict _ _ _ Hs) as [r [rht [-> ->]]].
  assert (forall key lo hi,
    find_field key sen6x.RHT_ACCELERATION_SCHEMA
    = Some (Required key (int_range lo hi)) ->
    exists z, get key rht = Some (VInt z) /\ lo <= z <= hi) as H.
  { intros key lo hi Hf.
    destruct (Schema_present _ _ _ Hs _ _ Hf) as [w Hw]; [discriminate|].
    destruct (Schema_get_check _ _ _ Hs _ _ Hw) as [f [y [Hf' Hc]]].
    rewrite Hf in Hf'. injection Hf' as <-. cbn [check Required] in Hc.
    destruct (int_range_inv _ _ _ _ Hc) as [_ [z [-> Hz]]]. eauto. }
  destruct (H sen6x.CONF_RHT_K _ _ eq_refl) as [k [Hk ?]].
  destruct (H sen6x.CONF_RHT_P _ _ eq_refl) as [p [Hp ?]].
  destruct (H sen6x.CONF_RHT_T1 _ _ eq_refl) as [t1 [Ht1 ?]].
  destruct (H sen6x.CONF_RHT_T2 _ _ eq_refl) as [t2 [Ht2 ?]].
  exists rht, k, p, t1, t2. tauto.
Qed.

(** What validation guarantees of a hub configuration. *)
Lemma hub_valid (raw : value) (config : dict) :
  Schema sen6x.CONFIG_SCHEMA raw = Some (VDict config) ->
  (exists i, get CONF_ID config = Some (VID i)) /\
  (exists ui, get "update_interval" config = Some ui) /\
  (exists bus, get "i2c_id" config = Some (VID bus)) /\
  (exists address, get "address" config = Some address) /\
  (forall v, get sen6x.CONF_PRESSURE_SOURCE config = Some v ->
             exists i, v = VID i) /\
  (forall v, get sen6x.CONF_RHT_ACCELERATION config = Some v ->
     exists rht k p t1 t2, v = VDict rht /\
       get sen6x.CONF_RHT_K rht = Some (VInt k) /\
       get sen6x.CONF_RHT_P rht = Some (VInt p) /\
       get sen6x.CONF_RHT_T1 rht = Some (VInt t1) /\
       get sen6x.CONF_RHT_T2 rht = Some (VInt t2) /\
       -32768 <= k <= 32767 /\ -32768 <= p <= 32767 /\
       0 <= t1 <= 65535 /\ 0 <= t2 <= 65535).
Proof.
  intros Hs. destruct (Schema_dict _ _ _ Hs) as [r [o [-> [= <-]]]].
  assert (forall k f, find_field k sen6x.CONFIG_SCHEMA = Some f ->
            mark f <> MOptional None ->
            exists v x, get k config = Some v /\ check f x = Some v) as Hp.
  { intros k f Hf Hm. destruct (Schema_present _ _ _ Hs _ _ Hf Hm) as [v Hv].
    destruct (Schema_get_check _ _ _ Hs _ _ Hv) as [f' [x [Hf' Hc]]].
    rewrite Hf in Hf'. injection Hf' as <-. eauto. }
  assert (forall k f v, find_field k sen6x.CONFIG_SCHEMA = Some f ->
            get k config = Some v -> exists x, check f x = Some v) as Hg.
  { intros k f v Hf Hv.
    destruct (Schema_get_check _ _ _ Hs _ _ Hv) as [f' [x [Hf' Hc]]].
    rewrite Hf in Hf'. injection Hf' as <-. eauto. }
  repeat split.
  - destruct (Hp CONF_ID _ eq_refl) as [v [x [Hv Hc]]]; [discriminate|].
    destruct (use_id_inv _ _ Hc) as [i ->]. eauto.
  - destruct (Hp "update_interval" _ eq_refl) as [v [x [Hv Hc]]];
      [discriminate|]. eauto.
  - destruct (Hp "i2c_id" _ eq_refl) as [v [x [Hv Hc]]]; [discriminate|].
    destruct (use_id_inv _ _ Hc) as [i ->]. eauto.
  - destruct (Hp "address" _ eq_refl) as [v [x [Hv Hc]]]; [discriminate|].
    eauto.
  - intros v Hv.
    destruct (Hg sen6x.CONF_PRESSURE_SOURCE _ _ eq_refl Hv) as [x Hc].
    now apply use_id_inv in Hc.
  - intros v Hv.
    destruct (Hg sen6x.CONF_RHT_ACCELERATION _ _ eq_refl Hv) as [x Hc].
    now apply rht_schema_inv in Hc.
Qed.

Lemma hub_output_valid (raw : value) (config : dict) :
  Schema sen6x.CONFIG_SCHEMA raw = Some (VDict config) ->
  exists out, hub_output config = Some out.
Proof.
  intros Hs.
  destruct (hub_valid _ _ Hs)
    as [[i Hi] [[ui Hu] [[bus Hb] [[a Ha] [Hp Hr]]]]].
  unfold hub_output, pressure_output, rht_output.
  rewrite Hi, Hu, Hb, Ha.
  destruct (get sen6x.CONF_PRESSURE_SOURCE config) as [v|].
  - destruct (Hp v eq_refl) as [j ->].
    destruct (get sen6x.CONF_RHT_ACCELERATION config) as [w|]; [|eauto].
    destruct (Hr w eq_refl)
      as [rht [k [p [t1 [t2 [-> [-> [-> [-> [-> _]]]]]]]]]]. eauto.
  - destruct (get sen6x.CONF_RHT_ACCELERATION config) as [w|]; [|eauto].
    destruct (Hr w eq_refl)
      as [rht [k [p [t1 [t2 [-> [-> [-> [-> [-> _]]]]]]]]]]. eauto.
Qed.

End Hub.

(* ================================================================== *)
(** ** Emission reads a mapping through its lookups only *)

Section Invariance.

Variables d d' : dict.
Hypothesis same : forall k, get k d = get k d'.

Lemma registrar_output_same (r : registrar) :
  registrar_output r d = registrar_output r d'.
Proof.
  unfold registrar_output, blocks_output. rewrite same.
  destruct (get sen6x.CONF_SEN6X_ID d') as [[| | | | |i| |]|]; try reflexivity.
  f_equal. apply map_ext. intros b. now rewrite same.
Qed.

Lemma hub_output_same : hub_output d = hub_output d'.
Proof.
  unfold hub_output, pressure_output, rht_output. now rewrite !same.
Qed.

Lemma setters_in_table_order_same (r : registrar) :
  setters_in_table_order r d = setters_in_table_order r d'.
Proof.
  unfold setters_in_table_order. f_equal. apply filter_ext.
  intros b. unfold contains. now rewrite same.
Qed.

End Invariance.

(* ================================================================== *)
(** ** Reading statement lists *)

Section Reading.

Lemma calls_to_app (m : string) (o1 o2 : list statement) :
  calls_to m (o1 ++ o2) = calls_to m o1 ++ calls_to m o2.
Proof.
  induction o1 as [|st o1 IH]; simpl; [reflexivity|].
  destruct st; try assumption.
  destruct (String.eqb method m); [simpl; now f_equal|assumption].
Qed.

Lemma bound_setters_app (o1 o2 : list statement) :
  bound_setters (o1 ++ o2) = bound_setters o1 ++ bound_setters o2.
Proof.
  induction o1 as [|st o1 IH]; simpl; [reflexivity|].
  destruct st as [| | | |obj m args]; try assumption.
  destruct args as [|[i|v|n fs] [|a args]]; try assumption.
  simpl. now f_equal.
Qed.

Lemma constructed_app (o1 o2 : list statement) :
  constructed (o1 ++ o2) = constructed o1 ++ constructed o2.
Proof.
  induction o1 as [|st o1 IH]; simpl; [reflexivity|].
  destruct st; try assumption. simpl. now f_equal.
Qed.

End Reading.
(* ================================================================== *)
(** ** The capability table *)

Section Capabilities.

Import sen6x.

Lemma lookup_unknown (model : string) (table : list (string * capabilities)) :
  ~ In model (map fst table) -> lookup model table = None.
Proof.
  induction table as [|[k c] table IH]; simpl; [reflexivity|].
  intros H. destruct (String.eqb model k) eqn:E.
  - apply String.eqb_eq in E. subst. tauto.
  - apply IH. tauto.
Qed.

Lemma lookup_known (model : string) (c : capabilities) :
  In (model, c) MODEL_CAPABILITIES -> lookup model MODEL_CAPABILITIES = Some c.
Proof.
  simpl. intros H.
  repeat (destruct H as [[= <- <-]|H]; [reflexivity|]). contradiction.
Qed.

(** C1, as amended.  The capability lookup never fails; for a known model
    key it returns that model's own record; for every other string it
    returns the SEN66 record, in which every flag but formaldehyde is
    set, so that it is at least as permissive as every record of the
    table that has no formaldehyde support. *)
Theorem get_model_capabilities_fallback (model : string) :
  exists c, get_model_capabilities model = Some c /\
    (forall own, In (model, own) MODEL_CAPABILITIES -> c = own) /\
    (~ In model MODELS ->
       c = mkCapabilities true true true true true true false /\
       forall k other, In (k, other) MODEL_CAPABILITIES ->
         hcho other = false -> dominates c other = true).
Proof.
  unfold get_model_capabilities.
  change (lookup "SEN66" MODEL_CAPABILITIES)
    with (Some (mkCapabilities true true true true true true false)).
  destruct (lookup model MODEL_CAPABILITIES) as [c|] eqn:E.
  - exists c. split; [reflexivity|]. split.
    + intros own Hin. rewrite (lookup_known _ _ Hin) in E. congruence.
    + intros Hn. rewrite (lookup_unknown _ _ Hn) in E. discriminate.
  - eexists. split; [reflexivity|]. split.
    + intros own Hin. rewrite (lookup_known _ _ Hin) in E. discriminate.
    + intros _. split; [reflexivity|]. intros k other Hin Hh.
      simpl in Hin.
      repeat (destruct Hin as [[= <- <-]|Hin]; [first [reflexivity|discriminate]|]).
      contradiction.
Qed.

(** C1, as stated, fails: "SEN60" is not a model key, and the record
    returned for it does not dominate the SEN69C record of the table. *)
Lemma get_model_capabilities_not_most_capable :
  ~ In "SEN60" MODELS /\
  exists c other,
    get_model_capabilities "SEN60" = Some c /\
    In ("SEN69C", other) MODEL_CAPABILITIES /\
    dominates c other = false.
Proof.
  split.
  - simpl. intros H.
    repeat (destruct H as [H|H]; [discriminate|]). contradiction.
  - eexists. eexists. split; [reflexivity|]. split.
    + simpl. do 5 right. left. reflexivity.
    + reflexivity.
Qed.

(** C10.  The capability lookup is total; for every string that is not a
    model key it returns the SEN66 record, whose formaldehyde flag is
    unset, while the table holds the SEN69C record with all seven flags
    set: the fallback is strictly dominated by a record of the table. *)
Theorem fallback_is_SEN66 :
  (forall model, exists c, get_model_capabilities model = Some c) /\
  (forall model, ~ In model MODELS ->
     get_model_capabilities model = lookup "SEN66" MODEL_CAPABILITIES) /\
  (exists sen66 sen69c,
     lookup "SEN66" MODEL_CAPABILITIES = Some sen66 /\
     hcho sen66 = false /\
     In ("SEN69C", sen69c) MODEL_CAPABILITIES /\
     sen69c = mkCapabilities true true true true true true true /\
     dominates sen69c sen66 = true /\
     dominates sen66 sen69c = false).
Proof.
  split; [|split].
  - intros model. unfold get_model_capabilities.
    change (lookup "SEN66" MODEL_CAPABILITIES)
      with (Some (mkCapabilities true true true true true true false)).
    destruct (lookup model MODEL_CAPABILITIES); eauto.
  - intros model Hn. unfold get_model_capabilities.
    rewrite (lookup_unknown _ _ Hn). reflexivity.
  - eexists. eexists. split; [reflexivity|]. split; [reflexivity|].
    split; [simpl; do 5 right; left; reflexivity|].
    split; [reflexivity|]. split; reflexivity.
Qed.

End Capabilities.

(* ================================================================== *)
(** ** The default parameter tables *)

Section Defaults.

Import sensor.

(** C4.  The VOC and NOx tuning defaults agree on four of their six
    fields (learning_time_offset_hours, learning_time_gain_hours,
    std_initial, gain_factor) and differ on exactly two: index_offset is
    100 for VOC and 1 for NOx, gating_max_duration_minutes is 180 for VOC
    and 720 for NOx. *)
Theorem defaults_differ_on_two_fields :
  learning_time_offset_hours VOC_DEFAULTS
    = learning_time_offset_hours NOX_DEFAULTS /\
  learning_time_gain_hours VOC_DEFAULTS
    = learning_time_gain_hours NOX_DEFAULTS /\
  std_initial VOC_DEFAULTS = std_initial NOX_DEFAULTS /\
  gain_factor VOC_DEFAULTS = gain_factor NOX_DEFAULTS /\
  index_offset VOC_DEFAULTS = 100 /\ index_offset NOX_DEFAULTS = 1 /\
  gating_max_duration_minutes VOC_DEFAULTS = 180 /\
  gating_max_duration_minutes NOX_DEFAULTS = 720 /\
  List.length (items VOC_DEFAULTS) = 6%nat /\
  map fst (items VOC_DEFAULTS) = map fst (items NOX_DEFAULTS) /\
  map (fun p => fst (fst p))
    (filter (fun p => negb (snd (fst p) =? snd (snd p)))
       (combine (items VOC_DEFAULTS) (items NOX_DEFAULTS)))
  = [CONF_INDEX_OFFSET; CONF_GATING_MAX_DURATION_MINUTES].
Proof. repeat split. Qed.

End Defaults.

(* ================================================================== *)
(** ** The order of the hub's instructions *)

Section HubOrder.

Import cv.

(** C2, as amended.  For every validated hub configuration that declares
    both an external pressure reference and an RHT-acceleration block,
    the hub issues exactly five statements: construction, the two
    registrations, then the pressure-reference binding, and last the
    instruction carrying the four RHT-acceleration values. *)
Theorem pressure_source_before_rht_acceleration
    (raw : value) (config : dict) :
  Schema sen6x.CONFIG_SCHEMA raw = Some (VDict config) ->
  has sen6x.CONF_PRESSURE_SOURCE (VDict config) = true ->
  has sen6x.CONF_RHT_ACCELERATION (VDict config) = true ->
  exists out i update_interval bus address source k p t1 t2,
    emitted (sen6x.to_code (VDict config)) = Some out /\
    out = [ SNewPvariable i;
            SRegisterComponent (Var i) update_interval;
            SRegisterI2CDevice (Var i) (Var bus) address;
            SCall (Var i) "set_pressure_source" [Var source];
            SCall (Var i) "set_rht_acceleration"
              [StructInitializer "RhtAcceleration"
                 [("k", VInt k); ("p", VInt p);
                  ("t1", VInt t1); ("t2", VInt t2)]] ] /\
    index_of_call "set_pressure_source" out = Some 3%nat /\
    index_of_call "set_rht_acceleration" out = Some 4%nat.
Proof.
  intros Hs Hp Hr.
  destruct (hub_valid _ _ Hs)
    as [[i Hi] [[ui Hu] [[bus Hb] [[a Ha] [Hpv Hrv]]]]].
  unfold has, contains in Hp, Hr.
  destruct (get sen6x.CONF_PRESSURE_SOURCE config) as [v|] eqn:Ep;
    [|discriminate].
  destruct (get sen6x.CONF_RHT_ACCELERATION config) as [w|] eqn:Er;
    [|discriminate].
  destruct (Hpv v eq_refl) as [src ->].
  destruct (Hrv w eq_refl)
    as [rht [k [p [t1 [t2 [-> [Hk [Hpp [Ht1 [Ht2 _]]]]]]]]]].
  eexists. exists i, ui, bus, a, src, k, p, t1, t2.
  split; [|split; [reflexivity|split; reflexivity]].
  apply emits_emitted with (a := tt). apply hub_emits.
  unfold hub_output, pressure_output, rht_output.
  rewrite Hi, Hu, Hb, Ha, Ep, Er, Hk, Hpp, Ht1, Ht2. reflexivity.
Qed.

End HubOrder.

(** C2, as stated, fails: on [hub_with_both] the instruction with the
    RHT-acceleration values is not issued before the pressure-reference
    binding. *)
Lemma rht_acceleration_not_before_pressure_source :
  exists config out ip ir,
    cv.Schema sen6x.CONFIG_SCHEMA hub_with_both = Some config /\
    emitted (sen6x.to_code config) = Some out /\
    index_of_call "set_pressure_source" out = Some ip /\
    index_of_call "set_rht_acceleration" out = Some ir /\
    ~ (ir < ip)%nat.
Proof.
  eexists. eexists. eexists. eexists.
  split; [vm_compute; reflexivity|].
  split; [vm_compute; reflexivity|].
  split; [vm_compute; reflexivity|].
  split; [vm_compute; reflexivity|]. lia.
Qed.

Lemma pressure_source_before_rht_acceleration_witness :
  exists config out,
    cv.Schema sen6x.CONFIG_SCHEMA hub_with_both = Some (VDict config) /\
    emitted (sen6x.to_code (VDict config)) = Some out /\
    index_of_call "set_pressure_source" out = Some 3%nat /\
    index_of_call "set_rht_acceleration" out = Some 4%nat.
Proof.
  eexists.
  assert (cv.Schema sen6x.CONFIG_SCHEMA hub_with_both = Some (VDict _)) as Hs
    by (vm_compute; reflexivity).
  destruct (pressure_source_before_rht_acceleration _ _ Hs eq_refl eq_refl)
    as [out [i [ui [bus [a [src [k [p [t1 [t2 [He [_ [H3 H4]]]]]]]]]]]]].
  exists out. split; [exact Hs|]. split; [exact He|]. split; assumption.
Defined.
(* ================================================================== *)
(** ** The order of a registrar's instructions *)

Section RegistrarOrder.

Import cv.

Lemma registrar_schema_NoDup (r : registrar) : NoDup (map key (schema_of r)).
Proof. apply distinct_NoDup. destruct r; reflexivity. Qed.

Lemma tuning_unbound method hub d e :
  tuning_follow_up method hub d = Some e -> bound_setters e = [].
Proof.
  unfold tuning_follow_up.
  destruct (get sensor.CONF_ALGORITHM_TUNING d) as [[| | | | | | |t]|];
    try discriminate; [|now intros [= <-]].
  destruct (get sensor.CONF_INDEX_OFFSET t); [|discriminate].
  destruct (get sensor.CONF_LEARNING_TIME_OFFSET_HOURS t); [|discriminate].
  destruct (get sensor.CONF_LEARNING_TIME_GAIN_HOURS t); [|discriminate].
  destruct (get sensor.CONF_GATING_MAX_DURATION_MINUTES t); [|discriminate].
  destruct (get sensor.CONF_STD_INITIAL t); [|discriminate].
  destruct (get sensor.CONF_GAIN_FACTOR t); [|discriminate].
  now intros [= <-].
Qed.

Lemma compensation_unbound hub d e :
  compensation_follow_up hub d = Some e -> bound_setters e = [].
Proof.
  unfold compensation_follow_up. intros [= <-]. now destruct (_ || _).
Qed.

Lemma interval_unbound hub d e :
  interval_follow_up hub d = Some e -> bound_setters e = [].
Proof.
  unfold interval_follow_up.
  destruct (get switch.CONF_INTERVAL d) as [[| | | | | |t|]|];
    try discriminate. now intros [= <-].
Qed.

(** No follow-up instruction hands an entity variable to the hub. *)
Lemma follow_up_unbound (r : registrar) (b : binding) hub d e :
  In b (bindings r) -> bextra b hub d = Some e -> bound_setters e = [].
Proof.
  intros Hin.
  destruct r; simpl in Hin;
    repeat (destruct Hin as [<-|Hin];
            [ simpl bextra;
              first [ now intros [= <-]
                    | apply tuning_unbound
                    | apply compensation_unbound
                    | apply interval_unbound ] | ]);
    contradiction.
Qed.

Lemma bound_setters_blocks p hub (bs : list binding) config out :
  (forall b d e, In b bs -> bextra b hub d = Some e -> bound_setters e = []) ->
  blocks_output p hub bs config = Some out ->
  bound_setters out
  = map bsetter (filter (fun b => contains (bkey b) config) bs).
Proof.
  unfold blocks_output. revert out.
  induction bs as [|b bs IH]; intros out Hex H.
  - simpl in H. now injection H as <-.
  - cbn [map] in H. apply concat_opt_cons in H.
    destruct H as [o [os [Ho [Hos ->]]]].
    rewrite bound_setters_app.
    rewrite (IH os) by (intros; eauto using in_cons).
    cbn [filter]. rewrite (contains_get (bkey b) config).
    unfold entity_output in Ho.
    destruct (get (bkey b) config) as [[| | | | | | |d]|]; try discriminate.
    + destruct (get CONF_ID d) as [[| | | | |i| |]|]; try discriminate.
      destruct (bextra b hub d) as [e|] eqn:Ee; [|discriminate].
      injection Ho as <-. cbn [bound_setters map].
      rewrite (Hex b d e (or_introl eq_refl) Ee). reflexivity.
    + injection Ho as <-. reflexivity.
Qed.

Lemma blocks_cons p hub b bs config out :
  blocks_output p hub (b :: bs) config = Some out ->
  exists o os, entity_output p hub b (get (bkey b) config) = Some o /\
               blocks_output p hub bs config = Some os /\ out = o ++ os.
Proof. unfold blocks_output. cbn [map]. apply concat_opt_cons. Qed.

Lemma blocks_entity p hub (bs : list binding) config out (b : binding) :
  blocks_output p hub bs config = Some out -> In b bs ->
  exists o, entity_output p hub b (get (bkey b) config) = Some o /\
            forall st, In st o -> In st out.
Proof.
  revert out. induction bs as [|b' bs IH]; intros out H Hin; [contradiction|].
  destruct (blocks_cons _ _ _ _ _ _ H) as [o [os [Ho [Hos ->]]]].
  destruct Hin as [->|Hin].
  - exists o. split; [assumption|]. intros. apply in_or_app. now left.
  - destruct (IH os Hos Hin) as [o' [Ho' Hsub]]. exists o'.
    split; [assumption|]. intros. apply in_or_app. right. now apply Hsub.
Qed.

Lemma entity_statements_output p hub (b : binding) c o :
  entity_output p hub b c = Some o -> entity_statements p hub b c = o.
Proof.
  unfold entity_output, entity_statements.
  destruct c as [[| | | | | | |d]|]; try discriminate.
  - destruct (get CONF_ID d) as [[| | | | |i| |]|]; try discriminate.
    destruct (bextra b hub d) as [e|]; [|discriminate]. now intros [= <-].
  - now intros [= <-].
Qed.

Lemma blocks_closed_form p hub (bs : list binding) config out :
  blocks_output p hub bs config = Some out ->
  out = flat_map (fun b => entity_statements p hub b (get (bkey b) config)) bs.
Proof.
  revert out. induction bs as [|b bs IH]; intros out H.
  - unfold blocks_output in H. simpl in H. now injection H as <-.
  - destruct (blocks_cons _ _ _ _ _ _ H) as [o [os [Ho [Hos ->]]]].
    cbn [flat_map]. rewrite (entity_statements_output _ _ _ _ _ Ho).
    f_equal. now apply IH.
Qed.

(** C3, as amended.  For every registrar and every validated
    configuration, the statements issued are, for each key in the fixed
    order in which the registrar's [to_code] tests its keys and that the
    configuration declares, the construction of the entity, then its
    binding to the hub, then its follow-up instruction if it has one:
    the order of issue is the order of the tests, not the order of
    declaration. *)
Theorem wiring_follows_table_order
    (r : registrar) (raw : value) (config : dict) :
  Schema (schema_of r) raw = Some (VDict config) ->
  exists out h,
    emitted (to_code_of r (VDict config)) = Some out /\
    get sen6x.CONF_SEN6X_ID config = Some (VID h) /\
    out
    = flat_map (fun b => entity_statements (platform_of r) (Var h) b
                           (get (bkey b) config)) (bindings r) /\
    (forall b c, In b (bindings r) -> get (bkey b) config = Some c ->
       exists d i follow,
         c = VDict d /\ get CONF_ID d = Some (VID i) /\
         bextra b (Var h) d = Some follow /\
         entity_statements (platform_of r) (Var h) b (Some c)
         = SNewEntity (platform_of r) d (bkwargs b)
           :: SCall (Var h) (bsetter b) [Var i] :: follow) /\
    bound_setters out = setters_in_table_order r config.
Proof.
  intros Hs.
  destruct (registrar_valid r _ _ Hs) as [out Hout].
  pose proof (to_code_emits r _ _ Hout) as He.
  unfold registrar_output in Hout.
  destruct (get sen6x.CONF_SEN6X_ID config) as [[| | | | |h| |]|];
    try discriminate.
  exists out, h. split; [|split; [reflexivity|split; [|split]]].
  - now apply emits_emitted with (a := tt).
  - now apply blocks_closed_form.
  - intros b c Hb Hc.
    destruct (blocks_entity _ _ _ _ _ b Hout Hb) as [o [Ho _]].
    rewrite Hc in Ho. unfold entity_output in Ho.
    destruct c as [| | | | | | |d]; try discriminate.
    destruct (get CONF_ID d) as [[| | | | |i| |]|] eqn:Ei; try discriminate.
    destruct (bextra b (Var h) d) as [follow|] eqn:Ef; [|discriminate].
    exists d, i, follow.
    split; [reflexivity|]. split; [exact Ei|]. split; [exact Ef|].
    unfold entity_statements. now rewrite Ei, Ef.
  - apply (bound_setters_blocks _ _ _ _ _ (fun b d e Hin =>
             follow_up_unbound r b (Var h) d e Hin) Hout).
Qed.

(** C3, as stated, fails: [humidity_then_pm_named] declares the humidity
    sensor before the PM1.0 sensor, and the PM1.0 sensor is constructed
    and wired first. *)
Lemma wiring_not_in_declaration_order :
  exists config out,
    Schema (schema_of Sensor) humidity_then_pm_named = Some (VDict config) /\
    keys config
    = [sen6x.CONF_SEN6X_ID; sensor.CONF_HUMIDITY; sensor.CONF_PM_1_0] /\
    emitted (to_code_of Sensor (VDict config)) = Some out /\
    setters_in_declaration_order Sensor config
      = ["set_humidity_sensor"; "set_pm_1_0_sensor"] /\
    bound_setters out = ["set_pm_1_0_sensor"; "set_humidity_sensor"] /\
    bound_setters out <> setters_in_declaration_order Sensor config /\
    map (fun st => match st with
                   | SCall _ m _ => m
                   | SNewEntity _ d _ =>
                       match get CONF_ID d with
                       | Some (VID (Some i)) => i
                       | _ => EmptyString
                       end
                   | _ => EmptyString
                   end) out
    = [ "pm_1_0_sensor"; "set_pm_1_0_sensor";
        "humidity_sensor"; "set_humidity_sensor" ].
Proof.
  eexists. eexists.
  split; [vm_compute; reflexivity|].
  split; [vm_compute; reflexivity|].
  split; [vm_compute; reflexivity|].
  split; [vm_compute; reflexivity|].
  split; [vm_compute; reflexivity|].
  split; [vm_compute; discriminate|].
  vm_compute. reflexivity.
Qed.

Lemma wiring_follows_table_order_witness :
  exists config out dp dh,
    Schema (schema_of Sensor) humidity_then_pm_named = Some (VDict config) /\
    emitted (to_code_of Sensor (VDict config)) = Some out /\
    get sensor.CONF_PM_1_0 config = Some (VDict dp) /\
    get sensor.CONF_HUMIDITY config = Some (VDict dh) /\
    out = [ SNewEntity PSensor dp [];
            SCall (Var (Some "sen6x_hub")) "set_pm_1_0_sensor"
              [Var (Some "pm_1_0_sensor")];
            SNewEntity PSensor dh [];
            SCall (Var (Some "sen6x_hub")) "set_humidity_sensor"
              [Var (Some "humidity_sensor")] ].
Proof.
  eexists.
  assert (Schema (schema_of Sensor) humidity_then_pm_named
          = Some (VDict _)) as Hs by (vm_compute; reflexivity).
  destruct (wiring_follows_table_order Sensor _ _ Hs)
    as [out [h [He [Hh [Hout _]]]]].
  exists out. eexists. eexists.
  split; [exact Hs|]. split; [exact He|].
  split; [vm_compute; reflexivity|]. split; [vm_compute; reflexivity|].
  vm_compute in Hh. injection Hh as <-. rewrite Hout. vm_compute. reflexivity.
Defined.

End RegistrarOrder.

(* ================================================================== *)
(** ** Determinism of the whole emission *)

Section Determinism.

Import cv.

Lemma run_registrars_emits (rs : list registrar) (b b' : build) :
  (forall r config, block b r = Some config ->
     exists raw, Schema (schema_of r) raw = Some config) ->
  (forall r, match block b r, block b' r with
             | Some c, Some c' => rearranged c c'
             | None, None => True
             | _, _ => False
             end) ->
  exists out, emits (run_registrars rs b) tt out /\
              emits (run_registrars rs b') tt out.
Proof.
  intros Hv Hr. induction rs as [|r rs [os [IH IH']]].
  - exists []. split; apply emits_ret.
  - assert (exists o, emits (run_block r b) tt o /\ emits (run_block r b') tt o)
      as [o [Ho Ho']].
    { unfold run_block. specialize (Hv r). specialize (Hr r).
      destruct (block b r) as [c|], (block b' r) as [c'|]; try contradiction.
      - destruct Hr as [d [d' [-> [-> Hp]]]].
        destruct (Hv _ eq_refl) as [raw Hs].
        destruct (registrar_valid r _ _ Hs) as [o Ho].
        pose proof (Schema_dict _ _ _ Hs) as [rw [x [-> _]]].
        pose proof (Schema_NoDup _ _ _ Hs (registrar_schema_NoDup r)) as Hnd.
        pose proof (get_Permutation _ _ Hnd Hp) as Hsame.
        exists o. split; apply to_code_emits; [assumption|].
        now rewrite <- (registrar_output_same _ _ Hsame).
      - exists []. split; apply emits_ret. }
    exists (o ++ os). split; simpl; now apply emits_seq.
Qed.

(** C9.  Emission is deterministic: from a validated build, and from any
    build that holds the same entries in another order, the pipeline
    issues the same statements, in order and content, after whatever was
    issued before; in particular two runs on the same build agree. *)
Theorem emission_deterministic (b b' : build) :
  validated b ->
  rearranged (hub b) (hub b') ->
  (forall r, match block b r, block b' r with
             | Some c, Some c' => rearranged c c'
             | None, None => True
             | _, _ => False
             end) ->
  exists out,
    emits (emit b) tt out /\ emits (emit b') tt out /\
    emitted (emit b) = Some out /\ emitted (emit b') = Some out.
Proof.
  intros [[raw Hs] Hv] [d [d' [Hd [Hd' Hp]]]] Hr.
  rewrite Hd in Hs.
  destruct (hub_output_valid _ _ Hs) as [oh Hoh].
  pose proof (Schema_dict _ _ _ Hs) as [rw [x [-> _]]].
  pose proof (Schema_NoDup _ _ _ Hs hub_schema_NoDup) as Hnd.
  pose proof (get_Permutation _ _ Hnd Hp) as Hsame.
  destruct (run_registrars_emits registrar_order b b' Hv Hr) as [os [Ho Ho']].
  assert (emits (emit b) tt (oh ++ os)) as E.
  { unfold emit. rewrite Hd. apply emits_seq; [now apply hub_emits|assumption]. }
  assert (emits (emit b') tt (oh ++ os)) as E'.
  { unfold emit. rewrite Hd'. apply emits_seq; [|assumption].
    apply hub_emits. now rewrite <- (hub_output_same _ _ Hsame). }
  exists (oh ++ os). repeat split; try assumption.
  - now apply emits_emitted with (a := tt).
  - now apply emits_emitted with (a := tt).
Qed.

Lemma emission_deterministic_witness :
  exists out,
    emitted (emit example_build) = Some out /\
    emitted (emit example_build_rearranged) = Some out.
Proof.
  assert (validated example_build) as Hv.
  { split.
    - exists hub_with_both. vm_compute. reflexivity.
    - intros r config. destruct r; simpl; try discriminate.
      + intros [= <-]. exists humidity_then_pm. vm_compute. reflexivity.
      + intros [= <-]. exists temperature_offset_with_slope.
        vm_compute. reflexivity. }
  assert (rearranged (hub example_build) (hub example_build_rearranged)) as Hh.
  { eexists. eexists. split; [reflexivity|]. split; [reflexivity|].
    apply Permutation_rev. }
  assert (forall r,
    match block example_build r, block example_build_rearranged r with
    | Some c, Some c' => rearranged c c'
    | None, None => True
    | _, _ => False
    end) as Hr.
  { intros r. destruct r; simpl; try exact I;
      (eexists; eexists; split; [reflexivity|]; split; [reflexivity|];
       apply Permutation_rev). }
  destruct (emission_deterministic _ _ Hv Hh Hr) as [out [_ [_ [H1 H2]]]].
  exists out. split; assumption.
Defined.

End Determinism.
(* ================================================================== *)
(** ** Follow-up instructions *)

Section FollowUps.

Import cv.

Lemma calls_block p hub (b : binding) c o (m : string) :
  entity_output p hub b c = Some o ->
  String.eqb (bsetter b) m = false ->
  calls_to m o
  = match c with
    | Some (VDict d) =>
        match bextra b hub d with
        | Some e => calls_to m e
        | None => []
        end
    | _ => []
    end.
Proof.
  unfold entity_output. intros H Hm.
  destruct c as [[| | | | | | |d]|]; try discriminate.
  - destruct (get CONF_ID d) as [[| | | | |i| |]|]; try discriminate.
    destruct (bextra b hub d) as [e|]; [|discriminate].
    injection H as <-. cbn [calls_to]. now rewrite Hm.
  - now injection H as <-.
Qed.

Lemma calls_simple_block p hub key setter kw c o (m : string) :
  entity_output p hub (mkBinding key setter kw no_follow_up) c = Some o ->
  String.eqb setter m = false ->
  calls_to m o = [].
Proof.
  intros H Hm. rewrite (calls_block _ _ _ _ _ m H Hm).
  now destruct c as [[| | | | | | |d]|].
Qed.

Lemma calls_tuning_other (m' m : string) hub d :
  String.eqb m' m = false ->
  match tuning_follow_up m' hub d with
  | Some e => calls_to m e
  | None => []
  end = [].
Proof.
  intros Hm. unfold tuning_follow_up.
  destruct (get sensor.CONF_ALGORITHM_TUNING d) as [[| | | | | | |t]|];
    try reflexivity.
  destruct (get sensor.CONF_INDEX_OFFSET t); [|reflexivity].
  destruct (get sensor.CONF_LEARNING_TIME_OFFSET_HOURS t); [|reflexivity].
  destruct (get sensor.CONF_LEARNING_TIME_GAIN_HOURS t); [|reflexivity].
  destruct (get sensor.CONF_GATING_MAX_DURATION_MINUTES t); [|reflexivity].
  destruct (get sensor.CONF_STD_INITIAL t); [|reflexivity].
  destruct (get sensor.CONF_GAIN_FACTOR t); [|reflexivity].
  cbn [calls_to]. now rewrite Hm.
Qed.

Lemma constructed_block p hub (b : binding) c o :
  entity_output p hub b c = Some o ->
  (forall d e, bextra b hub d = Some e -> constructed e = []) ->
  constructed o
  = match c with
    | Some (VDict d) => [(p, d, bkwargs b)]
    | _ => []
    end.
Proof.
  unfold entity_output. intros H Hex.
  destruct c as [[| | | | | | |d]|]; try discriminate.
  - destruct (get CONF_ID d) as [[| | | | |i| |]|]; try discriminate.
    destruct (bextra b hub d) as [e|] eqn:Ee; [|discriminate].
    injection H as <-. cbn [constructed]. now rewrite (Hex d e Ee).
  - now injection H as <-.
Qed.

Lemma float_range_inv (lo hi : spec_float) (x v : value) :
  float_range lo hi x = Some v ->
  exists f, v = VFloat f /\ SFleb lo f = true /\ SFleb f hi = true.
Proof.
  unfold float_range.
  destruct x as [| |z|f| | | |]; try discriminate.
  - destruct (SFleb lo (float_of_int z)) eqn:E1; [|discriminate].
    destruct (SFleb (float_of_int z) hi) eqn:E2; [|discriminate].
    simpl. intros [= <-]. eauto.
  - destruct (SFleb lo f) eqn:E1; [|discriminate].
    destruct (SFleb f hi) eqn:E2; [|discriminate].
    simpl. intros [= <-]. eauto.
Qed.


End FollowUps.

Ltac open_registrar Hout i Hi :=
  unfold registrar_output in Hout;
  match type of Hout with
  | context [get sen6x.CONF_SEN6X_ID ?c] =>
      destruct (get sen6x.CONF_SEN6X_ID c) as [[| | | | |i| |]|] eqn:Hi;
      try discriminate
  end;
  unfold blocks_output in Hout;
  cbn [bindings platform_of map sensor_bindings binary_sensor_bindings
       number_bindings switch_bindings button_bindings
       text_sensor_bindings bkey] in Hout;
  split_blocks Hout.

Ltac drop_simple_blocks m :=
  repeat match goal with
  | H : entity_output _ _ (mkBinding _ _ _ no_follow_up) _ = Some ?o |- _ =>
      rewrite (calls_simple_block _ _ _ _ _ _ _ m H eq_refl); clear H
  end.

(* ================================================================== *)
(** ** Numeric settings *)

Section Numbers.

Import cv.

Lemma no_follow_up_constructs_nothing hub d e :
  no_follow_up hub d = Some e -> constructed e = [].
Proof. now intros [= <-]. Qed.

Lemma compensation_constructs_nothing hub d e :
  compensation_follow_up hub d = Some e -> constructed e = [].
Proof.
  unfold compensation_follow_up. intros [= <-]. now destruct (_ || _).
Qed.

Lemma number_entity (raw : value) (config : dict) (k : string) (v : value) :
  Schema number.CONFIG_SCHEMA raw = Some (VDict config) ->
  In k [ number.CONF_ALTITUDE_COMPENSATION;
         number.CONF_AMBIENT_PRESSURE_COMPENSATION;
         number.CONF_TEMPERATURE_OFFSET;
         number.CONF_OUTDOOR_CO2_REFERENCE ] ->
  get k config = Some v ->
  exists d i, v = VDict d /\ get CONF_ID d = Some (VID i).
Proof.
  intros Hs Hin Hv.
  destruct (Schema_dict _ _ _ Hs) as [rw [o [-> [= <-]]]].
  destruct (Schema_get_check _ _ _ Hs _ _ Hv) as [f [x [Hf Hc]]].
  simpl in Hin.
  repeat (destruct Hin as [<-|Hin];
          [ simpl in Hf; injection Hf as <-; simpl in Hc;
            eapply entity_id; [exact Hc|reflexivity] | ]).
  contradiction.
Qed.

(** C8.  The adjustable ranges handed to the host for the four numeric
    settings are: altitude compensation 0 to 3000 in steps of 1, ambient
    pressure compensation 0 to 1100 in steps of 1, temperature offset -10
    to 10 in steps of 0.1, outdoor CO2 reference 350 to 500 in steps of
    1, for every validated configuration that declares the setting; no
    other number is constructed. *)
Theorem numeric_setting_ranges (raw : value) (config : dict) :
  Schema number.CONFIG_SCHEMA raw = Some (VDict config) ->
  let ranges :=
    [ (number.CONF_ALTITUDE_COMPENSATION,
       [("min_value", VInt 0); ("max_value", VInt 3000); ("step", VInt 1)]);
      (number.CONF_AMBIENT_PRESSURE_COMPENSATION,
       [("min_value", VInt 0); ("max_value", VInt 1100); ("step", VInt 1)]);
      (number.CONF_TEMPERATURE_OFFSET,
       [("min_value", VInt (-10)); ("max_value", VInt 10);
        ("step", VFloat float_0_1)]);
      (number.CONF_OUTDOOR_CO2_REFERENCE,
       [("min_value", VInt 350); ("max_value", VInt 500); ("step", VInt 1)]) ]
  in
  exists out,
    emitted (number.to_code (VDict config)) = Some out /\
    constructed out
    = flat_map (fun kr => match get (fst kr) config with
                          | Some (VDict d) => [(PNumber, d, snd kr)]
                          | _ => []
                          end) ranges /\
    (forall k range, In (k, range) ranges -> contains k config = true ->
       exists d, get k config = Some (VDict d) /\
                 In (PNumber, d, range) (constructed out)) /\
    float_0_1 = SFdiv prec emax (float_of_int 1) (float_of_int 10).
Proof.
  intros Hs ranges.
  destruct (registrar_valid Number _ _ Hs) as [out Hout].
  exists out.
  assert (constructed out
          = flat_map (fun kr => match get (fst kr) config with
                                | Some (VDict d) => [(PNumber, d, snd kr)]
                                | _ => []
                                end) ranges) as Hc.
  { open_registrar Hout i Hi. rewrite !constructed_app.
    rewrite (constructed_block _ _ _ _ _ Ho)
      by apply no_follow_up_constructs_nothing.
    rewrite (constructed_block _ _ _ _ _ Ho0)
      by apply no_follow_up_constructs_nothing.
    rewrite (constructed_block _ _ _ _ _ Ho1)
      by apply compensation_constructs_nothing.
    rewrite (constructed_block _ _ _ _ _ Ho2)
      by apply no_follow_up_constructs_nothing.
    reflexivity. }
  split; [|split; [exact Hc|split; [|reflexivity]]].
  - apply emits_emitted with (a := tt).
    now apply (to_code_emits Number).
  - intros k range Hin Hk. unfold contains in Hk.
    destruct (get k config) as [v|] eqn:Ev; [|discriminate].
    assert (In k (map fst ranges)) as Hin'.
    { change k with (fst (k, range)). now apply in_map. }
    destruct (number_entity _ _ _ _ Hs Hin' Ev) as [d [j [-> _]]].
    exists d. split; [reflexivity|]. rewrite Hc. apply in_flat_map.
    exists (k, range). split; [assumption|]. simpl. rewrite Ev. now left.
Qed.

Lemma numeric_setting_ranges_witness :
  exists config d out,
    Schema number.CONFIG_SCHEMA temperature_offset_with_slope
      = Some (VDict config) /\
    get number.CONF_TEMPERATURE_OFFSET config = Some (VDict d) /\
    emitted (number.to_code (VDict config)) = Some out /\
    constructed out
    = [(PNumber, d, [("min_value", VInt (-10)); ("max_value", VInt 10);
                     ("step", VFloat float_0_1)])].
Proof.
  eexists. eexists.
  assert (Schema number.CONFIG_SCHEMA temperature_offset_with_slope
          = Some (VDict _)) as Hs by (vm_compute; reflexivity).
  destruct (numeric_setting_ranges _ _ Hs) as [out [He [Hc _]]].
  exists out. split; [exact Hs|]. split; [vm_compute; reflexivity|].
  split; [exact He|]. rewrite Hc. vm_compute. reflexivity.
Defined.

End Numbers.
Section Compensation.

Import cv.

(** What validation guarantees of a temperature-offset entity: the slope
    is a float within [[-1, 1]] and the time constant an integer within
    [[0, 65535]], both present. *)
Lemma temperature_offset_valid (raw : value) (config d : dict) :
  Schema number.CONFIG_SCHEMA raw = Some (VDict config) ->
  get number.CONF_TEMPERATURE_OFFSET config = Some (VDict d) ->
  exists slope tc,
    get number.CONF_NORMALIZED_OFFSET_SLOPE d = Some (VFloat slope) /\
    get number.CONF_TIME_CONSTANT d = Some (VInt tc) /\
    SFleb float_m1_0 slope = true /\ SFleb slope float_1_0 = true /\
    0 <= tc <= 65535.
Proof.
  intros Hs Hd.
  destruct (Schema_dict _ _ _ Hs) as [rw [o [-> [= <-]]]].
  destruct (Schema_get_check _ _ _ Hs _ _ Hd) as [f [x [Hf Hc]]].
  simpl in Hf. injection Hf as <-. cbn [check Optional] in Hc.
  destruct (Schema_dict _ _ _ Hc) as [rd [d' [-> [= <-]]]].
  destruct (Schema_present _ _ _ Hc number.CONF_NORMALIZED_OFFSET_SLOPE
              _ eq_refl) as [v1 Hv1]; [discriminate|].
  destruct (Schema_present _ _ _ Hc number.CONF_TIME_CONSTANT
              _ eq_refl) as [v2 Hv2]; [discriminate|].
  destruct (Schema_get_check _ _ _ Hc _ _ Hv1) as [f1 [x1 [Hf1 Hc1]]].
  destruct (Schema_get_check _ _ _ Hc _ _ Hv2) as [f2 [x2 [Hf2 Hc2]]].
  simpl in Hf1. injection Hf1 as <-. cbn [check OptionalDefault] in Hc1.
  simpl in Hf2. injection Hf2 as <-. cbn [check OptionalDefault] in Hc2.
  destruct (float_range_inv _ _ _ _ Hc1) as [slope [-> [? ?]]].
  destruct (int_range_inv _ _ _ _ Hc2) as [_ [tc [-> ?]]].
  exists slope, tc. tauto.
Qed.

(** C6.  For every validated temperature-offset configuration: when the
    validated slope equals 0.0 and the time constant equals 0, no
    temperature-compensation instruction is issued; otherwise exactly one
    is issued, carrying (0.0, slope, time_constant). *)
Theorem temperature_compensation_emitted (raw : value) (config d : dict) :
  Schema number.CONFIG_SCHEMA raw = Some (VDict config) ->
  get number.CONF_TEMPERATURE_OFFSET config = Some (VDict d) ->
  exists out slope tc,
    emitted (number.to_code (VDict config)) = Some out /\
    get number.CONF_NORMALIZED_OFFSET_SLOPE d = Some (VFloat slope) /\
    get number.CONF_TIME_CONSTANT d = Some (VInt tc) /\
    calls_to "set_temperature_compensation" out
    = if SFeqb slope float_0_0 && (tc =? 0) then []
      else [[Literal (VFloat float_0_0); Literal (VFloat slope);
             Literal (VInt tc)]].
Proof.
  intros Hs Hd.
  destruct (temperature_offset_valid _ _ _ Hs Hd)
    as [slope [tc [Hslope [Htc _]]]].
  destruct (registrar_valid Number _ _ Hs) as [out Hout].
  exists out, slope, tc.
  split; [|split; [assumption|split; [assumption|]]].
  - apply emits_emitted with (a := tt). now apply (to_code_emits Number).
  - open_registrar Hout i Hi. rewrite !calls_to_app.
    rewrite (calls_block _ _ _ _ _ "set_temperature_compensation" Ho1 eq_refl).
    drop_simple_blocks "set_temperature_compensation".
    rewrite Hd. cbn [bextra]. unfold compensation_follow_up, get_default.
    rewrite Hslope, Htc. unfold num_neb, num_eqb.
    destruct (SFeqb slope float_0_0), (tc =? 0); reflexivity.
Qed.

Lemma temperature_compensation_emitted_witness :
  exists config out,
    Schema number.CONFIG_SCHEMA temperature_offset_with_slope
      = Some (VDict config) /\
    emitted (number.to_code (VDict config)) = Some out /\
    calls_to "set_temperature_compensation" out
    = [[Literal (VFloat float_0_0); Literal (VFloat float_0_05);
        Literal (VInt 0)]].
Proof.
  eexists.
  assert (Schema number.CONFIG_SCHEMA temperature_offset_with_slope
          = Some (VDict _)) as Hs by (vm_compute; reflexivity).
  destruct (temperature_compensation_emitted _ _ _ Hs eq_refl)
    as [out [slope [tc [He [Hslope [Htc Hc]]]]]].
  exists out. split; [exact Hs|]. split; [exact He|].
  vm_compute in Hslope. vm_compute in Htc.
  injection Hslope as <-. injection Htc as <-. exact Hc.
Defined.

End Compensation.

(* ================================================================== *)
(** ** The auto-cleaning interval *)

Section Interval.

Import cv.

(** C7.  For the auto-fan-cleaning switch of a validated configuration:
    the interval instruction carries the validated interval in
    milliseconds, as an integer; when the interval is left out it is 7
    days, that is 604800 seconds; an interval of "7d" yields 604800000
    and an interval of "1h" yields 3600000. *)
Theorem auto_cleaning_interval_in_milliseconds (raw config rd : dict) :
  Schema switch.CONFIG_SCHEMA (VDict raw) = Some (VDict config) ->
  get switch.CONF_AUTO_FAN_CLEANING raw = Some (VDict rd) ->
  exists out d t,
    emitted (switch.to_code (VDict config)) = Some out /\
    get switch.CONF_AUTO_FAN_CLEANING config = Some (VDict d) /\
    get switch.CONF_INTERVAL d = Some (VTimePeriod t) /\
    calls_to "set_auto_cleaning_interval" out
    = [[Literal (VInt (total_seconds t * 1000))]] /\
    (get switch.CONF_INTERVAL rd = None ->
       total_seconds t = switch.DEFAULT_CLEANING_INTERVAL /\
       total_seconds t = 604800 /\ total_seconds t * 1000 = 604800000) /\
    (get switch.CONF_INTERVAL rd = Some (VStr "7d") ->
       total_seconds t * 1000 = 604800000) /\
    (get switch.CONF_INTERVAL rd = Some (VStr "1h") ->
       total_seconds t * 1000 = 3600000).
Proof.
  intros Hs Hr.
  destruct (Schema_forward _ _ _ Hs _ _ Hr) as [f [v [Hf [Hc Hv]]]].
  simpl in Hf. injection Hf as <-. cbn [check Optional] in Hc.
  destruct (Schema_dict _ _ _ Hc) as [rd' [d [[= <-] ->]]].
  destruct (Schema_present _ _ _ Hc switch.CONF_INTERVAL _ eq_refl)
    as [w Hw]; [discriminate|].
  assert (NoDup (map key
    (extend (switch.switch_schema
               [ ("icon", VStr "mdi:fan-auto");
                 ("entity_category", VStr switch.ENTITY_CATEGORY_CONFIG) ])
            [ OptionalDefault switch.CONF_INTERVAL (VStr "7d")
                positive_time_period_seconds ]))) as Hnd
    by (apply distinct_NoDup; reflexivity).
  destruct (Schema_get_nodup _ _ _ Hc _ _ Hnd Hw) as [f [Hf Hsrc]].
  simpl in Hf. injection Hf as <-.
  cbn [check mark OptionalDefault] in Hsrc.
  assert (exists t, w = VTimePeriod t) as [t ->].
  { destruct (get switch.CONF_INTERVAL rd) as [v0|].
    - now apply positive_time_period_seconds_inv in Hsrc.
    - destruct Hsrc as [dflt [_ Hsrc]].
      now apply positive_time_period_seconds_inv in Hsrc. }
  destruct (registrar_valid Switch _ _ Hs) as [out Hout].
  exists out, d, t.
  split; [|split; [assumption|split; [assumption|split; [|split; [|split]]]]].
  - apply emits_emitted with (a := tt). now apply (to_code_emits Switch).
  - open_registrar Hout i Hi. rewrite !calls_to_app.
    rewrite (calls_block _ _ _ _ _ "set_auto_cleaning_interval" Ho0 eq_refl).
    drop_simple_blocks "set_auto_cleaning_interval".
    rewrite Hv. cbn [bextra]. unfold interval_follow_up. rewrite Hw.
    reflexivity.
  - intros E. rewrite E in Hsrc. destruct Hsrc as [dflt [[= <-] Hsrc]].
    vm_compute in Hsrc. injection Hsrc as <-. repeat split.
  - intros E. rewrite E in Hsrc. vm_compute in Hsrc. injection Hsrc as <-.
    reflexivity.
  - intros E. rewrite E in Hsrc. vm_compute in Hsrc. injection Hsrc as <-.
    reflexivity.
Qed.

Lemma auto_cleaning_interval_in_milliseconds_witness :
  exists config out,
    Schema switch.CONFIG_SCHEMA (VDict auto_cleaning_hourly)
      = Some (VDict config) /\
    emitted (switch.to_code (VDict config)) = Some out /\
    calls_to "set_auto_cleaning_interval" out = [[Literal (VInt 3600000)]].
Proof.
  eexists.
  assert (Schema switch.CONFIG_SCHEMA (VDict auto_cleaning_hourly)
          = Some (VDict _)) as Hs by (vm_compute; reflexivity).
  destruct (auto_cleaning_interval_in_milliseconds _ _ _ Hs eq_refl)
    as [out [d [t [He [_ [_ [Hc [_ [_ H1h]]]]]]]]].
  exists out. split; [exact Hs|]. split; [exact He|].
  rewrite Hc. now rewrite (H1h eq_refl).
Defined.

End Interval.

(* ================================================================== *)
(** ** VOC and NOx algorithm tuning *)

Section Tuning.

Import cv.

Lemma index_schema (kind : index_kind) :
  find_field (index_key kind) sensor.CONFIG_SCHEMA
  = Some (Optional (index_key kind)
            (Schema (extend
               (sensor.sensor_schema
                  [ ("icon", VStr "mdi:air-filter");
                    ("accuracy_decimals", VInt 0);
                    ("state_class", VStr sensor.STATE_CLASS_MEASUREMENT) ])
               [ Optional sensor.CONF_ALGORITHM_TUNING
                   (Schema (sensor.ALGORITHM_TUNING_SCHEMA
                              (defaults_for kind))) ]))).
Proof. destruct kind; reflexivity. Qed.



End Tuning.
(* ================================================================== *)
(** ** Further properties of the capability tables *)

Section CapabilityTables.

Import sen6x.

Lemma lookup_In (model : string) (table : list (string * capabilities))
    (c : capabilities) :
  lookup model table = Some c -> In (model, c) table.
Proof.
  induction table as [|[k c'] table IH]; simpl; [discriminate|].
  destruct (String.eqb model k) eqn:E.
  - apply String.eqb_eq in E. intros [= ->]. left. now subst.
  - intros H. right. now apply IH.
Qed.

(** X1.  Whatever the model string, known or not, the capabilities
    returned include particulate matter and humidity/temperature, have
    VOC and NOx together or not at all, have VOC whenever they have
    formaldehyde, and are dominated by the SEN69C record. *)
Theorem capabilities_always_include_pm_and_rht
    (model : string) (c : capabilities) :
  get_model_capabilities model = Some c ->
  pm c = true /\ rht c = true /\ voc c = nox c /\
  (hcho c = true -> voc c = true) /\
  dominates (mkCapabilities true true true true true true true) c = true /\
  In ("SEN69C", mkCapabilities true true true true true true true)
    MODEL_CAPABILITIES.
Proof.
  unfold get_model_capabilities.
  change (lookup "SEN66" MODEL_CAPABILITIES)
    with (Some (mkCapabilities true true true true true true false)).
  destruct (lookup model MODEL_CAPABILITIES) as [c'|] eqn:E.
  - intros [= <-]. apply lookup_In in E. simpl in E.
    repeat (destruct E as [[= <- <-]|E];
            [repeat split; simpl; auto 10|]).
    contradiction.
  - intros [= <-]. repeat split; simpl; auto 10.
Qed.

Lemma capabilities_always_include_pm_and_rht_witness :
  exists c, get_model_capabilities "SEN63C" = Some c /\
            pm c = true /\ rht c = true /\ voc c = nox c.
Proof.
  eexists. split; [reflexivity|].
  destruct (capabilities_always_include_pm_and_rht "SEN63C" _ eq_refl)
    as [H1 [H2 [H3 _]]].
  repeat split; assumption.
Defined.

(** X2.  The enum map and the capability table have the same keys in the
    same order, so that every known model has a C++ enum value, and the
    value of a model is its name in the namespace of the component. *)
Theorem model_enum_map_matches_capabilities :
  map fst MODEL_ENUM_MAP = MODELS /\
  NoDup MODELS /\
  forall model value, In (model, value) MODEL_ENUM_MAP ->
    value = String.append "esphome::sen6x::Sen6xModel::" model /\
    exists c, get_model_capabilities model = Some c /\
              In (model, c) MODEL_CAPABILITIES.
Proof.
  split; [reflexivity|]. split.
  - apply distinct_NoDup. reflexivity.
  - intros model value H. simpl in H.
    repeat (destruct H as [[= <- <-]|H];
            [split; [reflexivity|]; eexists; split; [reflexivity|];
             simpl; tauto|]).
    contradiction.
Qed.

End CapabilityTables.

(* ================================================================== *)
(** ** Rejection by a schema *)

Section Rejection.

Import cv.

(** A mapping with an entry that its field rejects is rejected as a
    whole. *)
Lemma Schema_rejects (s : schema) (raw : dict) (k : string) (v0 : value)
    (f : field) :
  get k raw = Some v0 -> find_field k s = Some f -> check f v0 = None ->
  Schema s (VDict raw) = None.
Proof.
  intros Hr Hf Hc. destruct (Schema s (VDict raw)) as [c|] eqn:E;
    [|reflexivity].
  destruct (Schema_dict _ _ _ E) as [r [o [_ ->]]].
  destruct (Schema_forward _ _ _ E _ _ Hr) as [f' [v [Hf' [Hc' _]]]].
  rewrite Hf in Hf'. injection Hf' as <-. congruence.
Qed.

Lemma missing_required (s : schema) (raw : dict) (k : string) (f : field) :
  find_field k s = Some f -> mark f = MRequired -> get k raw = None ->
  missing s raw = None.
Proof.
  induction s as [|g s IH]; simpl; [discriminate|].
  intros Hf Hm Hr. destruct (String.eqb k (key g)) eqn:E.
  - apply String.eqb_eq in E. injection Hf as ->. subst k.
    unfold contains. now rewrite Hr, Hm.
  - specialize (IH Hf Hm Hr). rewrite IH.
    destruct (contains (key g) raw); [reflexivity|].
    now destruct (mark g) as [|[d|]].
Qed.

(** A mapping that leaves a required key out is rejected. *)
Lemma Schema_requires (s : schema) (raw : dict) (k : string) (f : field) :
  find_field k s = Some f -> mark f = MRequired -> get k raw = None ->
  Schema s (VDict raw) = None.
Proof.
  intros Hf Hm Hr. unfold Schema.
  destruct (distinct (keys raw)); [|reflexivity].
  now rewrite (missing_required _ _ _ _ Hf Hm Hr).
Qed.

Lemma int_range_rejects (lo hi z : Z) :
  z < lo \/ hi < z -> int_range lo hi (VInt z) = None.
Proof.
  intros H. unfold int_range.
  destruct (lo <=? z) eqn:E1; [|reflexivity].
  destruct (z <=? hi) eqn:E2; [|reflexivity].
  apply Z.leb_le in E1. apply Z.leb_le in E2. lia.
Qed.

(** X3.  A hub configuration whose RHT-acceleration block leaves one of
    the four keys out, or holds an integer outside the 16-bit range of
    its key, is rejected as a whole: no partial block reaches
    [to_code]. *)
Theorem partial_rht_block_rejected (raw rt : dict) (k : string) (lo hi : Z) :
  get sen6x.CONF_RHT_ACCELERATION raw = Some (VDict rt) ->
  In (k, lo, hi) rht_bounds ->
  get k rt = None \/ (exists z, get k rt = Some (VInt z) /\ (z < lo \/ hi < z)) ->
  Schema sen6x.CONFIG_SCHEMA (VDict raw) = None.
Proof.
  intros Hr Hin Hbad.
  eapply Schema_rejects; [exact Hr|reflexivity|]. cbn [check Optional].
  assert (find_field k sen6x.RHT_ACCELERATION_SCHEMA
          = Some (Required k (int_range lo hi))) as Hf.
  { simpl in Hin.
    repeat (destruct Hin as [[= <- <- <-]|Hin]; [reflexivity|]).
    contradiction. }
  destruct Hbad as [Hnone|[z [Hz Hout]]].
  - now apply (Schema_requires _ _ _ _ Hf).
  - apply (Schema_rejects _ _ _ _ _ Hz Hf). cbn [check Required].
    now apply int_range_rejects.
Qed.

Lemma partial_rht_block_rejected_witness :
  Schema sen6x.CONFIG_SCHEMA (VDict hub_partial_rht) = None.
Proof.
  apply (partial_rht_block_rejected hub_partial_rht _ sen6x.CONF_RHT_T2 0 65535
           eq_refl).
  - simpl. tauto.
  - left. reflexivity.
Defined.

Lemma int_range_accepts (lo hi z : Z) :
  lo <= z <= hi -> int_range lo hi (VInt z) = Some (VInt z).
Proof.
  intros [H1 H2]. unfold int_range.
  apply Z.leb_le in H1. apply Z.leb_le in H2. now rewrite H1, H2.
Qed.

(** Entries that their fields return unchanged are validated to
    themselves. *)
Lemma validate_items_id (s : schema) (items : dict) :
  (forall k v, In (k, v) items ->
     exists f, find_field k s = Some f /\ check f v = Some v) ->
  validate_items s items = Some items.
Proof.
  induction items as [|[k v] items IH]; intros H; [reflexivity|].
  simpl. destruct (H k v (or_introl eq_refl)) as [f [-> ->]].
  rewrite IH; [reflexivity|]. intros. apply H. now right.
Qed.

Lemma rht_field (k : string) (lo hi : Z) :
  In (k, lo, hi) rht_bounds ->
  find_field k sen6x.RHT_ACCELERATION_SCHEMA
  = Some (Required k (int_range lo hi)).
Proof.
  intros Hin. simpl in Hin.
  repeat (destruct Hin as [[= <- <- <-]|Hin]; [reflexivity|]).
  contradiction.
Qed.

(** X4.  An RHT-acceleration block that holds the four keys, in any
    order, and no other key, with integer values, is accepted if and only
    if every value lies in the range of its key, bounds included, and
    validation returns it unchanged; otherwise it is rejected. *)
Theorem rht_block_accepted_iff_in_range (rt : dict) :
  Permutation (keys rt)
    [ sen6x.CONF_RHT_K; sen6x.CONF_RHT_P;
      sen6x.CONF_RHT_T1; sen6x.CONF_RHT_T2 ] ->
  (forall k v, In (k, v) rt -> exists z, v = VInt z) ->
  (Schema sen6x.RHT_ACCELERATION_SCHEMA (VDict rt) = Some (VDict rt)
   <-> rht_in_range rt) /\
  (Schema sen6x.RHT_ACCELERATION_SCHEMA (VDict rt) = None
   <-> ~ rht_in_range rt).
Proof.
  intros Hperm Hint.
  assert (NoDup (keys rt)) as Hnd.
  { apply (Permutation_NoDup (Permutation_sym Hperm)).
    apply distinct_NoDup. reflexivity. }
  assert (forall k, In k [ sen6x.CONF_RHT_K; sen6x.CONF_RHT_P;
                           sen6x.CONF_RHT_T1; sen6x.CONF_RHT_T2 ] ->
            exists z, get k rt = Some (VInt z)) as Hpresent.
  { intros k Hk.
    assert (In k (keys rt)) as Hin
      by (apply (Permutation_in _ (Permutation_sym Hperm)); exact Hk).
    destruct (get k rt) as [v|] eqn:E.
    - destruct (Hint k v (get_In _ _ _ E)) as [z ->]. eauto.
    - apply get_None_keys in E. contradiction. }
  assert (Schema sen6x.RHT_ACCELERATION_SCHEMA (VDict rt)
          = match validate_items sen6x.RHT_ACCELERATION_SCHEMA rt with
            | Some out => Some (VDict out)
            | None => None
            end) as Hschema.
  { unfold Schema. apply distinct_NoDup in Hnd. rewrite Hnd.
    destruct (Hpresent sen6x.CONF_RHT_K) as [z1 H1]; [simpl; tauto|].
    destruct (Hpresent sen6x.CONF_RHT_P) as [z2 H2]; [simpl; tauto|].
    destruct (Hpresent sen6x.CONF_RHT_T1) as [z3 H3]; [simpl; tauto|].
    destruct (Hpresent sen6x.CONF_RHT_T2) as [z4 H4]; [simpl; tauto|].
    unfold sen6x.RHT_ACCELERATION_SCHEMA at 1.
    cbn [missing key mark Required]. unfold contains.
    rewrite H1, H2, H3, H4. now rewrite app_nil_r. }
  assert (forall out,
            Schema sen6x.RHT_ACCELERATION_SCHEMA (VDict rt)
            = Some (VDict out) -> rht_in_range rt) as Hsound.
  { intros out Hs k lo hi z Hin Hget.
    destruct (Schema_forward _ _ _ Hs _ _ Hget) as [f [v [Hf [Hc _]]]].
    rewrite (rht_field _ _ _ Hin) in Hf. injection Hf as <-.
    cbn [check Required] in Hc.
    destruct (int_range_inv _ _ _ _ Hc) as [_ [z' [-> Hz]]].
    unfold int_range in Hc.
    destruct ((lo <=? z) && (z <=? hi)) eqn:E; [|discriminate].
    apply andb_true_iff in E. destruct E as [E1 E2].
    apply Z.leb_le in E1. apply Z.leb_le in E2. lia. }
  assert (rht_in_range rt ->
          Schema sen6x.RHT_ACCELERATION_SCHEMA (VDict rt) = Some (VDict rt))
    as Hcomplete.
  { intros Hr. rewrite Hschema. rewrite validate_items_id; [reflexivity|].
    intros k v Hin.
    assert (In k (keys rt)) as Hk
      by (change k with (fst (k, v)); now apply in_map).
    apply (Permutation_in _ Hperm) in Hk.
    destruct (Hint k v Hin) as [z ->].
    assert (exists lo hi, In (k, lo, hi) rht_bounds) as [lo [hi Hb]].
    { simpl in Hk.
      repeat (destruct Hk as [<-|Hk];
              [eexists; eexists; simpl; eauto 6|]).
      contradiction. }
    exists (Required k (int_range lo hi)). split; [now apply rht_field|].
    cbn [check Required]. apply int_range_accepts.
    apply (Hr k lo hi z Hb). now apply In_get. }
  split; split.
  - intros Hs. now apply (Hsound rt).
  - exact Hcomplete.
  - intros Hnone Hr. rewrite (Hcomplete Hr) in Hnone. discriminate.
  - intros Hn.
    destruct (Schema sen6x.RHT_ACCELERATION_SCHEMA (VDict rt)) as [c|] eqn:E;
      [|reflexivity].
    destruct (Schema_dict _ _ _ E) as [r [out [_ ->]]].
    exfalso. apply Hn. now apply (Hsound out).
Qed.

Lemma rht_block_accepted_iff_in_range_witness :
  Schema sen6x.RHT_ACCELERATION_SCHEMA (VDict rht_block_reordered)
  = Some (VDict rht_block_reordered).
Proof.
  apply (rht_block_accepted_iff_in_range rht_block_reordered).
  - apply NoDup_Permutation.
    + apply distinct_NoDup. reflexivity.
    + apply distinct_NoDup. reflexivity.
    + intros x. simpl. tauto.
  - intros k v Hin. simpl in Hin.
    repeat (destruct Hin as [[= <- <-]|Hin]; [eexists; reflexivity|]).
    contradiction.
  - intros k lo hi z Hin Hget. simpl in Hin.
    repeat (destruct Hin as [[= <- <- <-]|Hin];
            [vm_compute in Hget; injection Hget as <-; lia|]).
    contradiction.
Defined.

End Rejection.
Section TuningRejection.

Import cv.

(** X5.  A sensor configuration whose VOC or NOx tuning block holds an
    integer outside the range of its key is rejected as a whole. *)
Theorem tuning_out_of_range_rejected
    (kind : index_kind) (raw rsc rt : dict) (k : string) (lo hi z : Z) :
  get (index_key kind) raw = Some (VDict rsc) ->
  get sensor.CONF_ALGORITHM_TUNING rsc = Some (VDict rt) ->
  In (k, lo, hi) tuning_bounds ->
  get k rt = Some (VInt z) ->
  z < lo \/ hi < z ->
  Schema sensor.CONFIG_SCHEMA (VDict raw) = None.
Proof.
  intros Hr Ht Hin Hz Hout.
  eapply Schema_rejects; [exact Hr|apply index_schema|].
  cbn [check Optional].
  eapply Schema_rejects; [exact Ht|reflexivity|]. cbn [check Optional].
  assert (exists dflt,
            find_field k (sensor.ALGORITHM_TUNING_SCHEMA (defaults_for kind))
            = Some (OptionalDefault k (VInt dflt) (int_range lo hi)))
    as [dflt Hf].
  { simpl in Hin.
    repeat (destruct Hin as [[= <- <- <-]|Hin]; [eexists; reflexivity|]).
    contradiction. }
  apply (Schema_rejects _ _ _ _ _ Hz Hf). cbn [check OptionalDefault].
  now apply int_range_rejects.
Qed.

Lemma tuning_out_of_range_rejected_witness :
  Schema sensor.CONFIG_SCHEMA (VDict voc_gating_too_long) = None.
Proof.
  apply (tuning_out_of_range_rejected VOC voc_gating_too_long _ _
           sensor.CONF_GATING_MAX_DURATION_MINUTES 0 3000 3001
           eq_refl eq_refl).
  - simpl. tauto.
  - reflexivity.
  - right. reflexivity.
Defined.

Lemma find_field_In (k : string) (s : schema) (f : field) :
  find_field k s = Some f -> In k (map key s).
Proof.
  induction s as [|g s IH]; simpl; [discriminate|].
  destruct (String.eqb k (key g)) eqn:E.
  - apply String.eqb_eq in E. intros _. now left.
  - intros H. right. now apply IH.
Qed.

Lemma tuning_schema_NoDup (defaults : sensor.tuning_defaults) :
  NoDup (map key (sensor.ALGORITHM_TUNING_SCHEMA defaults)).
Proof. apply distinct_NoDup. reflexivity. Qed.

(** X6.  A validated tuning block holds the six tuning keys and no other
    key: tuning is always a whole record. *)
Theorem validated_tuning_has_six_keys
    (defaults : sensor.tuning_defaults) (x : value) (td : dict) :
  Schema (sensor.ALGORITHM_TUNING_SCHEMA defaults) x = Some (VDict td) ->
  Permutation (keys td) tuning_keys /\ List.length td = 6%nat.
Proof.
  intros Hs. destruct (Schema_dict _ _ _ Hs) as [rt [o [-> _]]].
  assert (Permutation (keys td) tuning_keys) as Hp.
  { apply NoDup_Permutation.
    - apply (Schema_NoDup _ _ _ Hs (tuning_schema_NoDup defaults)).
    - apply distinct_NoDup. reflexivity.
    - intros k. split.
      + intros Hin. destruct (get k td) as [v|] eqn:E.
        * destruct (Schema_get_check _ _ _ Hs _ _ E) as [f [y [Hf _]]].
          exact (find_field_In _ _ _ Hf).
        * apply get_None_keys in E. contradiction.
      + intros Hin.
        assert (exists f, find_field k
                  (sensor.ALGORITHM_TUNING_SCHEMA defaults) = Some f /\
                  mark f <> MOptional None) as [f [Hf Hm]].
        { simpl in Hin.
          repeat (destruct Hin as [<-|Hin];
                  [eexists; split; [reflexivity|discriminate]|]).
          contradiction. }
        destruct (Schema_present _ _ _ Hs _ _ Hf Hm) as [v Hv].
        destruct (in_dec string_dec k (keys td)) as [|Hn]; [assumption|].
        apply get_None_keys in Hn. congruence. }
  split; [assumption|].
  apply Permutation_length in Hp. unfold keys in Hp.
  now rewrite length_map in Hp.
Qed.

Lemma validated_tuning_has_six_keys_witness :
  exists td,
    Schema (sensor.ALGORITHM_TUNING_SCHEMA sensor.NOX_DEFAULTS)
      (VDict [(sensor.CONF_STD_INITIAL, VInt 60)]) = Some (VDict td) /\
    Permutation (keys td) tuning_keys.
Proof.
  eexists.
  assert (Schema (sensor.ALGORITHM_TUNING_SCHEMA sensor.NOX_DEFAULTS)
            (VDict [(sensor.CONF_STD_INITIAL, VInt 60)]) = Some (VDict _))
    as Hs by (vm_compute; reflexivity).
  split; [exact Hs|].
  exact (proj1 (validated_tuning_has_six_keys _ _ _ Hs)).
Defined.

End TuningRejection.

(* ================================================================== *)
(** ** Further properties of the hub *)

Section HubProperties.

Import cv.

Lemma rht_schema_raw (rt rht : dict) (k : string) (lo hi : Z) :
  Schema sen6x.RHT_ACCELERATION_SCHEMA (VDict rt) = Some (VDict rht) ->
  In (k, lo, hi) rht_bounds ->
  exists z, get k rt = Some (VInt z) /\ get k rht = Some (VInt z) /\
            lo <= z <= hi.
Proof.
  intros Hs Hin.
  assert (find_field k sen6x.RHT_ACCELERATION_SCHEMA
          = Some (Required k (int_range lo hi))) as Hf.
  { simpl in Hin.
    repeat (destruct Hin as [[= <- <- <-]|Hin]; [reflexivity|]).
    contradiction. }
  destruct (Schema_present _ _ _ Hs _ _ Hf) as [w Hw]; [discriminate|].
  assert (NoDup (map key sen6x.RHT_ACCELERATION_SCHEMA)) as Hnd
    by (apply distinct_NoDup; reflexivity).
  destruct (Schema_get_nodup _ _ _ Hs _ _ Hnd Hw) as [f [Hf' Hsrc]].
  rewrite Hf in Hf'. injection Hf' as <-.
  cbn [check mark Required] in Hsrc.
  destruct (get k rt) as [v0|].
  - destruct (int_range_inv _ _ _ _ Hsrc) as [-> [z [-> Hz]]]. eauto.
  - destruct Hsrc as [d [Hm _]]. discriminate.
Qed.

Lemma hub_calls (config : dict) (out : list statement) (m : string) :
  hub_output config = Some out ->
  exists i o1 o2,
    get CONF_ID config = Some (VID i) /\
    pressure_output (Var i) config = Some o1 /\
    rht_output (Var i) config = Some o2 /\
    calls_to m out = calls_to m o1 ++ calls_to m o2.
Proof.
  unfold hub_output.
  destruct (get CONF_ID config) as [[| | | | |i| |]|] eqn:Ei;
    try discriminate.
  destruct (get "update_interval" config); [|discriminate].
  destruct (get "i2c_id" config) as [[| | | | |bus| |]|]; try discriminate.
  destruct (get "address" config); [|discriminate].
  destruct (pressure_output (Var i) config) as [o1|] eqn:E1; [|discriminate].
  destruct (rht_output (Var i) config) as [o2|] eqn:E2; [|discriminate].
  intros [= <-]. exists i, o1, o2.
  split; [reflexivity|]. split; [exact E1|]. split; [exact E2|].
  cbn [app calls_to]. apply calls_to_app.
Qed.

Lemma pressure_never_calls_rht var config o :
  pressure_output var config = Some o ->
  calls_to "set_rht_acceleration" o = [].
Proof.
  unfold pressure_output.
  destruct (get sen6x.CONF_PRESSURE_SOURCE config) as [[| | | | |i| |]|];
    try discriminate; now intros [= <-].
Qed.

Lemma rht_never_calls_pressure var config o :
  rht_output var config = Some o ->
  calls_to "set_pressure_source" o = [].
Proof.
  unfold rht_output.
  destruct (get sen6x.CONF_RHT_ACCELERATION config) as [[| | | | | | |rht]|];
    try discriminate; [|now intros [= <-]].
  destruct (get sen6x.CONF_RHT_K rht); [|discriminate].
  destruct (get sen6x.CONF_RHT_P rht); [|discriminate].
  destruct (get sen6x.CONF_RHT_T1 rht); [|discriminate].
  destruct (get sen6x.CONF_RHT_T2 rht); [|discriminate].
  now intros [= <-].
Qed.

(** X7.  The hub issues the RHT-acceleration instruction exactly when
    the user declares the block: none without it; with it, one
    instruction whose struct carries the four integers of the block as
    the user wrote them, each within its 16-bit range. *)
Theorem rht_acceleration_forwarded (raw config : dict) :
  Schema sen6x.CONFIG_SCHEMA (VDict raw) = Some (VDict config) ->
  exists out,
    emitted (sen6x.to_code (VDict config)) = Some out /\
    match get sen6x.CONF_RHT_ACCELERATION raw with
    | None => calls_to "set_rht_acceleration" out = []
    | Some x =>
        exists rt k p t1 t2,
          x = VDict rt /\
          get sen6x.CONF_RHT_K rt = Some (VInt k) /\
          get sen6x.CONF_RHT_P rt = Some (VInt p) /\
          get sen6x.CONF_RHT_T1 rt = Some (VInt t1) /\
          get sen6x.CONF_RHT_T2 rt = Some (VInt t2) /\
          -32768 <= k <= 32767 /\ -32768 <= p <= 32767 /\
          0 <= t1 <= 65535 /\ 0 <= t2 <= 65535 /\
          calls_to "set_rht_acceleration" out
          = [[StructInitializer "RhtAcceleration"
                [("k", VInt k); ("p", VInt p);
                 ("t1", VInt t1); ("t2", VInt t2)]]]
    end.
Proof.
  intros Hs. destruct (hub_output_valid _ _ Hs) as [out Hout].
  exists out. split.
  { apply emits_emitted with (a := tt). now apply hub_emits. }
  destruct (hub_calls _ _ "set_rht_acceleration" Hout)
    as [i [o1 [o2 [_ [H1 [H2 ->]]]]]].
  rewrite (pressure_never_calls_rht _ _ _ H1). cbn [app].
  unfold rht_output in H2.
  destruct (get sen6x.CONF_RHT_ACCELERATION raw) as [x|] eqn:Er.
  - destruct (Schema_forward _ _ _ Hs _ _ Er) as [f [v [Hf [Hc Hv]]]].
    simpl in Hf. injection Hf as <-. cbn [check Optional] in Hc.
    destruct (Schema_dict _ _ _ Hc) as [rt [rht [-> ->]]].
    rewrite Hv in H2.
    destruct (rht_schema_raw _ _ sen6x.CONF_RHT_K _ _ Hc
                (or_introl eq_refl)) as [k [Rk [Vk ?]]].
    destruct (rht_schema_raw _ _ sen6x.CONF_RHT_P _ _ Hc
                (or_intror (or_introl eq_refl))) as [p [Rp [Vp ?]]].
    destruct (rht_schema_raw _ _ sen6x.CONF_RHT_T1 _ _ Hc
                (or_intror (or_intror (or_introl eq_refl))))
      as [t1 [R1 [V1 ?]]].
    destruct (rht_schema_raw _ _ sen6x.CONF_RHT_T2 _ _ Hc
                (or_intror (or_intror (or_intror (or_introl eq_refl)))))
      as [t2 [R2 [V2 ?]]].
    rewrite Vk, Vp, V1, V2 in H2. injection H2 as <-.
    exists rt, k, p, t1, t2. repeat split; try assumption; try tauto.
  - destruct (get sen6x.CONF_RHT_ACCELERATION config) as [v|] eqn:Ev.
    + destruct (Schema_get_nodup _ _ _ Hs _ _ hub_schema_NoDup Ev)
        as [f [Hf Hsrc]].
      simpl in Hf. injection Hf as <-. rewrite Er in Hsrc.
      destruct Hsrc as [d [Hm _]]. discriminate.
    + now injection H2 as <-.
Qed.

Lemma rht_acceleration_forwarded_witness :
  exists config out,
    Schema sen6x.CONFIG_SCHEMA hub_with_both = Some (VDict config) /\
    emitted (sen6x.to_code (VDict config)) = Some out /\
    calls_to "set_rht_acceleration" out
    = [[StructInitializer "RhtAcceleration"
          [("k", VInt 20); ("p", VInt 20);
           ("t1", VInt 100); ("t2", VInt 300)]]].
Proof.
  eexists.
  assert (Schema sen6x.CONFIG_SCHEMA hub_with_both = Some (VDict _)) as Hs
    by (vm_compute; reflexivity).
  destruct (rht_acceleration_forwarded _ _ Hs) as [out [He H]].
  exists out. split; [exact Hs|]. split; [exact He|].
  cbv beta iota in H.
  destruct H as [rt [k [p [t1 [t2 [Hrt [Hk [Hp [H1 [H2 [_ [_ [_ [_ Hc]]]]]]]]]]]]]].
  injection Hrt as <-.
  vm_compute in Hk, Hp, H1, H2.
  injection Hk as <-. injection Hp as <-.
  injection H1 as <-. injection H2 as <-. exact Hc.
Defined.

(** X8.  The hub binds the external pressure source exactly when the
    user names one: no binding without the key; with it, one binding
    whose argument is the variable of the identifier the user named. *)
Theorem pressure_source_bound_once (raw config : dict) :
  Schema sen6x.CONFIG_SCHEMA (VDict raw) = Some (VDict config) ->
  exists out,
    emitted (sen6x.to_code (VDict config)) = Some out /\
    match get sen6x.CONF_PRESSURE_SOURCE raw with
    | None => calls_to "set_pressure_source" out = []
    | Some x =>
        exists i, use_id x = Some (VID i) /\
          calls_to "set_pressure_source" out = [[Var i]] /\
          (forall name, x = VStr name -> i = Some name)
    end.
Proof.
  intros Hs. destruct (hub_output_valid _ _ Hs) as [out Hout].
  exists out. split.
  { apply emits_emitted with (a := tt). now apply hub_emits. }
  destruct (hub_calls _ _ "set_pressure_source" Hout)
    as [i [o1 [o2 [_ [H1 [H2 ->]]]]]].
  rewrite (rht_never_calls_pressure _ _ _ H2), app_nil_r.
  unfold pressure_output in H1.
  destruct (get sen6x.CONF_PRESSURE_SOURCE raw) as [x|] eqn:Er.
  - destruct (Schema_forward _ _ _ Hs _ _ Er) as [f [v [Hf [Hc Hv]]]].
    simpl in Hf. injection Hf as <-. cbn [check Optional] in Hc.
    destruct (use_id_inv _ _ Hc) as [j ->]. rewrite Hv in H1.
    injection H1 as <-. exists j. split; [assumption|].
    split; [reflexivity|]. intros name ->. simpl in Hc. congruence.
  - destruct (get sen6x.CONF_PRESSURE_SOURCE config) as [v|] eqn:Ev.
    + destruct (Schema_get_nodup _ _ _ Hs _ _ hub_schema_NoDup Ev)
        as [f [Hf Hsrc]].
      simpl in Hf. injection Hf as <-. rewrite Er in Hsrc.
      destruct Hsrc as [d [Hm _]]. discriminate.
    + now injection H1 as <-.
Qed.

Lemma pressure_source_bound_once_witness :
  exists config out,
    Schema sen6x.CONFIG_SCHEMA hub_with_both = Some (VDict config) /\
    emitted (sen6x.to_code (VDict config)) = Some out /\
    calls_to "set_pressure_source" out = [[Var (Some "bme280_pressure")]].
Proof.
  eexists.
  assert (Schema sen6x.CONFIG_SCHEMA hub_with_both = Some (VDict _)) as Hs
    by (vm_compute; reflexivity).
  destruct (pressure_source_bound_once _ _ Hs) as [out [He H]].
  exists out. split; [exact Hs|]. split; [exact He|].
  cbv beta iota in H. destruct H as [i [_ [Hc Hn]]].
  rewrite Hc. now rewrite (Hn _ eq_refl).
Defined.

(** X9.  On a validated hub configuration [to_code] never fails and only
    appends: from any statements issued before, it adds the construction
    of the hub, its registration with the scheduler and with the bus, and
    at most two further statements.  A hub declared without polling
    interval or address is registered with 10 seconds and 0x6B. *)
Theorem hub_to_code_never_fails (raw config : dict) :
  Schema sen6x.CONFIG_SCHEMA (VDict raw) = Some (VDict config) ->
  exists i update_interval bus address rest,
    (forall s, sen6x.to_code (VDict config) s
               = Ok (tt, s ++ SNewPvariable i
                            :: SRegisterComponent (Var i) update_interval
                            :: SRegisterI2CDevice (Var i) (Var bus) address
                            :: rest)) /\
    (List.length rest <= 2)%nat /\
    (get "update_interval" raw = None ->
       exists t, update_interval = VTimePeriod t /\ total_seconds t = 10) /\
    (get "address" raw = None -> address = VInt 107).
Proof.
  intros Hs. destruct (hub_output_valid _ _ Hs) as [out Hout].
  pose proof (hub_emits _ _ Hout) as He.
  unfold hub_output in Hout.
  destruct (get CONF_ID config) as [[| | | | |i| |]|]; try discriminate.
  destruct (get "update_interval" config) as [ui|] eqn:Eu; [|discriminate].
  destruct (get "i2c_id" config) as [[| | | | |bus| |]|]; try discriminate.
  destruct (get "address" config) as [a|] eqn:Ea; [|discriminate].
  destruct (pressure_output (Var i) config) as [o1|] eqn:E1; [|discriminate].
  destruct (rht_output (Var i) config) as [o2|] eqn:E2; [|discriminate].
  injection Hout as <-.
  exists i, ui, bus, a, (o1 ++ o2).
  split; [exact He|]. split; [|split].
  - rewrite length_app.
    assert (List.length o1 <= 1)%nat.
    { unfold pressure_output in E1.
      destruct (get sen6x.CONF_PRESSURE_SOURCE config) as [[| | | | |j| |]|];
        try discriminate; injection E1 as <-; simpl; lia. }
    assert (List.length o2 <= 1)%nat.
    { unfold rht_output in E2.
      destruct (get sen6x.CONF_RHT_ACCELERATION config)
        as [[| | | | | | |rht]|]; try discriminate;
        [|injection E2 as <-; simpl; lia].
      destruct (get sen6x.CONF_RHT_K rht); [|discriminate].
      destruct (get sen6x.CONF_RHT_P rht); [|discriminate].
      destruct (get sen6x.CONF_RHT_T1 rht); [|discriminate].
      destruct (get sen6x.CONF_RHT_T2 rht); [|discriminate].
      injection E2 as <-. simpl. lia. }
    lia.
  - intros Hr.
    destruct (Schema_get_nodup _ _ _ Hs _ _ hub_schema_NoDup Eu)
      as [f [Hf Hsrc]].
    simpl in Hf. injection Hf as <-. rewrite Hr in Hsrc.
    destruct Hsrc as [d [[= <-] Hc]]. vm_compute in Hc.
    injection Hc as <-. eexists. split; reflexivity.
  - intros Hr.
    destruct (Schema_get_nodup _ _ _ Hs _ _ hub_schema_NoDup Ea)
      as [f [Hf Hsrc]].
    simpl in Hf. injection Hf as <-. rewrite Hr in Hsrc.
    destruct Hsrc as [d [[= <-] Hc]]. vm_compute in Hc. congruence.
Qed.

Lemma hub_to_code_never_fails_witness :
  exists config out,
    Schema sen6x.CONFIG_SCHEMA (VDict hub_plain) = Some (VDict config) /\
    emitted (sen6x.to_code (VDict config)) = Some out /\
    (3 <= List.length out <= 5)%nat.
Proof.
  eexists.
  assert (Schema sen6x.CONFIG_SCHEMA (VDict hub_plain) = Some (VDict _)) as Hs
    by (vm_compute; reflexivity).
  destruct (hub_to_code_never_fails _ _ Hs)
    as [i [ui [bus [a [rest [He [Hlen _]]]]]]].
  eexists. split; [exact Hs|]. split.
  - unfold emitted. rewrite (He []). reflexivity.
  - simpl. lia.
Defined.

End HubProperties.
(* ================================================================== *)
(** ** Further properties of the registrars *)

Section RegistrarProperties.

Import cv.

(** X10.  On a validated block every registrar's [to_code] returns
    without raising and only appends: the statements issued before are
    kept as they are, and what is added does not depend on them. *)
Theorem registrar_to_code_never_fails (r : registrar) (raw config : value) :
  Schema (schema_of r) raw = Some config ->
  exists out, forall s, to_code_of r config s = Ok (tt, s ++ out).
Proof.
  intros Hs. destruct (Schema_dict _ _ _ Hs) as [rw [d [-> ->]]].
  destruct (registrar_valid r _ _ Hs) as [out Hout].
  exists out. exact (to_code_emits r d out Hout).
Qed.

Lemma registrar_to_code_never_fails_witness :
  exists config out,
    Schema (schema_of BinaryState) (VDict two_binary_sensors) = Some config /\
    to_code_of BinaryState config [SNewPvariable None]
    = Ok (tt, SNewPvariable None :: out).
Proof.
  eexists.
  assert (Schema (schema_of BinaryState) (VDict two_binary_sensors)
          = Some _) as Hs by (vm_compute; reflexivity).
  destruct (registrar_to_code_never_fails BinaryState _ _ Hs) as [out He].
  exists out. split; [exact Hs|]. exact (He [SNewPvariable None]).
Defined.

(** X11.  A block without the hub reference makes every registrar's
    [to_code] raise [KeyError] on "sen6x_id", whatever else the block
    declares. *)
Theorem to_code_requires_hub_reference
    (r : registrar) (config : dict) (s : list statement) :
  get sen6x.CONF_SEN6X_ID config = None ->
  to_code_of r (VDict config) s = Raise (KeyError "sen6x_id").
Proof.
  intros H.
  destruct r; simpl to_code_of;
    [ unfold sensor.to_code | unfold binary_sensor.to_code
    | unfold number.to_code | unfold switch.to_code
    | unfold button.to_code | unfold text_sensor.to_code ];
    unfold bind at 1; unfold getitem; rewrite H; reflexivity.
Qed.

Lemma to_code_requires_hub_reference_witness :
  to_code_of BinaryState (VDict two_binary_sensors) []
  = Raise (KeyError "sen6x_id").
Proof.
  exact (to_code_requires_hub_reference BinaryState two_binary_sensors []
           eq_refl).
Defined.

(** *** The shape of follow-up statements *)

Lemma tuning_shape method hub d e st :
  tuning_follow_up method hub d = Some e -> In st e ->
  exists args, st = SCall hub method args.
Proof.
  unfold tuning_follow_up.
  destruct (get sensor.CONF_ALGORITHM_TUNING d) as [[| | | | | | |t]|];
    try discriminate; [|intros [= <-] []].
  destruct (get sensor.CONF_INDEX_OFFSET t); [|discriminate].
  destruct (get sensor.CONF_LEARNING_TIME_OFFSET_HOURS t); [|discriminate].
  destruct (get sensor.CONF_LEARNING_TIME_GAIN_HOURS t); [|discriminate].
  destruct (get sensor.CONF_GATING_MAX_DURATION_MINUTES t); [|discriminate].
  destruct (get sensor.CONF_STD_INITIAL t); [|discriminate].
  destruct (get sensor.CONF_GAIN_FACTOR t); [|discriminate].
  intros [= <-] [<-|[]]. eauto.
Qed.

Lemma compensation_shape hub d e st :
  compensation_follow_up hub d = Some e -> In st e ->
  exists args, st = SCall hub "set_temperature_compensation" args.
Proof.
  unfold compensation_follow_up. intros [= <-].
  destruct (_ || _); [intros [<-|[]]; eauto|intros []].
Qed.

Lemma interval_shape hub d e st :
  interval_follow_up hub d = Some e -> In st e ->
  exists args, st = SCall hub "set_auto_cleaning_interval" args.
Proof.
  unfold interval_follow_up.
  destruct (get switch.CONF_INTERVAL d) as [[| | | | | |t|]|];
    try discriminate.
  intros [= <-] [<-|[]]. eauto.
Qed.

(** A follow-up statement is a call of a follow-up method on the hub. *)
Lemma follow_up_shape (r : registrar) (b : binding) hub d e st :
  In b (bindings r) -> bextra b hub d = Some e -> In st e ->
  exists m args, st = SCall hub m args /\ In m follow_up_methods.
Proof.
  intros Hin.
  destruct r; simpl in Hin;
    repeat (destruct Hin as [<-|Hin];
      [ simpl bextra; intros He Hst;
        first
          [ injection He as <-; contradiction
          | destruct (tuning_shape _ _ _ _ _ He Hst) as [args ->];
            eexists; eexists; split; [reflexivity|simpl; tauto]
          | destruct (compensation_shape _ _ _ _ He Hst) as [args ->];
            eexists; eexists; split; [reflexivity|simpl; tauto]
          | destruct (interval_shape _ _ _ _ He Hst) as [args ->];
            eexists; eexists; split; [reflexivity|simpl; tauto] ] | ]);
    contradiction.
Qed.

Lemma calls_to_outside (hub : expression) (L : list string) (m : string)
    (e : list statement) :
  (forall st, In st e -> exists fm args, st = SCall hub fm args /\ In fm L) ->
  ~ In m L -> calls_to m e = [].
Proof.
  intros H Hm. induction e as [|st e IH]; [reflexivity|].
  destruct (H st (or_introl eq_refl)) as [fm [args [-> Hfm]]].
  cbn [calls_to]. destruct (String.eqb fm m) eqn:E.
  - apply String.eqb_eq in E. subst. contradiction.
  - apply IH. intros. apply H. now right.
Qed.

Lemma setters_are_not_follow_ups (r : registrar) (b : binding) :
  In b (bindings r) -> ~ In (bsetter b) follow_up_methods.
Proof.
  intros Hin.
  destruct r; simpl in Hin;
    repeat (destruct Hin as [<-|Hin];
            [simpl; intros H;
             repeat (destruct H as [H|H]; [discriminate|]); contradiction|]);
    contradiction.
Qed.

Lemma setters_NoDup (r : registrar) : NoDup (map bsetter (bindings r)).
Proof. apply distinct_NoDup. destruct r; reflexivity. Qed.

(** *** Calls of a method over the blocks of a registrar *)

Lemma calls_none_blocks p hub (bs : list binding) config out (m : string) :
  blocks_output p hub bs config = Some out ->
  (forall b, In b bs -> String.eqb (bsetter b) m = false) ->
  (forall b d e, In b bs -> get (bkey b) config = Some (VDict d) ->
     bextra b hub d = Some e -> calls_to m e = []) ->
  calls_to m out = [].
Proof.
  revert out. induction bs as [|b bs IH]; intros out H Hs He.
  - unfold blocks_output in H. simpl in H. now injection H as <-.
  - destruct (blocks_cons _ _ _ _ _ _ H) as [o [os [Ho [Hos ->]]]].
    rewrite calls_to_app.
    rewrite (IH os Hos) by (intros; eauto using in_cons).
    rewrite (calls_block _ _ _ _ _ m Ho (Hs b (or_introl eq_refl))).
    rewrite app_nil_r.
    destruct (get (bkey b) config) as [[| | | | | | |d]|] eqn:E;
      try reflexivity.
    destruct (bextra b hub d) as [e|] eqn:Ee; [|reflexivity].
    exact (He b d e (or_introl eq_refl) E Ee).
Qed.

Lemma calls_setter_unique p hub (bs : list binding) config out
    (b0 : binding) :
  blocks_output p hub bs config = Some out ->
  NoDup (map bsetter bs) ->
  In b0 bs ->
  (forall b d e, In b bs -> bextra b hub d = Some e ->
     calls_to (bsetter b0) e = []) ->
  calls_to (bsetter b0) out
  = match get (bkey b0) config with
    | Some (VDict d) =>
        match get CONF_ID d with
        | Some (VID i) => [[Var i]]
        | _ => []
        end
    | _ => []
    end.
Proof.
  revert out. induction bs as [|b bs IH]; intros out H Hnd Hin He;
    [contradiction|].
  destruct (blocks_cons _ _ _ _ _ _ H) as [o [os [Ho [Hos ->]]]].
  cbn [map] in Hnd. inversion Hnd as [|? ? Hnotin Hnd']; subst.
  rewrite calls_to_app. destruct Hin as [->|Hin].
  - rewrite (calls_none_blocks _ _ _ _ _ (bsetter b0) Hos).
    + rewrite app_nil_r. unfold entity_output in Ho.
      destruct (get (bkey b0) config) as [[| | | | | | |d]|];
        try discriminate; [|now injection Ho as <-].
      destruct (get CONF_ID d) as [[| | | | |i| |]|]; try discriminate.
      destruct (bextra b0 hub d) as [e|] eqn:Ee; [|discriminate].
      injection Ho as <-. cbn [calls_to]. rewrite String.eqb_refl.
      now rewrite (He b0 d e (or_introl eq_refl) Ee).
    + intros b Hb. apply String.eqb_neq. intros Heq. apply Hnotin.
      rewrite <- Heq. now apply in_map.
    + intros b d e Hb _ Hex. exact (He b d e (or_intror Hb) Hex).
  - rewrite (IH os Hos Hnd' Hin) by (intros; eauto using in_cons).
    assert (String.eqb (bsetter b) (bsetter b0) = false) as Hneq.
    { apply String.eqb_neq. intros Heq. apply Hnotin. rewrite Heq.
      now apply in_map. }
    rewrite (calls_block _ _ _ _ _ _ Ho Hneq).
    destruct (get (bkey b) config) as [[| | | | | | |d]|]; try reflexivity.
    destruct (bextra b hub d) as [e|] eqn:Ee; [|reflexivity].
    now rewrite (He b d e (or_introl eq_refl) Ee).
Qed.

(** X12.  Every binding point of a registrar is wired exactly once when
    its entity is declared, with the variable of that entity, and not at
    all otherwise; the declared entity is constructed on the registrar's
    platform with the keyword arguments of its key. *)
Theorem binding_point_wired_once
    (r : registrar) (raw : value) (config : dict) (b : binding) :
  Schema (schema_of r) raw = Some (VDict config) ->
  In b (bindings r) ->
  exists out,
    emitted (to_code_of r (VDict config)) = Some out /\
    match get (bkey b) config with
    | None => calls_to (bsetter b) out = []
    | Some c =>
        exists d i,
          c = VDict d /\ get CONF_ID d = Some (VID i) /\
          calls_to (bsetter b) out = [[Var i]] /\
          In (SNewEntity (platform_of r) d (bkwargs b)) out
    end.
Proof.
  intros Hs Hin. destruct (registrar_valid r _ _ Hs) as [out Hout].
  exists out. split.
  { apply emits_emitted with (a := tt). now apply to_code_emits. }
  unfold registrar_output in Hout.
  destruct (get sen6x.CONF_SEN6X_ID config) as [[| | | | |h| |]|];
    try discriminate.
  pose proof (calls_setter_unique _ _ _ _ _ b Hout (setters_NoDup r) Hin)
    as Hcalls.
  rewrite Hcalls.
  2:{ intros b' d e Hb' He.
      apply (calls_to_outside (Var h) follow_up_methods).
      - intros st Hst. exact (follow_up_shape r b' _ _ _ _ Hb' He Hst).
      - now apply (setters_are_not_follow_ups r). }
  destruct (blocks_entity _ _ _ _ _ b Hout Hin) as [o [Ho Hsub]].
  unfold entity_output in Ho.
  destruct (get (bkey b) config) as [[| | | | | | |d]|]; try discriminate;
    [|reflexivity].
  destruct (get CONF_ID d) as [[| | | | |i| |]|] eqn:Ei; try discriminate.
  destruct (bextra b (Var h) d) as [e|]; [|discriminate].
  injection Ho as <-. exists d, i.
  split; [reflexivity|]. split; [assumption|]. split; [reflexivity|].
  apply Hsub. now left.
Qed.

Lemma binding_point_wired_once_witness :
  exists config out,
    Schema (schema_of BinaryState) (VDict two_binary_sensors)
      = Some (VDict config) /\
    emitted (to_code_of BinaryState (VDict config)) = Some out /\
    calls_to "set_pm_error_binary_sensor" out = [[Var (Some "pm_error")]] /\
    calls_to "set_gas_error_binary_sensor" out = [].
Proof.
  eexists.
  assert (Schema (schema_of BinaryState) (VDict two_binary_sensors)
          = Some (VDict _)) as Hs by (vm_compute; reflexivity).
  destruct (binding_point_wired_once BinaryState _ _
              (mkBinding binary_sensor.CONF_PM_ERROR
                 "set_pm_error_binary_sensor" [] no_follow_up) Hs)
    as [out [He H]]; [simpl; tauto|].
  exists out. split; [exact Hs|]. split; [exact He|].
  cbv beta iota in H. destruct H as [d [i [Hd [Hi [Hc _]]]]].
  injection Hd as <-. vm_compute in Hi. injection Hi as <-.
  split; [exact Hc|].
  destruct (binding_point_wired_once BinaryState _ _
              (mkBinding binary_sensor.CONF_GAS_ERROR
                 "set_gas_error_binary_sensor" [] no_follow_up) Hs)
    as [out' [He' H']]; [simpl; tauto|].
  rewrite He in He'. injection He' as <-. exact H'.
Defined.

End RegistrarProperties.
Section RegistrarStatements.

Import cv.

Lemma blocks_statements p hub (bs : list binding) config out st :
  blocks_output p hub bs config = Some out -> In st out ->
  exists b, In b bs /\
    ((exists d, st = SNewEntity p d (bkwargs b)) \/
     (exists i, st = SCall hub (bsetter b) [Var i]) \/
     (exists d e, bextra b hub d = Some e /\ In st e)).
Proof.
  revert out. induction bs as [|b bs IH]; intros out H Hst.
  - unfold blocks_output in H. simpl in H. injection H as <-. contradiction.
  - destruct (blocks_cons _ _ _ _ _ _ H) as [o [os [Ho [Hos ->]]]].
    apply in_app_or in Hst. destruct Hst as [Hst|Hst].
    + exists b. split; [now left|]. unfold entity_output in Ho.
      destruct (get (bkey b) config) as [[| | | | | | |d]|];
        try discriminate; [|injection Ho as <-; contradiction].
      destruct (get CONF_ID d) as [[| | | | |i| |]|]; try discriminate.
      destruct (bextra b hub d) as [e|] eqn:Ee; [|discriminate].
      injection Ho as <-. destruct Hst as [<-|[<-|Hst]]; eauto 6.
    + destruct (IH os Hos Hst) as [b' [Hb' H']]. exists b'.
      split; [now right|assumption].
Qed.

(** X13.  A registrar touches nothing but its own platform and the hub:
    every statement it issues constructs an entity of its platform or
    calls, on the hub referenced by "sen6x_id", a setter of its own table
    or a follow-up method. *)
Theorem registrar_statements_target_hub
    (r : registrar) (raw : value) (config : dict) :
  Schema (schema_of r) raw = Some (VDict config) ->
  exists out h,
    emitted (to_code_of r (VDict config)) = Some out /\
    get sen6x.CONF_SEN6X_ID config = Some (VID h) /\
    forall st, In st out ->
      (exists d kwargs, st = SNewEntity (platform_of r) d kwargs) \/
      (exists m args, st = SCall (Var h) m args /\
         In m (map bsetter (bindings r) ++ follow_up_methods)).
Proof.
  intros Hs. destruct (registrar_valid r _ _ Hs) as [out Hout].
  unfold registrar_output in Hout.
  destruct (get sen6x.CONF_SEN6X_ID config) as [[| | | | |h| |]|] eqn:Eh;
    try discriminate.
  exists out, h. split; [|split; [reflexivity|]].
  { apply emits_emitted with (a := tt). apply to_code_emits.
    unfold registrar_output. now rewrite Eh. }
  intros st Hst.
  destruct (blocks_statements _ _ _ _ _ _ Hout Hst)
    as [b [Hb [[d ->]|[[i ->]|[d [e [He Hin]]]]]]].
  - left. eauto.
  - right. eexists. eexists. split; [reflexivity|].
    apply in_or_app. left. now apply in_map.
  - right. destruct (follow_up_shape r b _ _ _ _ Hb He Hin)
      as [m [args [-> Hm]]].
    eexists. eexists. split; [reflexivity|]. apply in_or_app. now right.
Qed.

Lemma registrar_statements_target_hub_witness :
  exists config out,
    Schema (schema_of Sensor) humidity_then_pm = Some (VDict config) /\
    emitted (to_code_of Sensor (VDict config)) = Some out /\
    forall obj m args, In (SCall obj m args) out -> obj = Var None.
Proof.
  eexists.
  assert (Schema (schema_of Sensor) humidity_then_pm = Some (VDict _)) as Hs
    by (vm_compute; reflexivity).
  destruct (registrar_statements_target_hub Sensor _ _ Hs)
    as [out [h [He [Hh H]]]].
  exists out. split; [exact Hs|]. split; [exact He|].
  vm_compute in Hh. injection Hh as <-.
  intros obj m args Hin.
  destruct (H _ Hin) as [[d [kw E]]|[m' [args' [E _]]]];
    [discriminate E|now injection E].
Defined.

Lemma calls_tuning_elsewhere (m' m : string) hub d e :
  tuning_follow_up m' hub d = Some e ->
  String.eqb m' m = false ->
  calls_to m e = [].
Proof.
  intros He Hm. pose proof (calls_tuning_other m' m hub d Hm) as H.
  now rewrite He in H.
Qed.

(** X14.  A follow-up instruction is never issued for an entity that is
    not declared: no VOC or NOx tuning without the index sensor, no
    temperature compensation without the temperature offset, no cleaning
    interval without the auto-cleaning switch. *)
Theorem no_follow_up_without_entity
    (r : registrar) (k m : string) (raw : value) (config : dict) :
  In (r, k, m) follow_up_owner ->
  Schema (schema_of r) raw = Some (VDict config) ->
  get k config = None ->
  exists out,
    emitted (to_code_of r (VDict config)) = Some out /\
    calls_to m out = [].
Proof.
  intros Hin Hs Hk. destruct (registrar_valid r _ _ Hs) as [out Hout].
  exists out. split.
  { apply emits_emitted with (a := tt). now apply to_code_emits. }
  unfold registrar_output in Hout.
  destruct (get sen6x.CONF_SEN6X_ID config) as [[| | | | |h| |]|];
    try discriminate.
  simpl in Hin.
  repeat (destruct Hin as [[= <- <- <-]|Hin];
    [ apply (calls_none_blocks _ _ _ _ _ _ Hout);
      [ intros b Hb; simpl in Hb;
        repeat (destruct Hb as [<-|Hb]; [reflexivity|]); contradiction
      | intros b d e Hb; simpl in Hb;
        repeat (destruct Hb as [<-|Hb];
          [ cbn [bkey bextra]; intros Hg He;
            first
              [ congruence
              | unfold no_follow_up in He; injection He as <-; reflexivity
              | apply (calls_tuning_elsewhere _ _ _ _ _ He); reflexivity ]
          | ]);
        contradiction ] | ]).
  contradiction.
Qed.

Lemma no_follow_up_without_entity_witness :
  exists config out,
    Schema (schema_of Switch) (VDict switch_without_cleaning)
      = Some (VDict config) /\
    emitted (to_code_of Switch (VDict config)) = Some out /\
    calls_to "set_auto_cleaning_interval" out = [].
Proof.
  eexists.
  assert (Schema (schema_of Switch) (VDict switch_without_cleaning)
          = Some (VDict _)) as Hs by (vm_compute; reflexivity).
  destruct (no_follow_up_without_entity Switch
              switch.CONF_AUTO_FAN_CLEANING "set_auto_cleaning_interval"
              _ _ (or_intror (or_intror (or_intror (or_introl eq_refl))))
              Hs eq_refl) as [out [He Hc]].
  exists out. split; [exact Hs|]. split; [exact He|]. exact Hc.
Defined.

(** X15.  A temperature offset declared without slope and time constant
    is wired without any temperature-compensation instruction: the
    defaults of the schema are the values for which [to_code] issues
    none. *)
Theorem no_compensation_by_default (raw config rd : dict) :
  Schema number.CONFIG_SCHEMA (VDict raw) = Some (VDict config) ->
  get number.CONF_TEMPERATURE_OFFSET raw = Some (VDict rd) ->
  get number.CONF_NORMALIZED_OFFSET_SLOPE rd = None ->
  get number.CONF_TIME_CONSTANT rd = None ->
  exists out d,
    emitted (number.to_code (VDict config)) = Some out /\
    get number.CONF_TEMPERATURE_OFFSET config = Some (VDict d) /\
    get number.CONF_NORMALIZED_OFFSET_SLOPE d = Some (VFloat float_0_0) /\
    get number.CONF_TIME_CONSTANT d = Some (VInt 0) /\
    calls_to "set_temperature_compensation" out = [] /\
    List.length (calls_to "set_temperature_offset_number" out) = 1%nat.
Proof.
  intros Hs Hr Hslope Htc.
  destruct (Schema_forward _ _ _ Hs _ _ Hr) as [f [v [Hf [Hc Hv]]]].
  simpl in Hf. injection Hf as <-. cbn [check Optional] in Hc.
  destruct (Schema_dict _ _ _ Hc) as [rd' [d [[= <-] ->]]].
  assert (NoDup (map key
    (extend
       (number.number_schema
          [ ("icon", VStr "mdi:thermometer-lines");
            ("entity_category", VStr number.ENTITY_CATEGORY_CONFIG);
            ("unit_of_measurement", VStr number.UNIT_CELSIUS) ])
       [ OptionalDefault "mode" (VStr "BOX") (enum number.NUMBER_MODES true);
         OptionalDefault number.CONF_NORMALIZED_OFFSET_SLOPE
           (VFloat float_0_0) (float_range float_m1_0 float_1_0);
         OptionalDefault number.CONF_TIME_CONSTANT (VInt 0)
           (int_range 0 65535) ]))) as Hnd
    by (apply distinct_NoDup; reflexivity).
  destruct (Schema_present _ _ _ Hc number.CONF_NORMALIZED_OFFSET_SLOPE
              _ eq_refl) as [v1 Hv1]; [discriminate|].
  destruct (Schema_present _ _ _ Hc number.CONF_TIME_CONSTANT
              _ eq_refl) as [v2 Hv2]; [discriminate|].
  destruct (Schema_get_nodup _ _ _ Hc _ _ Hnd Hv1) as [f1 [Hf1 Hs1]].
  destruct (Schema_get_nodup _ _ _ Hc _ _ Hnd Hv2) as [f2 [Hf2 Hs2]].
  simpl in Hf1. injection Hf1 as <-. simpl in Hf2. injection Hf2 as <-.
  rewrite Hslope in Hs1. rewrite Htc in Hs2.
  destruct Hs1 as [d1 [[= <-] Hc1]]. destruct Hs2 as [d2 [[= <-] Hc2]].
  vm_compute in Hc1. vm_compute in Hc2.
  injection Hc1 as <-. injection Hc2 as <-.
  destruct (registrar_valid Number _ _ Hs) as [out Hout].
  exists out, d.
  split; [|split; [assumption|split; [assumption|split; [assumption|]]]].
  { apply emits_emitted with (a := tt). now apply (to_code_emits Number). }
  open_registrar Hout i Hi. rewrite !calls_to_app. split.
  - rewrite (calls_block _ _ _ _ _ "set_temperature_compensation" Ho1 eq_refl).
    drop_simple_blocks "set_temperature_compensation".
    rewrite Hv. cbn [bextra]. unfold compensation_follow_up, get_default.
    rewrite Hv1, Hv2. reflexivity.
  - unfold entity_output in Ho1. rewrite Hv in Ho1.
    destruct (get CONF_ID d) as [[| | | | |j| |]|]; try discriminate.
    cbn [bextra bkwargs bsetter] in Ho1.
    unfold compensation_follow_up, get_default in Ho1.
    rewrite Hv1, Hv2 in Ho1. injection Ho1 as <-.
    drop_simple_blocks "set_temperature_offset_number". reflexivity.
Qed.

Lemma no_compensation_by_default_witness :
  exists config out,
    Schema number.CONFIG_SCHEMA (VDict temperature_offset_plain)
      = Some (VDict config) /\
    emitted (number.to_code (VDict config)) = Some out /\
    calls_to "set_temperature_compensation" out = [].
Proof.
  eexists.
  assert (Schema number.CONFIG_SCHEMA (VDict temperature_offset_plain)
          = Some (VDict _)) as Hs by (vm_compute; reflexivity).
  destruct (no_compensation_by_default _ _ _ Hs eq_refl eq_refl eq_refl)
    as [out [d [He [_ [_ [_ [Hc _]]]]]]].
  exists out. split; [exact Hs|]. split; [exact He|]. exact Hc.
Defined.

Lemma follow_up_constructs_nothing (r : registrar) (b : binding) hub d e :
  In b (bindings r) -> bextra b hub d = Some e -> constructed e = [].
Proof.
  intros Hb He.
  assert (forall st, In st e -> exists m args, st = SCall hub m args) as Hshape.
  { intros st Hst.
    destruct (follow_up_shape r b _ _ _ _ Hb He Hst) as [m [args [-> _]]].
    eauto. }
  clear He. induction e as [|st e IH]; [reflexivity|].
  destruct (Hshape st (or_introl eq_refl)) as [m [args ->]].
  cbn [constructed]. apply IH. intros. apply Hshape. now right.
Qed.

Lemma constructed_length_blocks p hub (bs : list binding) config out :
  (forall b d e, In b bs -> bextra b hub d = Some e -> constructed e = []) ->
  blocks_output p hub bs config = Some out ->
  List.length (constructed out)
  = List.length (filter (fun b => contains (bkey b) config) bs).
Proof.
  revert out. induction bs as [|b bs IH]; intros out Hex H.
  - unfold blocks_output in H. simpl in H. now injection H as <-.
  - destruct (blocks_cons _ _ _ _ _ _ H) as [o [os [Ho [Hos ->]]]].
    rewrite constructed_app, length_app,
      (IH os (fun b' d e Hb' => Hex b' d e (or_intror Hb')) Hos).
    cbn [filter]. rewrite (contains_get (bkey b) config).
    rewrite (constructed_block _ _ _ _ _ Ho).
    + unfold entity_output in Ho.
      destruct (get (bkey b) config) as [[| | | | | | |d]|];
        try discriminate; reflexivity.
    + intros d e. apply (Hex b d e). now left.
Qed.

End RegistrarStatements.
Section DeclaredEntities.

Import cv.

Lemma entity_keys_optional (r : registrar) (b : binding) :
  In b (bindings r) ->
  exists f, find_field (bkey b) (schema_of r) = Some f /\
            mark f = MOptional None.
Proof.
  intros Hin.
  destruct r; simpl in Hin;
    repeat (destruct Hin as [<-|Hin];
            [eexists; split; reflexivity|]);
    contradiction.
Qed.

(** Validation neither adds nor removes an entity. *)
Lemma declared_preserved (r : registrar) (raw config : dict) (b : binding) :
  Schema (schema_of r) (VDict raw) = Some (VDict config) ->
  In b (bindings r) ->
  contains (bkey b) config = contains (bkey b) raw.
Proof.
  intros Hs Hin. destruct (entity_keys_optional r b Hin) as [f [Hf Hm]].
  unfold contains.
  destruct (get (bkey b) raw) as [v0|] eqn:Er.
  - destruct (Schema_forward _ _ _ Hs _ _ Er) as [f' [v [_ [_ ->]]]].
    reflexivity.
  - destruct (get (bkey b) config) as [v|] eqn:Ec; [|reflexivity].
    destruct (Schema_get_nodup _ _ _ Hs _ _ (registrar_schema_NoDup r) Ec)
      as [f' [Hf' Hsrc]].
    rewrite Hf in Hf'. injection Hf' as <-. rewrite Er in Hsrc.
    destruct Hsrc as [d [Hd _]]. congruence.
Qed.

Lemma NoDup_map_injective {A B} (f : A -> B) (l : list A) (x y : A) :
  NoDup (map f l) -> In x l -> In y l -> f x = f y -> x = y.
Proof.
  induction l as [|a l IH]; simpl; [tauto|].
  intros Hnd. inversion Hnd as [|? ? Hn Hnd']; subst.
  intros [->|Hx] [->|Hy] Heq; auto.
  - exfalso. apply Hn. rewrite Heq. now apply in_map.
  - exfalso. apply Hn. rewrite <- Heq. now apply in_map.
Qed.

(** X17.  A registrar wires exactly the entities the user declares:
    validation adds the hub reference when it is left out but never an
    entity, and the binding points wired are those of the keys of the
    user's block, in the order of the registrar's table. *)
Theorem wired_iff_declared (r : registrar) (raw config : dict) :
  Schema (schema_of r) (VDict raw) = Some (VDict config) ->
  exists out,
    emitted (to_code_of r (VDict config)) = Some out /\
    bound_setters out = setters_in_table_order r raw /\
    List.length (constructed out)
    = List.length (filter (fun b => contains (bkey b) raw) (bindings r)) /\
    (forall b, In b (bindings r) ->
       (In (bsetter b) (bound_setters out) <-> contains (bkey b) raw = true)).
Proof.
  intros Hs. destruct (registrar_valid r _ _ Hs) as [out Hout].
  exists out. split.
  { apply emits_emitted with (a := tt). now apply to_code_emits. }
  unfold registrar_output in Hout.
  destruct (get sen6x.CONF_SEN6X_ID config) as [[| | | | |h| |]|];
    try discriminate.
  assert (filter (fun b => contains (bkey b) config) (bindings r)
          = filter (fun b => contains (bkey b) raw) (bindings r)) as Hfilter.
  { apply filter_ext_in. intros b Hb. now apply (declared_preserved r). }
  assert (bound_setters out = setters_in_table_order r raw) as Hbound.
  { rewrite (bound_setters_blocks _ _ _ _ _
               (fun b d e Hb => follow_up_unbound r b (Var h) d e Hb) Hout).
    unfold setters_in_table_order. now rewrite Hfilter. }
  split; [exact Hbound|]. split.
  - rewrite <- Hfilter.
    exact (constructed_length_blocks _ _ _ _ _
             (fun b d e Hb => follow_up_constructs_nothing r b (Var h) d e Hb)
             Hout).
  - intros b Hb. rewrite Hbound. unfold setters_in_table_order. split.
    + intros Hin. apply in_map_iff in Hin. destruct Hin as [b' [Heq Hb']].
      apply filter_In in Hb'. destruct Hb' as [Hb' Hc].
      now rewrite <- (NoDup_map_injective bsetter _ _ _ (setters_NoDup r)
                        Hb' Hb Heq).
    + intros Hc. apply in_map. apply filter_In. now split.
Qed.

Lemma wired_iff_declared_witness :
  exists config out,
    Schema (schema_of BinaryState) (VDict two_binary_sensors)
      = Some (VDict config) /\
    emitted (to_code_of BinaryState (VDict config)) = Some out /\
    bound_setters out
    = ["set_fan_error_binary_sensor"; "set_pm_error_binary_sensor"].
Proof.
  eexists.
  assert (Schema (schema_of BinaryState) (VDict two_binary_sensors)
          = Some (VDict _)) as Hs by (vm_compute; reflexivity).
  destruct (wired_iff_declared BinaryState _ _ Hs) as [out [He [Hb _]]].
  exists out. split; [exact Hs|]. split; [exact He|].
  rewrite Hb. vm_compute. reflexivity.
Defined.

(** X18.  A number configuration whose temperature offset holds a time
    constant outside [[0, 65535]] or a slope that is not within
    [[-1.0, 1.0]], a NaN included, is rejected as a whole. *)
Theorem compensation_out_of_range_rejected (raw rd : dict) :
  get number.CONF_TEMPERATURE_OFFSET raw = Some (VDict rd) ->
  (exists z, get number.CONF_TIME_CONSTANT rd = Some (VInt z) /\
             (z < 0 \/ 65535 < z)) \/
  (exists f, get number.CONF_NORMALIZED_OFFSET_SLOPE rd = Some (VFloat f) /\
             (SFleb float_m1_0 f = false \/ SFleb f float_1_0 = false)) ->
  Schema number.CONFIG_SCHEMA (VDict raw) = None.
Proof.
  intros Hr Hbad.
  eapply Schema_rejects; [exact Hr|reflexivity|]. cbn [check Optional].
  destruct Hbad as [[z [Hz Hout]]|[f [Hf Hout]]].
  - eapply Schema_rejects; [exact Hz|reflexivity|].
    cbn [check OptionalDefault]. now apply int_range_rejects.
  - eapply Schema_rejects; [exact Hf|reflexivity|].
    cbn [check OptionalDefault]. unfold float_range.
    destruct Hout as [-> | ->]; [reflexivity|].
    now destruct (SFleb float_m1_0 f).
Qed.

Lemma compensation_out_of_range_rejected_witness :
  Schema number.CONFIG_SCHEMA (VDict temperature_offset_nan_slope) = None.
Proof.
  apply (compensation_out_of_range_rejected temperature_offset_nan_slope
           [(number.CONF_NORMALIZED_OFFSET_SLOPE, VFloat S754_nan)] eq_refl).
  right. exists S754_nan. split; [reflexivity|]. left. reflexivity.
Defined.

End DeclaredEntities.
